(** * Scheduled analysis jobs and commands of the crypto bot (main.py)

    A shallow embedding of the job bodies [hourly_analysis],
    [four_hour_analysis], [volume_spike_monitor] and of the commands
    [manual_analysis] and [top_gainers], followed by the properties the
    specification states about them.

    Conventions of the embedding:
    - a Python [dict] is an association list in insertion order;
    - Python numbers are integers of [Z];
    - the collaborators imported by main.py (market data, the two analysis
      brains, the ranker, the detectors, the embed formatters, the channel)
      are the fields of an environment record [env]; each of them may return
      a value or raise;
    - a run is a computation in a state-and-exception monad whose state holds
      the chronological trace of observable effects and the global
      [last_analysis_time] dictionary;
    - the exceptions of the model are the errors of class [Exception], the
      ones the [except Exception] clauses catch;
    - [str.upper], which follows Unicode, is a parameter of the [analisis]
      command. *)

From stdpp Require Import gmap strings list fin_maps sorting pretty.
From Stdlib Require Import ZArith Permutation.

Local Open Scope string_scope.
Local Open Scope list_scope.
Local Open Scope Z_scope.

(** ** Python dictionaries *)

Definition pydict (V : Type) : Type := list (string * V).

Fixpoint dict_get {V : Type} (k : string) (d : pydict V) : option V :=
  match d with
  | [] => None
  | (k', v) :: d' => if decide (k' = k) then Some v else dict_get k d'
  end.

(** [k in d] *)
Definition dict_contains {V : Type} (k : string) (d : pydict V) : bool :=
  match dict_get k d with Some _ => true | None => false end.

(** [d.get(k, dflt)] *)
Definition dict_get_default {V : Type} (k : string) (d : pydict V) (dflt : V) : V :=
  match dict_get k d with Some v => v | None => dflt end.

(** Truth value of a dictionary: [bool(d)] is [len(d) != 0]. *)
Definition dict_truthy {V : Type} (d : pydict V) : bool :=
  match d with [] => false | _ :: _ => true end.

(** Truth value of a string. *)
Definition str_truthy (s : string) : bool :=
  match s with EmptyString => false | String _ _ => true end.

(** A record of numeric fields: a market record ([price], [volume_24h],
    [percent_change_24h], ...) or an analysis record. *)
Definition record : Type := pydict Z.

(** [MarketSnapshot]: symbol to market record. *)
Definition snapshot : Type := pydict record.

(** [AnalysisResult]: symbol to analysis record. *)
Definition analysis : Type := pydict record.

(** An opportunity or a detector alert: a dictionary whose ['symbol'] entry,
    when present, is a string, and whose other entries are numbers. *)
Record item : Type := Item {
  item_symbol : option string;
  item_fields : record
}.

(** ** Exceptions, messages and events *)

(** The errors of class [Exception]: what a collaborator, a formatter, a
    dictionary access or the channel may raise, and what the clause
    [except Exception] of every job and command catches. An interruption
    that is a [BaseException] only (the cancellation of the task, a keyboard
    interrupt) is not an outcome of this model. *)
Inductive exn : Type :=
| Exception (msg : string)
| KeyError (key : string)
| UnboundLocalError (var : string).

(** [str(e)] *)
Definition exn_str (e : exn) : string :=
  match e with
  | Exception msg => msg
  | KeyError key => "'" +:+ key +:+ "'"
  | UnboundLocalError var =>
      "cannot access local variable '" +:+ var +:+ "' where it is not associated with a value"
  end.

Inductive res (A : Type) : Type :=
| Val (a : A)
| Exc (e : exn).
Arguments Val {A} a.
Arguments Exc {A} e.

(** One field of the top-gainers embed. *)
Record gainer_field : Type := GainerField {
  gf_rank : nat;
  gf_symbol : string;
  gf_price : Z;
  gf_change : Z;
  gf_volume : Z
}.

(** Embeds are kept symbolic: the formatter call that built them. *)
Inductive embed : Type :=
| AnalysisEmbed (md : snapshot) (john alpha : analysis) (title : string)
    (specific_coin : option string)
| AlertEmbed (payload : item) (tag : string)
| TopEmbed (title : string) (fields : list gainer_field).

Inductive message : Type :=
| Text (s : string)
| Embed (e : embed).

Inductive log_line : Type :=
| LogNoChannel
| LogHourlyStart
| LogFourHourStart
| LogHourlyError (e : exn)
| LogFourHourError (e : exn)
| LogVolumeError (e : exn).

Inductive event : Type :=
| EvPrint (l : log_line)
| EvFetch
| EvJohn (timeframe : string) (deep : bool)
| EvAlpha (timeframe : string) (deep : bool)
| EvRank (min_score : Z)
| EvDeepCoin (coin : string)
| EvDetectVolume
| EvDetectWhale
| EvSend (m : message)
| EvSendFailed (m : message)
| EvSleep (secs : Z).

(** ** Collaborators *)

Record env : Type := Env {
  (** [bot.get_channel(CHANNEL_ID)]: whether a channel object comes back. *)
  bot_get_channel : res bool;
  get_comprehensive_market_data : res snapshot;
  john_analysis : snapshot -> string -> bool -> res analysis;
  alpha_analysis : snapshot -> string -> bool -> res analysis;
  rank_opportunities : analysis -> analysis -> Z -> res (list item);
  deep_coin_analysis : string -> record -> res analysis;
  detect_volume_spikes : res (list item);
  detect_whale_movements : res (list item);
  (** the formatters build the symbolic embed unless they raise *)
  create_alert_embed_err : item -> string -> option exn;
  create_analysis_embed_err :
    snapshot -> analysis -> analysis -> string -> option string -> option exn;
  (** [channel.send] / [ctx.send]: the error raised, if any, given what the
      run did so far *)
  send_err : list event -> message -> option exn;
  (** [datetime.datetime.now()] when the run records its completion *)
  now : Z
}.

(** ** The state-and-exception monad of one run *)

Record world : Type := World {
  trace : list event;
  last_analysis_time : gmap string Z
}.

Definition M (A : Type) : Type := world -> res A * world.

Definition ret {A : Type} (a : A) : M A := fun w => (Val a, w).

Definition bind {A B : Type} (c : M A) (k : A -> M B) : M B :=
  fun w =>
    match c w with
    | (Val a, w') => k a w'
    | (Exc e, w') => (Exc e, w')
    end.

Definition raise {A : Type} (e : exn) : M A := fun w => (Exc e, w).

(** [try: body except Exception as e: handler e] *)
Definition try_except {A : Type} (body : M A) (handler : exn -> M A) : M A :=
  fun w =>
    match body w with
    | (Val a, w') => (Val a, w')
    | (Exc e, w') => handler e w'
    end.

Notation "x <- c ;; k" := (bind c (fun x => k))
  (at level 100, c at next level, right associativity).
Notation "c ;;; k" := (bind c (fun _ => k))
  (at level 100, right associativity).

Definition emit (ev : event) : M unit :=
  fun w => (Val tt, World (trace w ++ [ev]) (last_analysis_time w)).

Definition lift {A : Type} (r : res A) : M A := fun w => (r, w).

(** A collaborator call: the call is observable, then it returns or raises. *)
Definition call {A : Type} (ev : event) (r : res A) : M A :=
  emit ev ;;; lift r.

Definition print (l : log_line) : M unit := emit (EvPrint l).

Definition sleep (secs : Z) : M unit := emit (EvSleep secs).

(** [d[k]] *)
Definition dict_index {V : Type} (k : string) (d : pydict V) : M V :=
  match dict_get k d with
  | Some v => ret v
  | None => raise (KeyError k)
  end.

(** [last_analysis_time[key] = t] *)
Definition set_last (key : string) (t : Z) : M unit :=
  fun w => (Val tt, World (trace w) (<[key := t]> (last_analysis_time w))).

(** How a run that did not let an exception escape ended. *)
Inductive run_end : Type :=
| Completed
| ReturnedEarly
| Handled (e : exn).

Section Jobs.

Variable E : env.

Definition send (m : message) : M unit :=
  fun w =>
    match send_err E (trace w) m with
    | None => emit (EvSend m) w
    | Some e => (emit (EvSendFailed m) ;;; raise e) w
    end.

Definition create_alert_embed (o : item) (tag : string) : M embed :=
  match create_alert_embed_err E o tag with
  | None => ret (AlertEmbed o tag)
  | Some e => raise e
  end.

Definition create_analysis_embed (md : snapshot) (john alpha : analysis)
    (title : string) (specific_coin : option string) : M embed :=
  match create_analysis_embed_err E md john alpha title specific_coin with
  | None => ret (AnalysisEmbed md john alpha title specific_coin)
  | Some e => raise e
  end.

(** [opportunity.get('symbol') != 'BTC'] *)
Definition not_btc (o : item) : bool :=
  bool_decide (item_symbol o <> Some "BTC").

(** *** hourly_analysis *)

(** The loop over [ranked_opportunities] with its [altcoin_count]. *)
Fixpoint hourly_alerts (ranked : list item) (altcoin_count : nat) : M unit :=
  match ranked with
  | [] => ret tt
  | opportunity :: rest =>
      if not_btc opportunity && (altcoin_count <? 5)%nat then
        embed <- create_alert_embed opportunity "🚀 HIGH POTENTIAL" ;;
        send (Embed embed) ;;;
        sleep 2 ;;;
        hourly_alerts rest (S altcoin_count)
      else hourly_alerts rest altcoin_count
  end.

(** The [try] block once [channel] is bound. *)
Definition hourly_try (channel : bool) : M run_end :=
  if negb channel then
    print LogNoChannel ;;; ret ReturnedEarly
  else
    print LogHourlyStart ;;;
    market_data <- call EvFetch (get_comprehensive_market_data E) ;;
    if negb (dict_truthy market_data) then
      send (Text "⚠️ **Market Data Unavailable** - Unable to fetch market data for analysis") ;;;
      ret ReturnedEarly
    else
      john_results <- call (EvJohn "1H" false) (john_analysis E market_data "1H" false) ;;
      alpha_results <- call (EvAlpha "1H" false) (alpha_analysis E market_data "1H" false) ;;
      (if dict_contains "BTC" market_data then
         let btc_john := dict_get_default "BTC" john_results [] in
         let btc_alpha := dict_get_default "BTC" alpha_results [] in
         if dict_truthy btc_john || dict_truthy btc_alpha then
           btc_data <- dict_index "BTC" market_data ;;
           btc_embed <- create_analysis_embed [("BTC", btc_data)] [("BTC", btc_john)]
                          [("BTC", btc_alpha)] "1H Bitcoin Report" (Some "BTC") ;;
           send (Embed btc_embed) ;;;
           sleep 2
         else ret tt
       else ret tt) ;;;
      ranked_opportunities <-
        call (EvRank 75) (rank_opportunities E john_results alpha_results 75) ;;
      hourly_alerts ranked_opportunities 0 ;;;
      summary_embed <- create_analysis_embed market_data john_results alpha_results
                         "1H Market Overview" None ;;
      send (Embed summary_embed) ;;;
      set_last "hourly" (now E) ;;;
      ret Completed.

(** The [except Exception as e] block. The local [channel] is bound only if
    the first statement of the [try] block returned: [None] stands for the
    unbound variable, whose read raises inside the handler. *)
Definition hourly_except (channel : option bool) (e : exn) : M run_end :=
  print (LogHourlyError e) ;;;
  match channel with
  | None => raise (UnboundLocalError "channel")
  | Some c =>
      if c then
        send (Text ("❌ **Analysis Error** - " +:+ exn_str e)) ;;; ret (Handled e)
      else ret (Handled e)
  end.

Definition hourly_analysis : M run_end :=
  fun w =>
    match lift (bot_get_channel E) w with
    | (Exc e, w') => hourly_except None e w'
    | (Val channel, w') =>
        try_except (hourly_try channel) (hourly_except (Some channel)) w'
    end.

(** *** four_hour_analysis *)

(** The loop over [ranked_opportunities[:3]]. *)
Fixpoint premium_alerts (top : list item) : M unit :=
  match top with
  | [] => ret tt
  | opportunity :: rest =>
      embed <- create_alert_embed opportunity "⚡ PREMIUM SIGNAL" ;;
      send (Embed embed) ;;;
      sleep 3 ;;;
      premium_alerts rest
  end.

Definition four_hour_try : M run_end :=
  channel <- lift (bot_get_channel E) ;;
  if negb channel then ret ReturnedEarly
  else
    print LogFourHourStart ;;;
    market_data <- call EvFetch (get_comprehensive_market_data E) ;;
    if negb (dict_truthy market_data) then ret ReturnedEarly
    else
      john_results <- call (EvJohn "4H" true) (john_analysis E market_data "4H" true) ;;
      alpha_results <- call (EvAlpha "4H" true) (alpha_analysis E market_data "4H" true) ;;
      ranked_opportunities <-
        call (EvRank 85) (rank_opportunities E john_results alpha_results 85) ;;
      premium_alerts (take 3 ranked_opportunities) ;;;
      set_last "four_hour" (now E) ;;;
      ret Completed.

(** The handler only prints; it never reads [channel]. *)
Definition four_hour_analysis : M run_end :=
  try_except four_hour_try
    (fun e => print (LogFourHourError e) ;;; ret (Handled e)).

(** *** volume_spike_monitor *)

(** [alert['volume_increase'] >= 300] guards the dispatch of a volume alert. *)
Fixpoint volume_alerts_loop (alerts : list item) : M unit :=
  match alerts with
  | [] => ret tt
  | alert :: rest =>
      volume_increase <- dict_index "volume_increase" (item_fields alert) ;;
      (if 300 <=? volume_increase then
         embed <- create_alert_embed alert "📊 VOLUME SPIKE" ;;
         send (Embed embed)
       else ret tt) ;;;
      volume_alerts_loop rest
  end.

Fixpoint whale_alerts_loop (alerts : list item) : M unit :=
  match alerts with
  | [] => ret tt
  | alert :: rest =>
      embed <- create_alert_embed alert "🐋 WHALE MOVEMENT" ;;
      send (Embed embed) ;;;
      whale_alerts_loop rest
  end.

Definition volume_try : M run_end :=
  channel <- lift (bot_get_channel E) ;;
  if negb channel then ret ReturnedEarly
  else
    volume_alerts <- call EvDetectVolume (detect_volume_spikes E) ;;
    volume_alerts_loop volume_alerts ;;;
    whale_alerts <- call EvDetectWhale (detect_whale_movements E) ;;
    whale_alerts_loop whale_alerts ;;;
    ret Completed.

Definition volume_spike_monitor : M run_end :=
  try_except volume_try
    (fun e => print (LogVolumeError e) ;;; ret (Handled e)).

(** *** The [analisis] command *)

(** [str.upper] of Python follows the case mappings of Unicode; the command
    is modelled for an arbitrary upper-casing function. *)
Variable upper : string -> string.

(** The loop over [enumerate(ranked_opportunities[:3], 1)]. *)
Fixpoint opportunity_alerts (top : list item) (i : nat) : M unit :=
  match top with
  | [] => ret tt
  | opportunity :: rest =>
      embed <- create_alert_embed opportunity ("🎯 OPPORTUNITY #" +:+ pretty i) ;;
      send (Embed embed) ;;;
      (if (i <? 3)%nat then sleep 2 else ret tt) ;;;
      opportunity_alerts rest (S i)
  end.

(** The branch [if coin:] for a specific coin. *)
Definition manual_coin (coin : string) (market_data : snapshot) : M run_end :=
  let coin := upper coin in
  if dict_contains coin market_data then
    coin_data <- dict_index coin market_data ;;
    analysis <- call (EvDeepCoin coin) (deep_coin_analysis E coin coin_data) ;;
    embed <- create_analysis_embed [(coin, coin_data)] analysis [] "Manual" (Some coin) ;;
    send (Embed embed) ;;;
    ret Completed
  else
    send (Text ("❌ **Coin not found** - " +:+ coin +:+ " is not in our tracking list")) ;;;
    ret Completed.

(** The [else] branch: general market analysis. *)
Definition manual_market (market_data : snapshot) : M run_end :=
  john_results <- call (EvJohn "Manual" false) (john_analysis E market_data "Manual" false) ;;
  alpha_results <- call (EvAlpha "Manual" false) (alpha_analysis E market_data "Manual" false) ;;
  ranked_opportunities <-
    call (EvRank 70) (rank_opportunities E john_results alpha_results 70) ;;
  opportunity_alerts (take 3 ranked_opportunities) 1 ;;;
  ret Completed.

(** [coin] is [None] when the command came without an argument; [if coin:]
    is false for [None] and for the empty string. *)
Definition manual_try (coin : option string) : M run_end :=
  send (Text "🔄 **Analyzing market data...** Please wait...") ;;;
  market_data <- call EvFetch (get_comprehensive_market_data E) ;;
  if negb (dict_truthy market_data) then
    send (Text "❌ **Error** - Unable to fetch market data") ;;;
    ret ReturnedEarly
  else
    match coin with
    | Some c => if str_truthy c then manual_coin c market_data else manual_market market_data
    | None => manual_market market_data
    end.

Definition manual_analysis (coin : option string) : M run_end :=
  try_except (manual_try coin)
    (fun e => send (Text ("❌ **Analysis failed** - " +:+ exn_str e)) ;;; ret (Handled e)).

(** *** The [top] command *)

(** [sorted(items, key=key, reverse=True)]: a stable sort, largest key first;
    items with equal keys keep their original order. *)
Fixpoint insert_desc {A : Type} (key : A -> Z) (x : A) (l : list A) : list A :=
  match l with
  | [] => [x]
  | y :: l' => if key y <=? key x then x :: y :: l' else y :: insert_desc key x l'
  end.

Definition sorted_reverse {A : Type} (key : A -> Z) (l : list A) : list A :=
  foldr (insert_desc key) [] l.

(** The sort key [lambda x: x[1].get(timeframe_key, 0)]. *)
Definition change_of (timeframe_key : string) (x : string * record) : Z :=
  dict_get_default timeframe_key x.2 0.

Definition top_sorted_coins (timeframe : string) (market_data : snapshot)
    : list (string * record) :=
  take 10 (sorted_reverse (change_of ("percent_change_" +:+ timeframe)) market_data).

(** The fields added by the loop over [enumerate(sorted_coins, 1)]. *)
Fixpoint gainer_fields (timeframe_key : string) (coins : list (string * record))
    (i : nat) : list gainer_field :=
  match coins with
  | [] => []
  | (symbol, data) :: rest =>
      GainerField i symbol (dict_get_default "price" data 0)
        (dict_get_default timeframe_key data 0)
        (dict_get_default "volume_24h" data 0)
      :: gainer_fields timeframe_key rest (S i)
  end.

Definition top_try (timeframe : string) : M run_end :=
  send (Text ("📈 **Fetching top gainers for " +:+ timeframe +:+ "...**")) ;;;
  market_data <- call EvFetch (get_comprehensive_market_data E) ;;
  if negb (dict_truthy market_data) then
    send (Text "❌ **Error** - Unable to fetch market data") ;;;
    ret ReturnedEarly
  else
    let timeframe_key := "percent_change_" +:+ timeframe in
    let sorted_coins := top_sorted_coins timeframe market_data in
    let embed :=
      TopEmbed ("🏆 Top Gainers (" +:+ timeframe +:+ ")")
        (gainer_fields timeframe_key sorted_coins 1) in
    send (Embed embed) ;;;
    ret Completed.

Definition top_gainers (timeframe : string) : M run_end :=
  try_except (top_try timeframe)
    (fun e => send (Text ("❌ **Error** - " +:+ exn_str e)) ;;; ret (Handled e)).

End Jobs.

(** ** Running jobs from the scheduler *)

Inductive job : Type := Hourly | FourHour | VolumeMonitor.

Definition job_body (j : job) (E : env) : M run_end :=
  match j with
  | Hourly => hourly_analysis E
  | FourHour => four_hour_analysis E
  | VolumeMonitor => volume_spike_monitor E
  end.

(** A run starts with an empty trace and the current job state. *)
Definition start (st : gmap string Z) : world := World [] st.

(** ** Observations on a finished run *)

Definition sent (w : world) : list message :=
  omap (fun ev => match ev with EvSend m => Some m | _ => None end) (trace w).

Definition sleeps (w : world) : list Z :=
  omap (fun ev => match ev with EvSleep n => Some n | _ => None end) (trace w).

Definition rank_calls (w : world) : list Z :=
  omap (fun ev => match ev with EvRank n => Some n | _ => None end) (trace w).

Definition is_analysis_call (ev : event) : bool :=
  match ev with
  | EvJohn _ _ | EvAlpha _ _ | EvDeepCoin _ => true
  | _ => false
  end.

Definition is_fetch (ev : event) : bool :=
  match ev with EvFetch => true | _ => false end.

Definition is_rank (ev : event) : bool :=
  match ev with EvRank _ => true | _ => false end.

Definition is_alert (m : message) : bool :=
  match m with Embed (AlertEmbed _ _) => true | _ => false end.

(** [w] extended by the events [evs]. *)
Definition after (w : world) (evs : list event) : world :=
  World (trace w ++ evs) (last_analysis_time w).

(** The events of a dispatch loop over [l]: one send per item, each followed
    by the pacing sleep when the loop has one. *)
Definition alert_events (tag : string) (secs : option Z) (l : list item) : list event :=
  flat_map (fun o => EvSend (Embed (AlertEmbed o tag))
                     :: match secs with Some n => [EvSleep n] | None => [] end) l.

(** The dedicated Bitcoin report of the hourly job, when it is due. *)
Definition btc_report_events (md : snapshot) (jr ar : analysis) : list event :=
  let btc_john := dict_get_default "BTC" jr [] in
  let btc_alpha := dict_get_default "BTC" ar [] in
  match dict_get "BTC" md with
  | Some btc_data =>
      if dict_truthy btc_john || dict_truthy btc_alpha then
        [EvSend (Embed (AnalysisEmbed [("BTC", btc_data)] [("BTC", btc_john)]
                          [("BTC", btc_alpha)] "1H Bitcoin Report" (Some "BTC")));
         EvSleep 2]
      else []
  | None => []
  end.

(** The notice the hourly job sends when there is no market data. *)
Definition data_unavailable_msg : message :=
  Text "⚠️ **Market Data Unavailable** - Unable to fetch market data for analysis".

Global Instance item_eq_dec : EqDecision item.
Proof. solve_decision. Defined.

Global Instance gainer_field_eq_dec : EqDecision gainer_field.
Proof. solve_decision. Defined.

Global Instance embed_eq_dec : EqDecision embed.
Proof. solve_decision. Defined.

Global Instance message_eq_dec : EqDecision message.
Proof. solve_decision. Defined.

Definition analyzing_msg : message :=
  Text "🔄 **Analyzing market data...** Please wait...".

(** The reply of the [analisis] command for a coin it does not track. *)
Definition coin_not_found_msg (upper : string -> string) (coin : string) : message :=
  Text ("❌ **Coin not found** - " +:+ upper coin +:+ " is not in our tracking list").

(** What the specification expects of a run of [analisis] on an untracked
    coin: exactly one "Coin not found" reply naming the coin, no analysis
    call, no ranking, no alert, job state untouched. *)
Definition coin_not_found_outcome (upper : string -> string) (coin : string)
    (st : gmap string Z) (w' : world) : Prop :=
  filter (fun m => m = coin_not_found_msg upper coin) (sent w')
    = [coin_not_found_msg upper coin] /\
  Forall (fun ev => is_analysis_call ev = false /\ is_rank ev = false) (trace w') /\
  Forall (fun m => is_alert m = false) (sent w') /\
  last_analysis_time w' = st.

(** ** Conditions on the inputs *)

(** Environments in which the channel exists and neither the channel nor
    the formatters raise. *)
Record reliable (E : env) : Prop := {
  reliable_channel : bot_get_channel E = Val true;
  reliable_send : forall h m, send_err E h m = None;
  reliable_alert : forall o t, create_alert_embed_err E o t = None;
  reliable_analysis :
    forall md j a t c, create_analysis_embed_err E md j a t c = None
}.

(** [symbol] has an analysis result in [a]: a non-empty analysis record. *)
Definition has_result (symbol : string) (a : analysis) : Prop :=
  exists r, dict_get symbol a = Some r /\ r <> [].

(** An opportunity the hourly loop may dispatch. *)
Definition is_altcoin (o : item) : Prop := item_symbol o <> Some "BTC".

Global Instance is_altcoin_dec (o : item) : Decision (is_altcoin o).
Proof. unfold is_altcoin. apply _. Defined.

(** The condition under which the volume monitor dispatches an alert. *)
Definition is_spike (a : item) : Prop :=
  match dict_get "volume_increase" (item_fields a) with
  | Some v => 300 <= v
  | None => False
  end.

Global Instance is_spike_dec (a : item) : Decision (is_spike a).
Proof. unfold is_spike. destruct (dict_get _ _); apply _. Defined.

(** [x] may stand before [y] when the keys are in descending order. *)
Definition key_ge {A : Type} (key : A -> Z) (x y : A) : Prop := key y <= key x.

(** ** Specifications of effects *)

(** [c] leaves [last_analysis_time] as it found it. *)
Definition pure_state {A : Type} (c : M A) : Prop :=
  forall w, last_analysis_time (c w).2 = last_analysis_time w.

(** [c] writes [last_analysis_time[key] = t] when it ends [Completed], and
    leaves the dictionary alone otherwise. *)
Definition updates (key : string) (t : Z) (c : M run_end) : Prop :=
  forall w,
    match (c w).1 with
    | Val Completed =>
        last_analysis_time (c w).2 = <[key := t]> (last_analysis_time w)
    | _ => last_analysis_time (c w).2 = last_analysis_time w
    end.

(** Every event [c] adds to the trace satisfies [P]. *)
Definition emits {A : Type} (P : event -> bool) (c : M A) : Prop :=
  forall w, exists evs,
    trace (c w).2 = trace w ++ evs /\ Forall (fun ev => P ev = true) evs.

(** Neither a market-data fetch nor a call of the ranker. *)
Definition no_fetch_no_rank (ev : event) : bool :=
  negb (is_fetch ev) && negb (is_rank ev).

(** A pacing sleep, if the event is one, lasts [secs] seconds. *)
Definition sleeps_for (secs : Z) (ev : event) : bool :=
  match ev with EvSleep n => bool_decide (n = secs) | _ => true end.

(** A message put on the channel, if the event is one, is an alert embed. *)
Definition sends_alerts_only (ev : event) : bool :=
  match ev with EvSend m => is_alert m | _ => true end.

(** ** Schedules *)

(** The [last_analysis_time] key a job writes, if it writes one. *)
Definition job_key (j : job) : option string :=
  match j with
  | Hourly => Some "hourly"
  | FourHour => Some "four_hour"
  | VolumeMonitor => None
  end.

(** One entry per tick: the job, how its run ended, the job state after. *)
Fixpoint history (st : gmap string Z) (runs : list (job * env))
    : list (job * res run_end * gmap string Z) :=
  match runs with
  | [] => []
  | r :: rest =>
      let out := job_body r.1 r.2 (start st) in
      (r.1, out.1, last_analysis_time out.2)
      :: history (last_analysis_time out.2) rest
  end.

(** Order on optional timestamps: unset is below every timestamp. *)
Definition time_le (a b : option Z) : Prop :=
  match a, b with
  | None, _ => True
  | Some _, None => False
  | Some x, Some y => x <= y
  end.

(** An entry that is set stays set. *)
Definition stays_set (a b : option Z) : Prop := is_Some a -> is_Some b.

(** The clock readings of the ticks of a schedule. *)
Definition clock_readings (runs : list (job * env)) : list Z :=
  map (fun r => now r.2) runs.

(** ** The opportunity ranker *)

Module Ranker.

(** Which brain an opportunity's score comes from. *)
Inductive source : Type := John | Alpha | Combined.

Record opportunity : Type := Opportunity {
  opp_symbol : string;
  opp_score : Z;
  opp_source : source;
  opp_john : option record;
  opp_alpha : option record
}.

(** The numeric score field of an analysis record. *)
Definition score_of (r : record) : option Z := dict_get "score" r.

(** The ranking order: higher score first, equal scores by symbol name
    ascending. *)
Definition ranked_before (a b : opportunity) : Prop :=
  opp_score b < opp_score a \/
  (opp_score a = opp_score b /\ String.le (opp_symbol a) (opp_symbol b)).

Global Instance ranked_before_dec : RelDecision ranked_before.
Proof. intros a b. unfold ranked_before. apply _. Defined.

Section Rank.

(** The policy that merges the two scores of a symbol both brains report. *)
Variable combine : Z -> Z -> Z.

(** The opportunity of [symbol], if a brain reports a score for it. *)
Definition candidate (john alpha : analysis) (symbol : string) : option opportunity :=
  let j := dict_get symbol john in
  let a := dict_get symbol alpha in
  match j ≫= score_of, a ≫= score_of with
  | Some x, Some y => Some (Opportunity symbol (combine x y) Combined j a)
  | Some x, None => Some (Opportunity symbol x John j a)
  | None, Some y => Some (Opportunity symbol y Alpha j a)
  | None, None => None
  end.

(** Every symbol present in either result set, once. *)
Definition symbols (john alpha : analysis) : list string :=
  remove_dups (map fst john ++ map fst alpha).

(** Modelled from the spec: [rank_opportunities] of
    src/analysis/scoring_engine.py, which main.py imports and which is not
    among the sources. For every symbol of either result set the combined
    score is computed; entries below [min_score] are discarded; the rest is
    sorted by score descending, ties by symbol ascending. The result is a
    fresh list. *)
Definition rank (john alpha : analysis) (min_score : Z) : list opportunity :=
  merge_sort ranked_before
    (filter (fun o => min_score <= opp_score o)
       (omap (candidate john alpha) (symbols john alpha))).

End Rank.

End Ranker.

(** ** Example environments *)

(** Upper-casing of the letters a to z, every other byte kept: what
    [str.upper] does on a string of ASCII characters. The examples, whose
    coin arguments are ASCII, run the [analisis] command with it. *)
Definition ascii_upper (c : Ascii.ascii) : Ascii.ascii :=
  let n := Ascii.nat_of_ascii c in
  if ((97 <=? n) && (n <=? 122))%nat then Ascii.ascii_of_nat (n - 32)%nat else c.

Fixpoint str_upper (s : string) : string :=
  match s with
  | EmptyString => EmptyString
  | String c s' => String (ascii_upper c) (str_upper s')
  end.

Definition opportunity (symbol : string) (score : Z) : item :=
  Item (Some symbol) [("score", score)].

Definition demo_md : snapshot :=
  [("BTC", [("price", 100); ("percent_change_24h", 2)]);
   ("ETH", [("price", 10); ("percent_change_24h", 5)]);
   ("SOL", [("price", 5); ("percent_change_24h", -1)])].

Definition demo_john : analysis := [("BTC", [("score", 90)]); ("ETH", [("score", 88)])].

Definition demo_alpha : analysis := [("SOL", [("score", 91)])].

Definition demo_ranked : list item :=
  [opportunity "AVAX" 99; opportunity "BTC" 90; opportunity "ADA" 89;
   opportunity "DOT" 88; opportunity "XRP" 87; opportunity "LINK" 86;
   opportunity "UNI" 85].

(** An environment in which everything works; the snapshot tracks three
    coins and the ranker proposes seven opportunities. *)
Definition demo_env : env := {|
  bot_get_channel := Val true;
  get_comprehensive_market_data := Val demo_md;
  john_analysis := fun _ _ _ => Val demo_john;
  alpha_analysis := fun _ _ _ => Val demo_alpha;
  rank_opportunities := fun _ _ _ => Val demo_ranked;
  deep_coin_analysis := fun _ _ => Val [];
  detect_volume_spikes :=
    Val [Item (Some "DOGE") [("volume_increase", 300)];
         Item (Some "SHIB") [("volume_increase", 299)]];
  detect_whale_movements := Val [Item (Some "BTC") [("amount", 1000)]];
  create_alert_embed_err := fun _ _ => None;
  create_analysis_embed_err := fun _ _ _ _ _ => None;
  send_err := fun _ _ => None;
  now := 1000
|}.

(** Variants of [demo_env] in which one collaborator misbehaves. *)
Definition with_channel (r : res bool) (E : env) : env :=
  Env r (get_comprehensive_market_data E) (john_analysis E) (alpha_analysis E)
    (rank_opportunities E) (deep_coin_analysis E) (detect_volume_spikes E)
    (detect_whale_movements E) (create_alert_embed_err E)
    (create_analysis_embed_err E) (send_err E) (now E).

Definition with_market_data (r : res snapshot) (E : env) : env :=
  Env (bot_get_channel E) r (john_analysis E) (alpha_analysis E)
    (rank_opportunities E) (deep_coin_analysis E) (detect_volume_spikes E)
    (detect_whale_movements E) (create_alert_embed_err E)
    (create_analysis_embed_err E) (send_err E) (now E).

Definition with_john (r : res analysis) (E : env) : env :=
  Env (bot_get_channel E) (get_comprehensive_market_data E) (fun _ _ _ => r)
    (alpha_analysis E) (rank_opportunities E) (deep_coin_analysis E)
    (detect_volume_spikes E) (detect_whale_movements E) (create_alert_embed_err E)
    (create_analysis_embed_err E) (send_err E) (now E).

Definition with_volume_detector (r : res (list item)) (E : env) : env :=
  Env (bot_get_channel E) (get_comprehensive_market_data E) (john_analysis E)
    (alpha_analysis E) (rank_opportunities E) (deep_coin_analysis E) r
    (detect_whale_movements E) (create_alert_embed_err E)
    (create_analysis_embed_err E) (send_err E) (now E).

Definition with_send_err (f : list event -> message -> option exn) (E : env) : env :=
  Env (bot_get_channel E) (get_comprehensive_market_data E) (john_analysis E)
    (alpha_analysis E) (rank_opportunities E) (deep_coin_analysis E)
    (detect_volume_spikes E) (detect_whale_movements E) (create_alert_embed_err E)
    (create_analysis_embed_err E) f (now E).

Definition with_now (t : Z) (E : env) : env :=
  Env (bot_get_channel E) (get_comprehensive_market_data E) (john_analysis E)
    (alpha_analysis E) (rank_opportunities E) (deep_coin_analysis E)
    (detect_volume_spikes E) (detect_whale_movements E) (create_alert_embed_err E)
    (create_analysis_embed_err E) (send_err E) t.

(** The market-data fetch comes back empty. *)
Definition env_no_data : env := with_market_data (Val []) demo_env.

(** The first analysis brain raises. *)
Definition brain_timeout : exn := Exception "john_analysis timed out".
Definition env_brain_down : env := with_john (Exc brain_timeout) demo_env.

(** The volume detector raises. *)
Definition detector_failure : exn := Exception "volume feed unreachable".
Definition env_detector_down : env := with_volume_detector (Exc detector_failure) demo_env.

(** The channel refuses every message, and the fetch comes back empty. *)
Definition forbidden : exn := Exception "403 Forbidden (error code: 50013): Missing Permissions".
Definition env_channel_refuses : env :=
  with_send_err (fun _ _ => Some forbidden) env_no_data.

(** The channel lookup itself raises. *)
Definition lookup_failure : exn := Exception "name 'CHANNEL_ID' is not defined".
Definition env_lookup_raises : env := with_channel (Exc lookup_failure) demo_env.

(** A schedule of four ticks with increasing clock readings: a completed
    hourly run, a completed four-hour run, an hourly run without market
    data, and a volume-monitor run. *)
Definition demo_runs : list (job * env) :=
  [(Hourly, with_now 1000 demo_env);
   (FourHour, with_now 1300 demo_env);
   (Hourly, with_now 4600 env_no_data);
   (VolumeMonitor, with_now 4900 demo_env)].

(** A snapshot of fifteen coins. *)
Definition fifteen_coins : snapshot :=
  [("BTC", [("percent_change_24h", 2)]); ("ETH", [("percent_change_24h", 5)]);
   ("SOL", [("percent_change_24h", -1)]); ("ADA", [("percent_change_24h", 7)]);
   ("DOT", [("percent_change_24h", 0)]); ("XRP", [("percent_change_24h", 12)]);
   ("UNI", [("percent_change_24h", 3)]); ("LTC", [("percent_change_24h", -4)]);
   ("BCH", [("percent_change_24h", 9)]); ("XLM", [("percent_change_24h", 1)]);
   ("TRX", [("percent_change_24h", 6)]); ("EOS", [("percent_change_24h", -8)]);
   ("XMR", [("percent_change_24h", 4)]); ("ZEC", [("percent_change_24h", 11)]);
   ("NEO", [("price", 3)])].

(** ** Counting dispatched alerts *)

(** The alerts among the events: payload and tag of every alert embed that
    was sent. *)
Definition alert_list (evs : list event) : list (item * string) :=
  omap (fun ev => match ev with
                  | EvSend (Embed (AlertEmbed o tag)) => Some (o, tag)
                  | _ => None
                  end) evs.

Definition alerts_sent (w : world) : list (item * string) := alert_list (trace w).

(** The event is not the sending of an alert embed. *)
Definition no_alert (ev : event) : bool :=
  match ev with EvSend m => negb (is_alert m) | _ => true end.

(** [c] sends at most [n] alert embeds, all of them satisfying [Q]. *)
Definition dispatches {A : Type} (n : nat) (Q : item -> string -> Prop) (c : M A) : Prop :=
  forall w, exists evs,
    trace (c w).2 = trace w ++ evs /\
    (length (alert_list evs) <= n)%nat /\
    Forall (fun p => Q p.1 p.2) (alert_list evs).

(** The alerts the three dispatch loops may send. *)
Definition high_potential (o : item) (tag : string) : Prop :=
  tag = "🚀 HIGH POTENTIAL" /\ item_symbol o <> Some "BTC".

Definition premium_signal (o : item) (tag : string) : Prop :=
  tag = "⚡ PREMIUM SIGNAL".

Definition numbered_opportunity (lo hi : nat) (o : item) (tag : string) : Prop :=
  exists n, (lo <= n < hi)%nat /\ tag = "🎯 OPPORTUNITY #" +:+ pretty n.


(** The numbered alerts for [top], counting from [i]. *)
Fixpoint numbered_alerts (top : list item) (i : nat) : list message :=
  match top with
  | [] => []
  | o :: rest =>
      Embed (AlertEmbed o ("🎯 OPPORTUNITY #" +:+ pretty i)) :: numbered_alerts rest (S i)
  end.



(** Every value [c] returns satisfies [P]. *)
Definition returns {A : Type} (P : A -> Prop) (c : M A) : Prop :=
  forall w a w', c w = (Val a, w') -> P a.

(** The run did not end in its exception handler. *)
Definition not_handled (r : run_end) : Prop := forall e, r <> Handled e.

(** [c] does not read [last_analysis_time]: its result and the events it
    adds depend on the trace alone. *)
Definition oblivious {A : Type} (c : M A) : Prop :=
  forall w1 w2, trace w1 = trace w2 ->
    (c w1).1 = (c w2).1 /\ trace (c w1).2 = trace (c w2).2.

(** The job state after all the ticks of a schedule. *)
Fixpoint final_state (st : gmap string Z) (runs : list (job * env)) : gmap string Z :=
  match runs with
  | [] => st
  | r :: rest => final_state (last_analysis_time (job_body r.1 r.2 (start st)).2) rest
  end.

(** Whether the tick, run on its own, completes. *)
Definition run_completes (r : job * env) : bool :=
  match (job_body r.1 r.2 (start ∅)).1 with
  | Val Completed => true
  | _ => false
  end.

(** The time the tick records under [key], if it records one. *)
Definition recorded (key : string) (r : job * env) : option Z :=
  if run_completes r && bool_decide (job_key r.1 = Some key) then Some (now r.2) else None.

(** The time recorded under [key] by the latest tick that recorded one. *)
Definition latest (key : string) (runs : list (job * env)) : option Z :=
  last (omap (recorded key) runs).

(** The channel rejects every message with [e]. *)
Definition env_channel_down (e : exn) : env := with_send_err (fun _ _ => Some e) demo_env.

(** ** The [alerts] command *)

(** [sep.join(l)] *)
Fixpoint str_join (sep : string) (l : list string) : string :=
  match l with
  | [] => ""
  | [x] => x
  | x :: rest => x +:+ sep +:+ str_join sep rest
  end.

Definition valid_types : list string := ["volume"; "whale"; "technical"; "all"].

(** [x in l] for a list of strings. *)
Definition str_in (x : string) (l : list string) : bool :=
  existsb (String.eqb x) l.

(** The command has no [try] block: a failing send leaves it. *)
Definition toggle_alerts (E : env) (alert_type : string) : M unit :=
  if negb (str_in alert_type valid_types) then
    send E (Text ("❌ **Invalid alert type** - Use: " +:+ str_join ", " valid_types))
  else
    send E (Text ("✅ **Alert settings updated** - " +:+ alert_type +:+ " alerts configured")).

(** ** The [on_ready] event *)

Global Instance job_eq_dec : EqDecision job.
Proof. solve_decision. Defined.

(** What [on_ready] reads and writes: [bot.start_time] and, for each of the
    three task loops, whether it is running. *)
Record bot_state : Type := BotState {
  start_time : option Z;
  running : job -> bool
}.

Inductive ready_line : Type :=
| LineConnected
| LineVersion
| LineStartedAt
| LineTaskStarted (j : job).

Inductive ready_event : Type :=
| RdPrint (l : ready_line)
| RdStart (j : job)
| RdSendStartup
| RdSendStartupFailed.

(** [Loop.start()] of discord.ext.tasks: it refuses to launch a loop that is
    running, and makes [is_running()] true otherwise. *)
Definition loop_start (j : job) (s : bot_state) : res bot_state :=
  if running s j then Exc (Exception "Task is already launched and is not completed.")
  else Val (BotState (start_time s)
                     (fun j' => if decide (j' = j) then true else running s j')).

(** [if not task.is_running(): task.start(); print(...)] *)
Definition start_task (j : job) (c : bot_state * list ready_event)
    : res unit * (bot_state * list ready_event) :=
  if negb (running c.1 j) then
    match loop_start j c.1 with
    | Val s' => (Val tt, (s', c.2 ++ [RdStart j; RdPrint (LineTaskStarted j)]))
    | Exc e => (Exc e, c)
    end
  else (Val tt, c).

(** [channel] is the result of the channel lookup, [startup_send] the error
    the channel raises, if any, when the startup embed is sent, [t] the
    clock reading stored in [bot.start_time]. *)
Definition on_ready (channel : res bool) (startup_send : option exn) (t : Z)
    (s : bot_state) : res unit * (bot_state * list ready_event) :=
  let c0 := (BotState (Some t) (running s),
             [RdPrint LineConnected; RdPrint LineVersion; RdPrint LineStartedAt]) in
  match start_task Hourly c0 with
  | (Exc e, c) => (Exc e, c)
  | (Val _, c1) =>
  match start_task FourHour c1 with
  | (Exc e, c) => (Exc e, c)
  | (Val _, c2) =>
  match start_task VolumeMonitor c2 with
  | (Exc e, c) => (Exc e, c)
  | (Val _, c3) =>
  match channel with
  | Exc e => (Exc e, c3)
  | Val false => (Val tt, c3)
  | Val true =>
      match startup_send with
      | None => (Val tt, (c3.1, c3.2 ++ [RdSendStartup]))
      | Some e => (Exc e, (c3.1, c3.2 ++ [RdSendStartupFailed]))
      end
  end end end end.

(** All three loops stopped, no start time yet. *)
Definition fresh_bot : bot_state := BotState None (fun _ => false).


(** No channel is found. *)
Definition env_no_channel : env := with_channel (Val false) demo_env.

(** The snapshot does not track BTC. *)
Definition altcoins_md : snapshot :=
  [("ETH", [("price", 10); ("percent_change_24h", 5)]);
   ("SOL", [("price", 5); ("percent_change_24h", -1)])].
Definition env_no_btc : env := with_market_data (Val altcoins_md) demo_env.


(** The volume detector returns a malformed alert between two spikes. *)
Definition spike_doge : item := Item (Some "DOGE") [("volume_increase", 450)].
Definition spike_shib : item := Item (Some "SHIB") [("volume_increase", 900)].

(** ** Channels that refuse a message *)

(** The channel refuses the message [m0], whenever it is sent, and accepts
    every other message. *)
Definition refusing (m0 : message) : list event -> message -> option exn :=
  fun _ m => if decide (m = m0) then Some forbidden else None.

(** The hourly alert for ADA is refused. *)
Definition ada_alert : message :=
  Embed (AlertEmbed (opportunity "ADA" 89) "🚀 HIGH POTENTIAL").

Definition env_alert_refused : env := with_send_err (refusing ada_alert) demo_env.

(** The fetch comes back empty and the "data unavailable" notice is
    refused. *)
Definition env_notice_refused : env :=
  with_send_err (refusing data_unavailable_msg) env_no_data.

(** The progress notice of the [top] command. *)
Definition top_progress_msg (timeframe : string) : message :=
  Text ("📈 **Fetching top gainers for " +:+ timeframe +:+ "...**").

(** The snapshot holds fifteen coins and the progress notice is refused. *)
Definition env_top_refused : env :=
  with_send_err (refusing (top_progress_msg "24h"))
    (with_market_data (Val fifteen_coins) demo_env).

(** The progress notice of the [analisis] command is refused. *)
Definition env_analyzing_refused : env := with_send_err (refusing analyzing_msg) demo_env.

(** The volume detector reports two spikes, and the alert for the first
    one is refused. *)
Definition doge_alert : message := Embed (AlertEmbed spike_doge "📊 VOLUME SPIKE").

Definition env_spike_refused : env :=
  with_send_err (refusing doge_alert)
    (with_volume_detector (Val [spike_doge; spike_shib]) demo_env).

(** Two completed hourly ticks, the clock of the second one behind the
    clock of the first. *)
Definition clock_back_runs : list (job * env) :=
  [(Hourly, with_now 1000 demo_env); (Hourly, with_now 900 demo_env)].

(** ** What the specification expects of a run *)

(** Of the hourly job on a snapshot with BTC: the dedicated report first,
    then at most five alerts, none of them for BTC, then the overview. *)
Definition hourly_dispatch_expected (md : snapshot) (jr ar : analysis)
    (msgs : list message) : Prop :=
  exists (btc_data : record) (alerts : list item),
    dict_get "BTC" md = Some btc_data /\
    msgs =
      Embed (AnalysisEmbed [("BTC", btc_data)]
               [("BTC", dict_get_default "BTC" jr [])]
               [("BTC", dict_get_default "BTC" ar [])]
               "1H Bitcoin Report" (Some "BTC"))
      :: map (fun o => Embed (AlertEmbed o "🚀 HIGH POTENTIAL")) alerts
      ++ [Embed (AnalysisEmbed md jr ar "1H Market Overview" None)] /\
    (length alerts <= 5)%nat /\
    Forall (fun o => item_symbol o <> Some "BTC") alerts.

(** Of the hourly job on an empty fetch: exactly one "data unavailable"
    message and no other, no analysis call, job state untouched. *)
Definition data_unavailable_outcome (st : gmap string Z) (w' : world) : Prop :=
  sent w' = [data_unavailable_msg] /\
  Forall (fun ev => is_analysis_call ev = false /\ is_rank ev = false) (trace w') /\
  last_analysis_time w' = st.

(** The embed of the [top] command for a snapshot. *)
Definition top_reply (timeframe : string) (md : snapshot) : message :=
  Embed (TopEmbed ("🏆 Top Gainers (" +:+ timeframe +:+ ")")
           (gainer_fields ("percent_change_" +:+ timeframe)
              (top_sorted_coins timeframe md) 1)).

(** Of the volume monitor: a volume alert is dispatched exactly when its
    increase is at least 300, and every whale alert is dispatched. *)
Definition volume_dispatch_expected (volume_alerts whale_alerts : list item)
    (w' : world) : Prop :=
  (forall a, In a volume_alerts ->
     (In (Embed (AlertEmbed a "📊 VOLUME SPIKE")) (sent w') <->
      exists v, dict_get "volume_increase" (item_fields a) = Some v /\ 300 <= v)) /\
  (forall a, In a whale_alerts ->
     In (Embed (AlertEmbed a "🐋 WHALE MOVEMENT")) (sent w')).

(** The failure notices of the handlers. *)
Definition analysis_error_msg (e : exn) : message :=
  Text ("❌ **Analysis Error** - " +:+ exn_str e).

Definition analysis_failed_msg (e : exn) : message :=
  Text ("❌ **Analysis failed** - " +:+ exn_str e).

Definition top_error_msg (e : exn) : message :=
  Text ("❌ **Error** - " +:+ exn_str e).

(** The event is neither an analysis call, nor a call of the ranker, nor
    the sending of an alert embed. *)
Definition no_analysis_no_alert (ev : event) : bool :=
  negb (is_analysis_call ev) && negb (is_rank ev) && no_alert ev.

(** A volume-spike alert, if the event sends one, is for an increase of at
    least 300. *)
Definition spikes_qualify (ev : event) : bool :=
  match ev with
  | EvSend (Embed (AlertEmbed a tag)) =>
      bool_decide (tag = "📊 VOLUME SPIKE" -> is_spike a)
  | _ => true
  end.

(** ** Reasoning about runs *)

Section MonadLaws.

Context {A B C : Type}.

Lemma bind_ret_w (a : A) (k : A -> M B) (w : world) :
  bind (ret a) k w = k a w.
Proof. reflexivity. Qed.

Lemma bind_assoc_w (c : M A) (f : A -> M B) (k : B -> M C) (w : world) :
  bind (bind c f) k w = bind c (fun a => bind (f a) k) w.
Proof. unfold bind. destruct (c w) as [[a|e] w']; reflexivity. Qed.

Lemma bind_call_val (ev : event) (r : res A) (a : A) (k : A -> M B) (w : world) :
  r = Val a -> bind (call ev r) k w = k a (after w [ev]).
Proof. intros ->. reflexivity. Qed.

Lemma bind_lift_val (r : res A) (a : A) (k : A -> M B) (w : world) :
  r = Val a -> bind (lift r) k w = k a w.
Proof. intros ->. reflexivity. Qed.

End MonadLaws.

Lemma bind_emit_w {B : Type} (ev : event) (k : unit -> M B) (w : world) :
  bind (emit ev) k w = k tt (after w [ev]).
Proof. reflexivity. Qed.

Lemma after_after (w : world) (e1 e2 : list event) :
  after (after w e1) e2 = after w (e1 ++ e2).
Proof. unfold after. cbn. by rewrite app_assoc. Qed.

Lemma after_nil (w : world) : after w [] = w.
Proof. destruct w. unfold after. cbn. by rewrite app_nil_r. Qed.

Section Reliable.

Variable E : env.
Hypothesis HE : reliable E.

Lemma send_reliable (m : message) (w : world) :
  send E m w = (Val tt, after w [EvSend m]).
Proof. unfold send. rewrite (reliable_send E HE). reflexivity. Qed.

Lemma bind_send_reliable {B : Type} (m : message) (k : unit -> M B) (w : world) :
  bind (send E m) k w = k tt (after w [EvSend m]).
Proof. unfold bind. by rewrite send_reliable. Qed.

Lemma create_alert_embed_reliable (o : item) (tag : string) :
  create_alert_embed E o tag = ret (AlertEmbed o tag).
Proof. unfold create_alert_embed. by rewrite (reliable_alert E HE). Qed.

Lemma create_analysis_embed_reliable md j a t c :
  create_analysis_embed E md j a t c = ret (AnalysisEmbed md j a t c).
Proof. unfold create_analysis_embed. by rewrite (reliable_analysis E HE). Qed.

Lemma hourly_alerts_reliable (ranked : list item) (count : nat) (w : world) :
  hourly_alerts E ranked count w =
  (Val tt,
   after w (alert_events "🚀 HIGH POTENTIAL" (Some 2)
              (take (5 - count) (filter is_altcoin ranked)))).
Proof.
  revert count w. induction ranked as [|o rest IH]; intros count w.
  - cbn [hourly_alerts]. rewrite filter_nil, take_nil. cbn. by rewrite after_nil.
  - cbn [hourly_alerts]. rewrite filter_cons. unfold not_btc.
    destruct (decide (is_altcoin o)) as [Ho|Ho].
    + rewrite (bool_decide_eq_true_2 _ Ho). cbn [andb].
      destruct (Nat.ltb_spec count 5) as [Hc|Hc].
      * rewrite create_alert_embed_reliable, bind_ret_w, bind_send_reliable.
        unfold sleep. rewrite bind_emit_w, IH, !after_after.
        replace (5 - count)%nat with (S (5 - S count)) by lia.
        reflexivity.
      * rewrite IH. replace (5 - count)%nat with 0%nat by lia.
        by rewrite !take_0.
    + rewrite (bool_decide_eq_false_2 _ Ho). cbn [andb]. apply IH.
Qed.

Lemma bind_hourly_alerts_reliable {B : Type} ranked count (k : unit -> M B) w :
  bind (hourly_alerts E ranked count) k w =
  k tt (after w (alert_events "🚀 HIGH POTENTIAL" (Some 2)
                   (take (5 - count) (filter is_altcoin ranked)))).
Proof. unfold bind. by rewrite hourly_alerts_reliable. Qed.

End Reliable.

Lemma sent_cons (ev : event) (evs : list event) (st : gmap string Z) :
  sent (World (ev :: evs) st) =
  match ev with EvSend m => [m] | _ => [] end ++ sent (World evs ∅).
Proof. unfold sent. cbn [trace]. by destruct ev. Qed.

Lemma sent_app (t1 t2 : list event) (st : gmap string Z) :
  sent (World (t1 ++ t2) st) = sent (World t1 ∅) ++ sent (World t2 ∅).
Proof. unfold sent. cbn [trace]. apply omap_app. Qed.

Lemma sent_alert_events tag secs l st :
  sent (World (alert_events tag secs l) st) = map (fun o => Embed (AlertEmbed o tag)) l.
Proof.
  unfold sent, alert_events. cbn [trace].
  destruct secs; (induction l as [|o l IH]; [done|]); simpl; f_equal; exact IH.
Qed.

Lemma dict_contains_get {V : Type} (k : string) (d : pydict V) :
  dict_contains k d = true -> exists v, dict_get k d = Some v.
Proof. unfold dict_contains. destruct (dict_get k d); [eauto | done]. Qed.

Lemma dict_contains_truthy {V : Type} (k : string) (d : pydict V) :
  dict_contains k d = true -> dict_truthy d = true.
Proof. by destruct d. Qed.

Lemma has_result_truthy (symbol : string) (jr ar : analysis) :
  has_result symbol jr \/ has_result symbol ar ->
  dict_truthy (dict_get_default symbol jr []) || dict_truthy (dict_get_default symbol ar []) = true.
Proof.
  unfold dict_get_default.
  intros [(r & -> & Hr)|(r & -> & Hr)]; destruct r; try done.
  by rewrite orb_true_r.
Qed.

Ltac norm_world :=
  unfold set_last; cbn [bind ret fst snd];
  rewrite ?after_after; unfold after, start;
  cbn [trace last_analysis_time app].

(** A send the channel accepts, and a send it refuses. *)
Lemma bind_send_accepted {B : Type} (E : env) (m : message) (k : unit -> M B) (w : world) :
  send_err E (trace w) m = None -> bind (send E m) k w = k tt (after w [EvSend m]).
Proof. intros H. unfold bind, send. by rewrite H. Qed.

Lemma bind_send_refused {B : Type} (E : env) (m : message) (e : exn) (k : unit -> M B)
    (w : world) :
  send_err E (trace w) m = Some e ->
  bind (send E m) k w = (Exc e, after w [EvSendFailed m]).
Proof. intros H. unfold bind, send. by rewrite H. Qed.

Lemma no_analysis_no_alert_spec (evs : list event) (st : gmap string Z) :
  Forall (fun ev => no_analysis_no_alert ev = true) evs ->
  Forall (fun ev => is_analysis_call ev = false /\ is_rank ev = false) evs /\
  Forall (fun m => is_alert m = false) (sent (World evs st)).
Proof.
  unfold sent. cbn [trace]. induction 1 as [|ev evs Hev _ [IH1 IH2]]; [by split|].
  unfold no_analysis_no_alert in Hev.
  apply andb_prop in Hev as [Hev Hal]. apply andb_prop in Hev as [Han Hrk].
  apply negb_true_iff in Han, Hrk.
  split; [by constructor|].
  destruct ev; cbn; try exact IH2.
  constructor; [|exact IH2]. cbn in Hal. by apply negb_true_iff in Hal.
Qed.

Lemma send_then_ret {A : Type} (E : env) (m : message) (a : A) (pre : list event)
    (st : gmap string Z) :
  (send E m ;;; ret a) (World pre st) =
  match send_err E pre m with
  | None => (Val a, World (pre ++ [EvSend m]) st)
  | Some e => (Exc e, World (pre ++ [EvSendFailed m]) st)
  end.
Proof. unfold bind, send. cbn [trace]. destruct (send_err E pre m); reflexivity. Qed.

Lemma hourly_reliable_run (E : env) (st : gmap string Z)
    (md : snapshot) (jr ar : analysis) (ranked : list item) :
  reliable E ->
  get_comprehensive_market_data E = Val md ->
  dict_truthy md = true ->
  john_analysis E md "1H" false = Val jr ->
  alpha_analysis E md "1H" false = Val ar ->
  rank_opportunities E jr ar 75 = Val ranked ->
  hourly_analysis E (start st) =
  (Val Completed,
   World ([EvPrint LogHourlyStart; EvFetch; EvJohn "1H" false; EvAlpha "1H" false]
          ++ btc_report_events md jr ar
          ++ EvRank 75
             :: alert_events "🚀 HIGH POTENTIAL" (Some 2) (take 5 (filter is_altcoin ranked))
          ++ [EvSend (Embed (AnalysisEmbed md jr ar "1H Market Overview" None))])
         (<["hourly" := now E]> st)).
Proof.
  intros HE Hmd Hne Hj Ha Hrank.
  unfold hourly_analysis, lift. rewrite (reliable_channel E HE).
  unfold try_except, hourly_try. cbn [negb]. unfold print, sleep.
  rewrite bind_emit_w, (bind_call_val _ _ _ _ _ Hmd), Hne. cbn [negb].
  rewrite (bind_call_val _ _ _ _ _ Hj), (bind_call_val _ _ _ _ _ Ha).
  cbv zeta. unfold btc_report_events, dict_contains, dict_index.
  destruct (dict_get "BTC" md) as [btc_data|];
    [destruct (dict_truthy (dict_get_default "BTC" jr [])
               || dict_truthy (dict_get_default "BTC" ar []))|];
    repeat first [ rewrite bind_ret_w | rewrite bind_emit_w
                 | rewrite (create_analysis_embed_reliable E HE)
                 | rewrite (bind_send_reliable E HE) | rewrite bind_assoc_w ];
    rewrite (bind_call_val _ _ _ _ _ Hrank);
    rewrite (bind_hourly_alerts_reliable E HE), bind_ret_w;
    rewrite (bind_send_reliable E HE);
    norm_world; rewrite <- ?app_assoc; reflexivity.
Qed.

(** *** What a computation may do to the trace and to the job state *)

Section Effects.

Variable E : env.

Lemma pure_state_ret {A : Type} (a : A) : pure_state (ret a).
Proof. by intros w. Qed.

Lemma pure_state_raise {A : Type} (e : exn) : pure_state (@raise A e).
Proof. by intros w. Qed.

Lemma pure_state_emit (ev : event) : pure_state (emit ev).
Proof. by intros w. Qed.

Lemma pure_state_lift {A : Type} (r : res A) : pure_state (lift r).
Proof. by intros w. Qed.

Lemma pure_state_bind {A B : Type} (c : M A) (k : A -> M B) :
  pure_state c -> (forall a, pure_state (k a)) -> pure_state (bind c k).
Proof.
  intros Hc Hk w. unfold bind. specialize (Hc w).
  destruct (c w) as [[a|e] w']; cbn in *; [|done].
  by rewrite Hk.
Qed.

Lemma pure_state_try_except {A : Type} (c : M A) (h : exn -> M A) :
  pure_state c -> (forall e, pure_state (h e)) -> pure_state (try_except c h).
Proof.
  intros Hc Hh w. unfold try_except. specialize (Hc w).
  destruct (c w) as [[a|e] w']; cbn in *; [done|].
  by rewrite Hh.
Qed.

Lemma pure_state_if {A : Type} (b : bool) (c1 c2 : M A) :
  pure_state c1 -> pure_state c2 -> pure_state (if b then c1 else c2).
Proof. by destruct b. Qed.

Lemma pure_state_call {A : Type} (ev : event) (r : res A) : pure_state (call ev r).
Proof. by intros w. Qed.

Lemma pure_state_print (l : log_line) : pure_state (print l).
Proof. by intros w. Qed.

Lemma pure_state_sleep (n : Z) : pure_state (sleep n).
Proof. by intros w. Qed.

Lemma pure_state_send (m : message) : pure_state (send E m).
Proof. intros w. unfold send. by destruct (send_err E (trace w) m). Qed.

Lemma pure_state_dict_index {V : Type} (k : string) (d : pydict V) :
  pure_state (dict_index k d).
Proof. unfold dict_index. by destruct (dict_get k d). Qed.

Lemma pure_state_create_alert_embed (o : item) (tag : string) :
  pure_state (create_alert_embed E o tag).
Proof. unfold create_alert_embed. by destruct (create_alert_embed_err E o tag). Qed.

Lemma pure_state_create_analysis_embed md j a t c :
  pure_state (create_analysis_embed E md j a t c).
Proof.
  unfold create_analysis_embed.
  by destruct (create_analysis_embed_err E md j a t c).
Qed.

End Effects.

Create HintDb pure_state.
#[export] Hint Resolve pure_state_ret pure_state_raise pure_state_emit pure_state_lift
  pure_state_call pure_state_print pure_state_sleep pure_state_send
  pure_state_dict_index pure_state_create_alert_embed
  pure_state_create_analysis_embed : pure_state.
#[export] Hint Extern 2 (pure_state (bind _ _)) =>
  apply pure_state_bind; [|intros ?] : pure_state.
#[export] Hint Extern 2 (pure_state (if _ then _ else _)) =>
  apply pure_state_if : pure_state.
#[export] Hint Extern 2 (pure_state (try_except _ _)) =>
  apply pure_state_try_except; [|intros ?] : pure_state.

Lemma pure_state_hourly_alerts (E : env) (ranked : list item) (count : nat) :
  pure_state (hourly_alerts E ranked count).
Proof.
  revert count. induction ranked as [|o rest IH]; intros count; cbn [hourly_alerts];
    auto 10 with pure_state.
Qed.

Lemma pure_state_premium_alerts (E : env) (top : list item) :
  pure_state (premium_alerts E top).
Proof. induction top as [|o rest IH]; cbn [premium_alerts]; auto 10 with pure_state. Qed.

Lemma pure_state_volume_alerts_loop (E : env) (alerts : list item) :
  pure_state (volume_alerts_loop E alerts).
Proof.
  induction alerts as [|o rest IH]; cbn [volume_alerts_loop]; auto 10 with pure_state.
Qed.

Lemma pure_state_whale_alerts_loop (E : env) (alerts : list item) :
  pure_state (whale_alerts_loop E alerts).
Proof.
  induction alerts as [|o rest IH]; cbn [whale_alerts_loop]; auto 10 with pure_state.
Qed.

#[export] Hint Resolve pure_state_hourly_alerts pure_state_premium_alerts
  pure_state_volume_alerts_loop pure_state_whale_alerts_loop : pure_state.

(** The volume monitor never writes the job state. *)
Lemma pure_state_volume_spike_monitor (E : env) : pure_state (volume_spike_monitor E).
Proof. unfold volume_spike_monitor, volume_try. auto 20 with pure_state. Qed.

Section Updates.

Variables (key : string) (t : Z).

Lemma updates_bind {A : Type} (c : M A) (k : A -> M run_end) :
  pure_state c -> (forall a, updates key t (k a)) -> updates key t (bind c k).
Proof.
  intros Hc Hk w. unfold bind. specialize (Hc w).
  destruct (c w) as [[a|e] w']; cbn in *; [|done].
  specialize (Hk a w'). destruct (k a w') as [[[| |e]|e] w'']; cbn in *; congruence.
Qed.

Lemma updates_if (b : bool) (c1 c2 : M run_end) :
  updates key t c1 -> updates key t c2 -> updates key t (if b then c1 else c2).
Proof. by destruct b. Qed.

Lemma updates_ret_early : updates key t (ret ReturnedEarly).
Proof. by intros w. Qed.

Lemma updates_set_last : updates key t (set_last key t ;;; ret Completed).
Proof. by intros w. Qed.

Lemma updates_try_except (c : M run_end) (h : exn -> M run_end) :
  updates key t c ->
  (forall e, pure_state (h e)) ->
  (forall e w, (h e w).1 <> Val Completed) ->
  updates key t (try_except c h).
Proof.
  intros Hc Hh Hn w. unfold try_except. specialize (Hc w).
  destruct (c w) as [[r|e] w']; cbn in *; [done|].
  specialize (Hh e w'). specialize (Hn e w').
  destruct (h e w') as [[[| |e']|e'] w'']; cbn in *; congruence.
Qed.

End Updates.

Ltac updates_steps :=
  cbv zeta;
  repeat first
    [ apply updates_set_last
    | apply updates_ret_early
    | apply updates_if
    | apply updates_bind; [auto 20 with pure_state | intros ?] ].

Lemma hourly_except_not_completed (E : env) (channel : option bool) (e : exn) (w : world) :
  (hourly_except E channel e w).1 <> Val Completed.
Proof.
  unfold hourly_except, print. rewrite bind_emit_w.
  destruct channel as [[|]|]; [|done..].
  unfold bind, send. by destruct (send_err E _ _).
Qed.

Lemma pure_state_hourly_except (E : env) (channel : option bool) (e : exn) :
  pure_state (hourly_except E channel e).
Proof. unfold hourly_except. destruct channel as [[|]|]; auto 10 with pure_state. Qed.

Lemma updates_hourly_analysis (E : env) :
  updates "hourly" (now E) (hourly_analysis E).
Proof.
  intros w. unfold hourly_analysis, lift.
  destruct (bot_get_channel E) as [channel|e].
  - revert w. apply updates_try_except.
    + unfold hourly_try. updates_steps.
    + apply pure_state_hourly_except.
    + apply hourly_except_not_completed.
  - pose proof (hourly_except_not_completed E None e w) as Hn.
    pose proof (pure_state_hourly_except E None e w) as Hp.
    destruct (hourly_except E None e w) as [[[| |e']|e'] w']; cbn in *; congruence.
Qed.

Lemma updates_four_hour_analysis (E : env) :
  updates "four_hour" (now E) (four_hour_analysis E).
Proof.
  unfold four_hour_analysis. apply updates_try_except.
  - unfold four_hour_try. updates_steps.
  - intros e. auto 10 with pure_state.
  - intros e w. done.
Qed.

(** What one tick does to the job state. *)
Lemma job_body_state (j : job) (E : env) (w : world) :
  match (job_body j E w).1, job_key j with
  | Val Completed, Some key =>
      last_analysis_time (job_body j E w).2 = <[key := now E]> (last_analysis_time w)
  | _, _ => last_analysis_time (job_body j E w).2 = last_analysis_time w
  end.
Proof.
  destruct j; cbn [job_body job_key].
  - apply updates_hourly_analysis.
  - apply updates_four_hour_analysis.
  - rewrite pure_state_volume_spike_monitor.
    by destruct (volume_spike_monitor E w).1 as [[]|].
Qed.

Lemma time_le_refl (a : option Z) : time_le a a.
Proof. destruct a; cbn; [lia|done]. Qed.

Lemma time_le_trans (a b c : option Z) : time_le a b -> time_le b c -> time_le a c.
Proof. destruct a, b, c; cbn; try done; lia. Qed.

(** The state after a tick is the state before, or the state before with
    the job's own key set to the clock reading of the tick. *)
Lemma tick_state (st : gmap string Z) (j : job) (E : env) :
  let out := job_body j E (start st) in
  last_analysis_time out.2 = st \/
  (out.1 = Val Completed /\ exists key, job_key j = Some key /\
   last_analysis_time out.2 = <[key := now E]> st).
Proof.
  cbn zeta. pose proof (job_body_state j E (start st)) as H.
  destruct (job_body j E (start st)).1 as [[| |e]|e]; cbn in *; auto.
  destruct (job_key j) as [key|]; eauto.
Qed.

Lemma history_monotone_from (k : string) (runs : list (job * env)) :
  forall (st : gmap string Z) (lo : Z),
    (forall v, st !! k = Some v -> v <= lo) ->
    Forall (fun t => lo <= t) (clock_readings runs) ->
    StronglySorted Z.le (clock_readings runs) ->
    StronglySorted time_le (map (fun s : gmap string Z => s !! k) (st :: map snd (history st runs))).
Proof.
  induction runs as [|[j E] rest IH]; intros st lo Hst Hlo Hsorted.
  - cbn. repeat constructor.
  - cbn [history map clock_readings fst snd] in *.
    apply Forall_cons in Hlo as [Hlo1 Hlo].
    apply StronglySorted_inv in Hsorted as [Hsorted Hle].
    set (st' := last_analysis_time (job_body j E (start st)).2) in *.
    assert (Hst' : forall v, st' !! k = Some v -> v <= now E).
    { intros v Hv. destruct (tick_state st j E) as [Heq|(_ & key & _ & Heq)];
        fold st' in Heq; rewrite Heq in Hv.
      - specialize (Hst v Hv). lia.
      - destruct (decide (key = k)) as [->|Hne].
        + rewrite lookup_insert_eq in Hv. injection Hv as <-. lia.
        + rewrite lookup_insert_ne in Hv by done. specialize (Hst v Hv). lia. }
    assert (Hstep : time_le (st !! k) (st' !! k)).
    { destruct (tick_state st j E) as [Heq|(_ & key & _ & Heq)];
        fold st' in Heq; rewrite Heq.
      - apply time_le_refl.
      - destruct (decide (key = k)) as [->|Hne].
        + rewrite lookup_insert_eq. destruct (st !! k) as [v|] eqn:Hv; cbn; [|done].
          specialize (Hst v eq_refl). lia.
        + rewrite lookup_insert_ne by done. apply time_le_refl. }
    specialize (IH st' (now E) Hst' Hle Hsorted).
    constructor; [exact IH|].
    cbn [map] in IH. apply StronglySorted_inv in IH as [_ IHall].
    constructor; [exact Hstep|].
    eapply Forall_impl; [exact IHall|].
    intros b Hb. by eapply time_le_trans.
Qed.

Lemma history_unset (k : string) (runs : list (job * env)) :
  forall st : gmap string Z,
    st !! k = None ->
    Forall (fun h => ~ (h.1.2 = Val Completed /\ job_key h.1.1 = Some k)) (history st runs) ->
    Forall (fun h => h.2 !! k = None) (history st runs).
Proof.
  induction runs as [|[j E] rest IH]; intros st Hst Hno; [constructor|].
  cbn [history fst snd] in *.
  apply Forall_cons in Hno as [Hno1 Hno]. cbn [fst snd] in Hno1.
  assert (Hst' : last_analysis_time (job_body j E (start st)).2 !! k = None).
  { destruct (tick_state st j E) as [Heq|(Hc & key & Hk & Heq)]; rewrite Heq; [done|].
    destruct (decide (key = k)) as [->|Hne]; [by destruct Hno1|].
    by rewrite lookup_insert_ne. }
  constructor; [exact Hst'|]. by apply IH.
Qed.

Lemma history_stays_set (k : string) (runs : list (job * env)) :
  forall st : gmap string Z,
    StronglySorted stays_set
      (map (fun s : gmap string Z => s !! k) (st :: map snd (history st runs))).
Proof.
  induction runs as [|[j E] rest IH]; intros st.
  - cbn. repeat constructor.
  - cbn [history map fst snd] in *.
    set (st' := last_analysis_time (job_body j E (start st)).2) in *.
    assert (Hstep : stays_set (st !! k) (st' !! k)).
    { intros Hset. destruct (tick_state st j E) as [Heq|(_ & key & _ & Heq)];
        fold st' in Heq; rewrite Heq; [exact Hset|].
      destruct (decide (key = k)) as [->|Hne].
      - rewrite lookup_insert_eq. eauto.
      - by rewrite lookup_insert_ne. }
    specialize (IH st'). constructor; [exact IH|].
    cbn [map] in IH. apply StronglySorted_inv in IH as [_ IHall].
    constructor; [exact Hstep|].
    eapply Forall_impl; [exact IHall|].
    intros b Hb Hset. apply Hb, Hstep, Hset.
Qed.

(** C3, as stated, fails when the clock is set back between two runs that
    complete: the entry of the job goes back with it. *)
Lemma last_success_time_invariant_counterexample :
  map (fun h => h.1.2) (history ∅ clock_back_runs) = [Val Completed; Val Completed] /\
  map (fun s : gmap string Z => s !! "hourly") (∅ :: map snd (history ∅ clock_back_runs))
    = [None; Some 1000; Some 900] /\
  ~ StronglySorted time_le
      (map (fun s : gmap string Z => s !! "hourly")
         (∅ :: map snd (history ∅ clock_back_runs))).
Proof.
  assert (Hentries :
    map (fun s : gmap string Z => s !! "hourly") (∅ :: map snd (history ∅ clock_back_runs))
    = [None; Some 1000; Some 900]) by (vm_compute; reflexivity).
  split; [vm_compute; reflexivity|]. split; [exact Hentries|].
  rewrite Hentries. intros Hsorted.
  apply StronglySorted_inv in Hsorted as [Hsorted _].
  apply StronglySorted_inv in Hsorted as [_ Hle].
  apply Forall_cons in Hle as [Hle _]. cbn in Hle. lia.
Qed.

(** C3 (amended). Every entry of [last_analysis_time] is unset until its
    job completes a run, is left alone by a run that does not complete
    (early return on missing data, handled or escaping error), and, once
    set, is never unset again; it never decreases along a schedule whose
    clock readings do not decrease. *)
Theorem last_success_time_invariant (runs : list (job * env)) (k : string) :
  (Forall (fun h => ~ (h.1.2 = Val Completed /\ job_key h.1.1 = Some k)) (history ∅ runs) ->
   Forall (fun h => h.2 !! k = None) (history ∅ runs)) /\
  (forall (j : job) (E : env) (st : gmap string Z),
     (job_body j E (start st)).1 <> Val Completed ->
     last_analysis_time (job_body j E (start st)).2 = st) /\
  StronglySorted stays_set
    (map (fun s : gmap string Z => s !! k) (∅ :: map snd (history ∅ runs))) /\
  (Sorted Z.le (clock_readings runs) ->
   StronglySorted time_le
     (map (fun s : gmap string Z => s !! k) (∅ :: map snd (history ∅ runs)))).
Proof.
  split; [|split; [|split]].
  - by apply history_unset.
  - intros j E st Hn. destruct (tick_state st j E) as [Heq|[Hc _]]; [exact Heq|done].
  - apply history_stays_set.
  - intros Hclock.
    apply Sorted_StronglySorted in Hclock; [|intros x y z; lia].
    destruct runs as [|[j E] rest].
    + cbn. repeat constructor.
    + apply (history_monotone_from k _ ∅ (now E)).
      * intros v Hv. by rewrite lookup_empty in Hv.
      * cbn [clock_readings map snd] in *. constructor; [lia|].
        by apply StronglySorted_inv in Hclock as [_ ?].
      * exact Hclock.
Qed.

Section Emits.

Variable E : env.
Variable P : event -> bool.

Lemma emits_ret {A : Type} (a : A) : emits P (ret a).
Proof. intros w. exists []. by rewrite app_nil_r. Qed.

Lemma emits_raise {A : Type} (e : exn) : emits P (@raise A e).
Proof. intros w. exists []. by rewrite app_nil_r. Qed.

Lemma emits_lift {A : Type} (r : res A) : emits P (lift r).
Proof. intros w. exists []. by rewrite app_nil_r. Qed.

Lemma emits_set_last (key : string) (t : Z) : emits P (set_last key t).
Proof. intros w. exists []. by rewrite app_nil_r. Qed.

Lemma emits_emit (ev : event) : P ev = true -> emits P (emit ev).
Proof. intros Hev w. exists [ev]. split; [done|]. by constructor. Qed.

Lemma emits_bind {A B : Type} (c : M A) (k : A -> M B) :
  emits P c -> (forall a, emits P (k a)) -> emits P (bind c k).
Proof.
  intros Hc Hk w. unfold bind. destruct (Hc w) as (evs1 & Ht1 & HP1).
  destruct (c w) as [[a|e] w1]; cbn in *; [|eauto].
  destruct (Hk a w1) as (evs2 & Ht2 & HP2).
  exists (evs1 ++ evs2). rewrite Ht2, Ht1, app_assoc. split; [done|].
  by apply Forall_app.
Qed.

Lemma emits_try_except {A : Type} (c : M A) (h : exn -> M A) :
  emits P c -> (forall e, emits P (h e)) -> emits P (try_except c h).
Proof.
  intros Hc Hh w. unfold try_except. destruct (Hc w) as (evs1 & Ht1 & HP1).
  destruct (c w) as [[a|e] w1]; cbn in *; [eauto|].
  destruct (Hh e w1) as (evs2 & Ht2 & HP2).
  exists (evs1 ++ evs2). rewrite Ht2, Ht1, app_assoc. split; [done|].
  by apply Forall_app.
Qed.

Lemma emits_if {A : Type} (b : bool) (c1 c2 : M A) :
  emits P c1 -> emits P c2 -> emits P (if b then c1 else c2).
Proof. by destruct b. Qed.

Lemma emits_call {A : Type} (ev : event) (r : res A) :
  P ev = true -> emits P (call ev r).
Proof.
  intros Hev. unfold call. apply emits_bind; [by apply emits_emit|].
  intros _. apply emits_lift.
Qed.

Lemma emits_send (m : message) :
  P (EvSend m) = true -> P (EvSendFailed m) = true -> emits P (send E m).
Proof.
  intros H1 H2 w. unfold send. destruct (send_err E (trace w) m).
  - exists [EvSendFailed m]. split; [done|]. by constructor.
  - exists [EvSend m]. split; [done|]. by constructor.
Qed.

Lemma emits_dict_index {V : Type} (k : string) (d : pydict V) :
  emits P (dict_index k d).
Proof. unfold dict_index. destruct (dict_get k d); [apply emits_ret|apply emits_raise]. Qed.

Lemma emits_create_alert_embed (o : item) (tag : string) :
  emits P (create_alert_embed E o tag).
Proof.
  unfold create_alert_embed.
  destruct (create_alert_embed_err E o tag); [apply emits_raise|apply emits_ret].
Qed.

Lemma emits_create_analysis_embed md j a t c :
  emits P (create_analysis_embed E md j a t c).
Proof.
  unfold create_analysis_embed.
  destruct (create_analysis_embed_err E md j a t c); [apply emits_raise|apply emits_ret].
Qed.

End Emits.

Ltac emits_steps :=
  cbv zeta;
  repeat first
    [ apply emits_ret | apply emits_raise | apply emits_lift | apply emits_set_last
    | apply emits_dict_index | apply emits_create_alert_embed
    | apply emits_create_analysis_embed
    | apply emits_call; reflexivity
    | apply emits_send; reflexivity
    | apply emits_emit; reflexivity
    | apply emits_if
    | apply emits_bind; [|intros ?]
    | apply emits_try_except; [|intros ?]
    | solve [auto] ].

(** An alert built by the formatter and sent right away. *)
Lemma emits_alert_send {A : Type} (E : env) (P : event -> bool) (o : item)
    (tag : string) (k : M A) :
  P (EvSend (Embed (AlertEmbed o tag))) = true ->
  P (EvSendFailed (Embed (AlertEmbed o tag))) = true ->
  emits P k ->
  emits P (embed <- create_alert_embed E o tag ;; send E (Embed embed) ;;; k).
Proof.
  intros H1 H2 Hk. unfold create_alert_embed.
  destruct (create_alert_embed_err E o tag).
  - intros w. exists []. by rewrite app_nil_r.
  - intros w. rewrite bind_ret_w. revert w.
    apply emits_bind; [by apply emits_send|]. intros _. exact Hk.
Qed.

Lemma emits_hourly_alerts (E : env) (ranked : list item) (count : nat) :
  emits (sleeps_for 2) (hourly_alerts E ranked count).
Proof.
  revert count. induction ranked as [|o rest IH]; intros count; cbn [hourly_alerts];
    emits_steps.
Qed.

Lemma emits_hourly_except (E : env) (channel : option bool) (e : exn) :
  emits (sleeps_for 2) (hourly_except E channel e).
Proof. unfold hourly_except. destruct channel as [[|]|]; emits_steps. Qed.

Lemma emits_hourly_analysis (E : env) : emits (sleeps_for 2) (hourly_analysis E).
Proof.
  intros w. unfold hourly_analysis, lift.
  destruct (bot_get_channel E) as [channel|e].
  - revert w. apply emits_try_except.
    + unfold hourly_try. pose proof (emits_hourly_alerts E). emits_steps.
    + apply emits_hourly_except.
  - apply emits_hourly_except.
Qed.

Lemma emits_volume_alerts_loop (E : env) (alerts : list item) :
  emits no_fetch_no_rank (volume_alerts_loop E alerts).
Proof.
  induction alerts as [|o rest IH]; cbn [volume_alerts_loop]; emits_steps.
Qed.

Lemma emits_whale_alerts_loop (E : env) (alerts : list item) :
  emits no_fetch_no_rank (whale_alerts_loop E alerts).
Proof.
  induction alerts as [|o rest IH]; cbn [whale_alerts_loop]; emits_steps.
Qed.

Lemma emits_volume_spike_monitor (E : env) :
  emits no_fetch_no_rank (volume_spike_monitor E).
Proof.
  unfold volume_spike_monitor, volume_try.
  pose proof (emits_volume_alerts_loop E). pose proof (emits_whale_alerts_loop E).
  emits_steps.
Qed.

(** *** Inverting a run that returned *)

Lemma bind_inv {A B : Type} (c : M A) (k : A -> M B) (w w' : world) (b : B) :
  bind c k w = (Val b, w') ->
  exists a w1, c w = (Val a, w1) /\ k a w1 = (Val b, w').
Proof. unfold bind. destruct (c w) as [[a|e] w1]; [eauto|done]. Qed.

Lemma call_inv {A : Type} (ev : event) (r : res A) (w w' : world) (a : A) :
  call ev r w = (Val a, w') -> r = Val a /\ w' = after w [ev].
Proof. unfold call, bind, emit, lift. cbn. intros [= -> <-]. done. Qed.

Lemma lift_inv {A : Type} (r : res A) (w w' : world) (a : A) :
  lift r w = (Val a, w') -> r = Val a /\ w' = w.
Proof. unfold lift. by intros [= -> ->]. Qed.

Lemma emit_inv (ev : event) (w w' : world) (u : unit) :
  emit ev w = (Val u, w') -> w' = after w [ev].
Proof. unfold emit. by intros [= _ <-]. Qed.

Lemma send_inv (E : env) (m : message) (w w' : world) (u : unit) :
  send E m w = (Val u, w') -> w' = after w [EvSend m].
Proof.
  unfold send. destruct (send_err E (trace w) m); [done|]. apply emit_inv.
Qed.

Lemma create_alert_embed_inv (E : env) (o : item) (tag : string) (w w' : world) (e : embed) :
  create_alert_embed E o tag w = (Val e, w') -> e = AlertEmbed o tag /\ w' = w.
Proof.
  unfold create_alert_embed. destruct (create_alert_embed_err E o tag); [done|].
  by intros [= <- <-].
Qed.

Lemma try_except_inv_completed (c : M run_end) (h : exn -> M run_end) (w w' : world) :
  (forall e w, (h e w).1 <> Val Completed) ->
  try_except c h w = (Val Completed, w') -> c w = (Val Completed, w').
Proof.
  intros Hh. unfold try_except. destruct (c w) as [[r|e] w1]; [done|].
  intros Heq. specialize (Hh e w1). by rewrite Heq in Hh.
Qed.

Lemma premium_alerts_inv (E : env) (top : list item) (w w' : world) (u : unit) :
  premium_alerts E top w = (Val u, w') ->
  w' = after w (alert_events "⚡ PREMIUM SIGNAL" (Some 3) top).
Proof.
  revert w. induction top as [|o rest IH]; intros w; cbn [premium_alerts].
  - intros [= <-]. by rewrite after_nil.
  - intros H.
    apply bind_inv in H as (e & w1 & He & H).
    apply create_alert_embed_inv in He as [-> ->].
    apply bind_inv in H as (u1 & w2 & Hs & H). apply send_inv in Hs as ->.
    apply bind_inv in H as (u2 & w3 & Hz & H). apply emit_inv in Hz as ->.
    apply IH in H as ->. by rewrite !after_after.
Qed.

Lemma four_hour_completed_inv (E : env) (st : gmap string Z) (w' : world) :
  four_hour_analysis E (start st) = (Val Completed, w') ->
  exists md jr ar ranked,
    get_comprehensive_market_data E = Val md /\
    john_analysis E md "4H" true = Val jr /\
    alpha_analysis E md "4H" true = Val ar /\
    rank_opportunities E jr ar 85 = Val ranked /\
    w' = World ([EvPrint LogFourHourStart; EvFetch; EvJohn "4H" true;
                 EvAlpha "4H" true; EvRank 85]
                ++ alert_events "⚡ PREMIUM SIGNAL" (Some 3) (take 3 ranked))
               (<["four_hour" := now E]> st).
Proof.
  unfold four_hour_analysis. intros H.
  apply try_except_inv_completed in H; [|done].
  unfold four_hour_try in H.
  apply bind_inv in H as (channel & w1 & Hc & H). apply lift_inv in Hc as [_ ->].
  destruct channel; cbn [negb] in H; [|done].
  apply bind_inv in H as (u & w1 & Hp & H). apply emit_inv in Hp as ->.
  apply bind_inv in H as (md & w1 & Hmd & H). apply call_inv in Hmd as [Hmd ->].
  destruct (dict_truthy md); cbn [negb] in H; [|done].
  apply bind_inv in H as (jr & w1 & Hj & H). apply call_inv in Hj as [Hj ->].
  apply bind_inv in H as (ar & w1 & Ha & H). apply call_inv in Ha as [Ha ->].
  apply bind_inv in H as (ranked & w1 & Hr & H). apply call_inv in Hr as [Hr ->].
  apply bind_inv in H as (u1 & w1 & Hl & H). apply premium_alerts_inv in Hl as ->.
  exists md, jr, ar, ranked. repeat split; try assumption.
  revert H. norm_world. by intros [= <-].
Qed.

Lemma sleeps_app (t1 t2 : list event) (st : gmap string Z) :
  sleeps (World (t1 ++ t2) st) = sleeps (World t1 ∅) ++ sleeps (World t2 ∅).
Proof. unfold sleeps. cbn [trace]. apply omap_app. Qed.

Lemma sleeps_alert_events tag n l st :
  sleeps (World (alert_events tag (Some n) l) st) = replicate (length l) n.
Proof.
  unfold sleeps, alert_events. cbn [trace].
  induction l as [|o l IH]; [done|]. simpl. f_equal. exact IH.
Qed.

Lemma rank_calls_app (t1 t2 : list event) (st : gmap string Z) :
  rank_calls (World (t1 ++ t2) st) = rank_calls (World t1 ∅) ++ rank_calls (World t2 ∅).
Proof. unfold rank_calls. cbn [trace]. apply omap_app. Qed.

Lemma rank_calls_alert_events tag secs l st :
  rank_calls (World (alert_events tag secs l) st) = [].
Proof.
  unfold rank_calls, alert_events. cbn [trace].
  destruct secs; (induction l as [|o l IH]; [done|]); simpl; exact IH.
Qed.

Lemma sleeps_of_emits (n : Z) (evs : list event) (st : gmap string Z) :
  Forall (fun ev => sleeps_for n ev = true) evs ->
  Forall (fun d => d = n) (sleeps (World evs st)).
Proof.
  unfold sleeps. cbn [trace]. induction 1 as [|ev evs Hev _ IH]; [constructor|].
  destruct ev; cbn; try exact IH.
  constructor; [|exact IH]. by apply bool_decide_eq_true in Hev.
Qed.

(** Every pacing sleep of an hourly run, however it ends, lasts 2 seconds. *)
Lemma hourly_sleeps (E : env) (st : gmap string Z) :
  Forall (fun d => d = 2) (sleeps (hourly_analysis E (start st)).2).
Proof.
  destruct (emits_hourly_analysis E (start st)) as (evs & Ht & HP).
  destruct (hourly_analysis E (start st)).2 as [t s]. cbn in Ht. subst t.
  by apply sleeps_of_emits.
Qed.

(** C7. A four-hour run that completes ranked once, with threshold 85,
    sent the first three ranked opportunities as premium alerts and nothing
    else, and paced its sends by 3 seconds, longer than every pacing sleep
    of any hourly run. *)
Theorem four_hour_premium_dispatch (E : env) (st : gmap string Z) (w' : world) :
  four_hour_analysis E (start st) = (Val Completed, w') ->
  exists (md : snapshot) (jr ar : analysis) (ranked : list item),
    get_comprehensive_market_data E = Val md /\
    john_analysis E md "4H" true = Val jr /\
    alpha_analysis E md "4H" true = Val ar /\
    rank_opportunities E jr ar 85 = Val ranked /\
    rank_calls w' = [85] /\
    sent w' = map (fun o => Embed (AlertEmbed o "⚡ PREMIUM SIGNAL")) (take 3 ranked) /\
    (length (sent w') <= 3)%nat /\
    sleeps w' = replicate (length (sent w')) 3 /\
    (forall (Eh : env) (sth : gmap string Z),
       Forall (fun dh => Forall (fun d4 => dh < d4) (sleeps w'))
         (sleeps (hourly_analysis Eh (start sth)).2)).
Proof.
  intros H. apply four_hour_completed_inv in H as (md & jr & ar & ranked & ? & ? & ? & ? & ->).
  exists md, jr, ar, ranked. repeat (split; [assumption|]).
  assert (Hsent : sent (World ([EvPrint LogFourHourStart; EvFetch; EvJohn "4H" true;
                 EvAlpha "4H" true; EvRank 85]
                ++ alert_events "⚡ PREMIUM SIGNAL" (Some 3) (take 3 ranked))
               (<["four_hour" := now E]> st))
          = map (fun o => Embed (AlertEmbed o "⚡ PREMIUM SIGNAL")) (take 3 ranked)).
  { by rewrite sent_app, sent_alert_events. }
  assert (Hsleeps : sleeps (World ([EvPrint LogFourHourStart; EvFetch; EvJohn "4H" true;
                 EvAlpha "4H" true; EvRank 85]
                ++ alert_events "⚡ PREMIUM SIGNAL" (Some 3) (take 3 ranked))
               (<["four_hour" := now E]> st))
          = replicate (length (take 3 ranked)) 3).
  { by rewrite sleeps_app, sleeps_alert_events. }
  split; [|split; [exact Hsent|split; [|split]]].
  - by rewrite rank_calls_app, rank_calls_alert_events.
  - rewrite Hsent, length_map, length_take. lia.
  - by rewrite Hsent, length_map.
  - intros Eh sth. rewrite Hsleeps.
    eapply Forall_impl; [apply hourly_sleeps|].
    intros dh ->. apply Forall_replicate. lia.
Qed.

(** The run of the hourly job on an empty fetch, by what the channel does
    with the notice. *)
Lemma hourly_empty_fetch_run (E : env) (st : gmap string Z) :
  bot_get_channel E = Val true ->
  get_comprehensive_market_data E = Val [] ->
  hourly_analysis E (start st) =
  match send_err E [EvPrint LogHourlyStart; EvFetch] data_unavailable_msg with
  | None =>
      (Val ReturnedEarly,
       World [EvPrint LogHourlyStart; EvFetch; EvSend data_unavailable_msg] st)
  | Some e =>
      (send E (analysis_error_msg e) ;;; ret (Handled e))
        (World [EvPrint LogHourlyStart; EvFetch; EvSendFailed data_unavailable_msg;
                EvPrint (LogHourlyError e)] st)
  end.
Proof.
  intros Hc Hmd. unfold hourly_analysis, lift. rewrite Hc.
  unfold try_except, hourly_try. cbn [negb]. unfold print.
  rewrite bind_emit_w, (bind_call_val _ _ _ _ _ Hmd). cbn [dict_truthy negb].
  fold data_unavailable_msg.
  destruct (send_err E [EvPrint LogHourlyStart; EvFetch] data_unavailable_msg)
    as [e|] eqn:Hsend.
  - rewrite (bind_send_refused E _ e) by exact Hsend.
    unfold hourly_except, print. by rewrite bind_emit_w.
  - by rewrite bind_send_accepted by exact Hsend.
Qed.

(** C5, as stated, fails when the channel refuses the notice: the run sends
    no "data unavailable" message, and the one message it sends is the
    error report of its handler. *)
Lemma hourly_empty_fetch_counterexample :
  get_comprehensive_market_data env_notice_refused = Val [] /\
  hourly_analysis env_notice_refused (start ∅) =
    (Val (Handled forbidden),
     World [EvPrint LogHourlyStart; EvFetch; EvSendFailed data_unavailable_msg;
            EvPrint (LogHourlyError forbidden);
            EvSend (analysis_error_msg forbidden)] ∅) /\
  sent (hourly_analysis env_notice_refused (start ∅)).2 = [analysis_error_msg forbidden] /\
  ~ data_unavailable_outcome ∅ (hourly_analysis env_notice_refused (start ∅)).2.
Proof.
  split; [reflexivity|]. split; [vm_compute; reflexivity|]. split; [vm_compute; reflexivity|].
  intros (Hsent & _). vm_compute in Hsent. discriminate.
Qed.

(** C5 (amended). An hourly run that fetched and got an empty snapshot
    calls no analysis and no ranker, sends no alert and leaves the job
    state as it was. When the channel accepts the "data unavailable"
    notice, the run returns after sending it, and it is the only message
    sent. When the channel refuses the notice, no "data unavailable"
    message is sent, and the only message the run may send is the error
    report of its handler. *)
Theorem hourly_empty_fetch (E : env) (st : gmap string Z) :
  In EvFetch (trace (hourly_analysis E (start st)).2) ->
  get_comprehensive_market_data E = Val [] ->
  let w' := (hourly_analysis E (start st)).2 in
  (Forall (fun ev => is_analysis_call ev = false /\ is_rank ev = false) (trace w') /\
   Forall (fun m => is_alert m = false) (sent w') /\
   last_analysis_time w' = st) /\
  (send_err E [EvPrint LogHourlyStart; EvFetch] data_unavailable_msg = None ->
   hourly_analysis E (start st) =
     (Val ReturnedEarly,
      World [EvPrint LogHourlyStart; EvFetch; EvSend data_unavailable_msg] st) /\
   data_unavailable_outcome st w') /\
  (forall e, send_err E [EvPrint LogHourlyStart; EvFetch] data_unavailable_msg = Some e ->
     ~ In data_unavailable_msg (sent w') /\
     (sent w' = [analysis_error_msg e] \/ sent w' = [])).
Proof.
  intros Hfetch Hmd. cbv zeta.
  assert (Hc : bot_get_channel E = Val true).
  { unfold hourly_analysis, lift in Hfetch.
    destruct (bot_get_channel E) as [[|]|e]; [done|exfalso..].
    - cbn in Hfetch. intuition discriminate.
    - unfold hourly_except, print in Hfetch. cbn in Hfetch. intuition discriminate. }
  assert (Hd : forall e, analysis_error_msg e <> data_unavailable_msg)
    by (intros e; unfold analysis_error_msg, data_unavailable_msg; intros [=]).
  rewrite (hourly_empty_fetch_run E st Hc Hmd).
  destruct (send_err E [EvPrint LogHourlyStart; EvFetch] data_unavailable_msg)
    as [e1|] eqn:H1;
    rewrite ?send_then_ret;
    repeat match goal with |- context [send_err E ?h (analysis_error_msg ?e)] =>
             destruct (send_err E h (analysis_error_msg e)) end;
    cbn [snd trace last_analysis_time app].
  all: unfold data_unavailable_outcome, sent; cbn [trace last_analysis_time list_omap omap].
  all: (split; [split; [repeat constructor|split; [repeat constructor|reflexivity]]|]).
  all: (split; [intros Ha; try discriminate|intros e' He'; try discriminate He']).
  - injection He' as <-. split; [intros []|by right].
  - injection He' as <-. split; [|by left].
    cbn [In]. intros [Heq|[]]. exact (Hd e1 Heq).
  - repeat split; repeat constructor.
Qed.

Section VolumeReliable.

Variable E : env.
Hypothesis HE : reliable E.

Lemma volume_alerts_loop_reliable (alerts : list item) (w : world) :
  Forall (fun a => is_Some (dict_get "volume_increase" (item_fields a))) alerts ->
  volume_alerts_loop E alerts w =
  (Val tt, after w (alert_events "📊 VOLUME SPIKE" None (filter is_spike alerts))).
Proof.
  intros Hall. revert w. induction Hall as [|a rest [v Hv] _ IH]; intros w.
  - cbn. by rewrite after_nil.
  - cbn [volume_alerts_loop]. unfold dict_index. rewrite Hv, bind_ret_w.
    rewrite filter_cons.
    destruct (decide (is_spike a)) as [Hs|Hs]; unfold is_spike in Hs; rewrite Hv in Hs.
    + rewrite (proj2 (Z.leb_le 300 v) Hs).
      rewrite (create_alert_embed_reliable E HE), bind_assoc_w, bind_ret_w.
      rewrite (bind_send_reliable E HE), IH, after_after. reflexivity.
    + rewrite (proj2 (Z.leb_gt 300 v)) by lia.
      rewrite bind_ret_w. apply IH.
Qed.

Lemma whale_alerts_loop_reliable (alerts : list item) (w : world) :
  whale_alerts_loop E alerts w =
  (Val tt, after w (alert_events "🐋 WHALE MOVEMENT" None alerts)).
Proof.
  revert w. induction alerts as [|a rest IH]; intros w.
  - cbn. by rewrite after_nil.
  - cbn [whale_alerts_loop].
    rewrite (create_alert_embed_reliable E HE), bind_ret_w.
    rewrite (bind_send_reliable E HE), IH, after_after. reflexivity.
Qed.

End VolumeReliable.

Lemma emits_qualify_volume_alerts_loop (E : env) (alerts : list item) :
  emits spikes_qualify (volume_alerts_loop E alerts).
Proof.
  induction alerts as [|a rest IH]; cbn [volume_alerts_loop]; [apply emits_ret|].
  unfold dict_index.
  destruct (dict_get "volume_increase" (item_fields a)) as [v|] eqn:Hv.
  - intros w. rewrite bind_ret_w. revert w.
    apply emits_bind; [|intros _; exact IH].
    destruct (Z.leb_spec 300 v) as [Hle|Hlt]; [|apply emits_ret].
    assert (Hq : spikes_qualify (EvSend (Embed (AlertEmbed a "📊 VOLUME SPIKE"))) = true).
    { apply bool_decide_eq_true_2. intros _. unfold is_spike. by rewrite Hv. }
    intros w. destruct (emits_alert_send E spikes_qualify a "📊 VOLUME SPIKE" (ret tt)
                          Hq eq_refl (emits_ret _ _) w) as (evs & Ht & HP).
    exists evs. split; [|exact HP]. rewrite <- Ht.
    unfold bind. destruct (create_alert_embed E a _ w) as [[e|e] w1]; [|done].
    by destruct (send E (Embed e) w1) as [[[]|e'] w2].
  - intros w. exists []. rewrite app_nil_r. split; [done|constructor].
Qed.

Lemma emits_qualify_whale_alerts_loop (E : env) (alerts : list item) :
  emits spikes_qualify (whale_alerts_loop E alerts).
Proof.
  induction alerts as [|a rest IH]; cbn [whale_alerts_loop]; [apply emits_ret|].
  apply emits_alert_send; [|done|exact IH].
  apply bool_decide_eq_true_2. intros [=].
Qed.

Lemma spikes_qualify_sent (evs : list event) (st : gmap string Z) (a : item) :
  Forall (fun ev => spikes_qualify ev = true) evs ->
  In (Embed (AlertEmbed a "📊 VOLUME SPIKE")) (sent (World evs st)) ->
  is_spike a.
Proof.
  unfold sent. cbn [trace]. induction 1 as [|ev evs Hev _ IH]; [intros []|].
  destruct ev; cbn; try exact IH.
  intros [->|Hin]; [|by apply IH].
  cbn in Hev. apply bool_decide_eq_true in Hev. by apply Hev.
Qed.

(** C9, as stated, fails when the channel refuses an alert: the refused
    send ends the run in its handler, so that the alerts after it are not
    dispatched, however large their increase, and the whale detector is not
    even called. *)
Lemma volume_monitor_dispatch_counterexample :
  detect_volume_spikes env_spike_refused = Val [spike_doge; spike_shib] /\
  detect_whale_movements env_spike_refused = Val [Item (Some "BTC") [("amount", 1000)]] /\
  dict_get "volume_increase" (item_fields spike_shib) = Some 900 /\
  volume_spike_monitor env_spike_refused (start ∅) =
    (Val (Handled forbidden),
     World [EvDetectVolume; EvSendFailed doge_alert; EvPrint (LogVolumeError forbidden)] ∅) /\
  sent (volume_spike_monitor env_spike_refused (start ∅)).2 = [] /\
  ~ volume_dispatch_expected [spike_doge; spike_shib] [Item (Some "BTC") [("amount", 1000)]]
      (volume_spike_monitor env_spike_refused (start ∅)).2.
Proof.
  split; [reflexivity|]. split; [reflexivity|]. split; [reflexivity|].
  split; [vm_compute; reflexivity|]. split; [vm_compute; reflexivity|].
  intros [_ Hwhale]. specialize (Hwhale _ (or_introl eq_refl)).
  vm_compute in Hwhale. exact Hwhale.
Qed.

(** C9 (amended). No run of the volume monitor fetches the market snapshot
    or calls the ranker, and every volume-spike alert a run dispatches has
    an increase of at least 300. When the channel is found, no detector,
    formatter or send raises and every volume alert carries its
    [volume_increase], the run dispatches exactly the volume alerts whose
    increase is at least 300, in order, then every whale alert. *)
Theorem volume_monitor_dispatch (E : env) (st : gmap string Z) :
  Forall (fun ev => no_fetch_no_rank ev = true)
    (trace (volume_spike_monitor E (start st)).2) /\
  (forall a,
     In (Embed (AlertEmbed a "📊 VOLUME SPIKE")) (sent (volume_spike_monitor E (start st)).2) ->
     exists v, dict_get "volume_increase" (item_fields a) = Some v /\ 300 <= v) /\
  (forall volume_alerts whale_alerts : list item,
     reliable E ->
     detect_volume_spikes E = Val volume_alerts ->
     detect_whale_movements E = Val whale_alerts ->
     Forall (fun a => is_Some (dict_get "volume_increase" (item_fields a))) volume_alerts ->
     exists w' : world,
       volume_spike_monitor E (start st) = (Val Completed, w') /\
       sent w' =
         map (fun a => Embed (AlertEmbed a "📊 VOLUME SPIKE")) (filter is_spike volume_alerts)
         ++ map (fun a => Embed (AlertEmbed a "🐋 WHALE MOVEMENT")) whale_alerts /\
       volume_dispatch_expected volume_alerts whale_alerts w').
Proof.
  split; [|split].
  - destruct (emits_volume_spike_monitor E (start st)) as (evs & Ht & HP).
    by rewrite Ht.
  - assert (Hem : emits spikes_qualify (volume_spike_monitor E)).
    { unfold volume_spike_monitor, volume_try.
      pose proof (emits_qualify_volume_alerts_loop E).
      pose proof (emits_qualify_whale_alerts_loop E). emits_steps. }
    destruct (Hem (start st)) as (evs & Ht & HP). intros a Hin.
    destruct (volume_spike_monitor E (start st)).2 as [t s]. cbn in Ht. subst t.
    apply spikes_qualify_sent in Hin; [|exact HP].
    unfold is_spike in Hin. destruct (dict_get _ _) as [v|]; [eauto|done].
  - intros va wa HE Hva Hwa Hall.
    assert (Hrun : volume_spike_monitor E (start st) =
      (Val Completed,
       World (EvDetectVolume :: alert_events "📊 VOLUME SPIKE" None (filter is_spike va)
              ++ EvDetectWhale :: alert_events "🐋 WHALE MOVEMENT" None wa) st)).
    { unfold volume_spike_monitor, try_except, volume_try.
      rewrite (bind_lift_val _ _ _ _ (reliable_channel E HE)). cbn [negb].
      rewrite (bind_call_val _ _ _ _ _ Hva).
      unfold bind at 1. rewrite (volume_alerts_loop_reliable E HE _ _ Hall).
      rewrite (bind_call_val _ _ _ _ _ Hwa).
      unfold bind at 1. rewrite (whale_alerts_loop_reliable E HE).
      norm_world. rewrite <- ?app_assoc. reflexivity. }
    eexists. split; [exact Hrun|].
    assert (Hsent : sent (World (EvDetectVolume :: alert_events "📊 VOLUME SPIKE" None (filter is_spike va)
              ++ EvDetectWhale :: alert_events "🐋 WHALE MOVEMENT" None wa) st) =
         map (fun a => Embed (AlertEmbed a "📊 VOLUME SPIKE")) (filter is_spike va)
         ++ map (fun a => Embed (AlertEmbed a "🐋 WHALE MOVEMENT")) wa).
    { rewrite sent_cons. cbn [app]. rewrite sent_app, sent_alert_events, sent_cons.
      cbn [app]. by rewrite sent_alert_events. }
    split; [exact Hsent|]. unfold volume_dispatch_expected. rewrite Hsent. split.
    + intros a Ha. rewrite in_app_iff, !in_map_iff. split.
      * intros [(a' & [= ->] & Hin)|(a' & [=] & _)].
        apply list_elem_of_In, list_elem_of_filter in Hin as [Hs _].
        unfold is_spike in Hs. destruct (dict_get _ _) as [v|]; [eauto|done].
      * intros (v & Hv & Hle). left. exists a. split; [done|].
        apply list_elem_of_In, list_elem_of_filter. split; [|by apply list_elem_of_In].
        unfold is_spike. by rewrite Hv.
    + intros a Ha. rewrite in_app_iff, !in_map_iff. right. eauto.
Qed.

Lemma str_truthy_ne (s : string) : s <> "" -> str_truthy s = true.
Proof. by destruct s. Qed.

(** The run of [analisis] on an untracked coin, by what the channel does
    with the progress notice and with the reply. *)
Lemma manual_coin_not_found_run (E : env) (upper : string -> string) (st : gmap string Z)
    (coin : string) (md : snapshot) :
  get_comprehensive_market_data E = Val md ->
  dict_truthy md = true ->
  coin <> "" ->
  dict_contains (upper coin) md = false ->
  manual_analysis E upper (Some coin) (start st) =
  match send_err E [] analyzing_msg with
  | Some e =>
      (send E (analysis_failed_msg e) ;;; ret (Handled e))
        (World [EvSendFailed analyzing_msg] st)
  | None =>
      match send_err E [EvSend analyzing_msg; EvFetch] (coin_not_found_msg upper coin) with
      | None =>
          (Val Completed,
           World [EvSend analyzing_msg; EvFetch; EvSend (coin_not_found_msg upper coin)] st)
      | Some e =>
          (send E (analysis_failed_msg e) ;;; ret (Handled e))
            (World [EvSend analyzing_msg; EvFetch;
                    EvSendFailed (coin_not_found_msg upper coin)] st)
      end
  end.
Proof.
  intros Hmd Hne Hcoin Hnot.
  unfold manual_analysis, try_except, manual_try. fold analyzing_msg.
  destruct (send_err E [] analyzing_msg) as [e|] eqn:H1.
  - by rewrite (bind_send_refused E _ e) by exact H1.
  - rewrite bind_send_accepted by exact H1.
    rewrite (bind_call_val _ _ _ _ _ Hmd), Hne. cbn [negb].
    rewrite (str_truthy_ne _ Hcoin). unfold manual_coin. cbv zeta. rewrite Hnot.
    fold (coin_not_found_msg upper coin).
    destruct (send_err E [EvSend analyzing_msg; EvFetch] (coin_not_found_msg upper coin))
      as [e|] eqn:H2.
    + by rewrite (bind_send_refused E _ e) by exact H2.
    + by rewrite bind_send_accepted by exact H2.
Qed.


(** C10, as stated, fails in two ways. For the empty coin argument
    [if coin:] is false, and the command runs the whole-market analysis
    with its brain calls, its ranking and its alerts. And when the channel
    refuses the progress notice, the command is in its handler before it
    has fetched anything: no "Coin not found" message is sent. *)
Lemma manual_coin_not_found_counterexample :
  (get_comprehensive_market_data demo_env = Val demo_md /\
   dict_truthy demo_md = true /\
   dict_contains (str_upper "") demo_md = false /\
   sent (manual_analysis demo_env str_upper (Some "") (start ∅)).2 =
     analyzing_msg :: numbered_alerts (take 3 demo_ranked) 1 /\
   ~ coin_not_found_outcome str_upper "" ∅
       (manual_analysis demo_env str_upper (Some "") (start ∅)).2) /\
  (get_comprehensive_market_data env_analyzing_refused = Val demo_md /\
   dict_contains (str_upper "doge") demo_md = false /\
   manual_analysis env_analyzing_refused str_upper (Some "doge") (start ∅) =
     (Val (Handled forbidden),
      World [EvSendFailed analyzing_msg; EvSend (analysis_failed_msg forbidden)] ∅) /\
   ~ coin_not_found_outcome str_upper "doge" ∅
       (manual_analysis env_analyzing_refused str_upper (Some "doge") (start ∅)).2).
Proof.
  split.
  - repeat split. intros (Hone & _). vm_compute in Hone. discriminate.
  - repeat split. intros (Hone & _). vm_compute in Hone. discriminate.
Qed.

(** C10 (amended). For a non-empty coin argument whose upper-cased form is
    not a key of the non-empty snapshot, no run of the [analisis] command
    calls an analysis or the ranker, sends an alert or changes the job
    state. When the channel accepts the progress notice and the reply, the
    run sends the notice, then one "Coin not found" message naming the
    upper-cased coin, and nothing else; when the channel refuses one of the
    two, no "Coin not found" message is sent. *)
Theorem manual_coin_not_found (E : env) (upper : string -> string) (st : gmap string Z)
    (coin : string) (md : snapshot) :
  get_comprehensive_market_data E = Val md ->
  dict_truthy md = true ->
  coin <> "" ->
  dict_contains (upper coin) md = false ->
  let w' := (manual_analysis E upper (Some coin) (start st)).2 in
  (Forall (fun ev => is_analysis_call ev = false /\ is_rank ev = false) (trace w') /\
   Forall (fun m => is_alert m = false) (sent w') /\
   last_analysis_time w' = st) /\
  (send_err E [] analyzing_msg = None ->
   send_err E [EvSend analyzing_msg; EvFetch] (coin_not_found_msg upper coin) = None ->
   manual_analysis E upper (Some coin) (start st) =
     (Val Completed,
      World [EvSend analyzing_msg; EvFetch; EvSend (coin_not_found_msg upper coin)] st) /\
   coin_not_found_outcome upper coin st w') /\
  (send_err E [] analyzing_msg <> None \/
   send_err E [EvSend analyzing_msg; EvFetch] (coin_not_found_msg upper coin) <> None ->
   ~ In (coin_not_found_msg upper coin) (sent w')).
Proof.
  intros Hmd Hne Hcoin Hnot. cbv zeta.
  assert (Hd1 : forall e, analysis_failed_msg e <> coin_not_found_msg upper coin)
    by (intros e; unfold analysis_failed_msg, coin_not_found_msg; intros [=]).
  assert (Hd2 : analyzing_msg <> coin_not_found_msg upper coin)
    by (unfold analyzing_msg, coin_not_found_msg; intros [=]).
  rewrite (manual_coin_not_found_run E upper st coin md Hmd Hne Hcoin Hnot).
  destruct (send_err E [] analyzing_msg) as [e1|] eqn:H1;
    [|destruct (send_err E [EvSend analyzing_msg; EvFetch] (coin_not_found_msg upper coin))
        as [e2|] eqn:H2];
    rewrite ?send_then_ret;
    repeat match goal with |- context [send_err E ?h (analysis_failed_msg ?e)] =>
             destruct (send_err E h (analysis_failed_msg e)) end;
    cbn [snd trace last_analysis_time app].
  all: unfold coin_not_found_outcome, sent; cbn [trace last_analysis_time list_omap omap].
  all: (split; [split; [repeat constructor|split; [repeat constructor|reflexivity]]|]).
  all: (split; [intros Ha Hb; try discriminate|intros Hor Hin]).
  all: try (cbn [In] in Hin; destruct Hor as [Hor|Hor]; try congruence; intuition eauto).
  split; [reflexivity|].
  split; [|split; [repeat constructor|split; [repeat constructor|reflexivity]]].
  rewrite filter_cons, decide_False by exact Hd2.
  by rewrite filter_cons, decide_True, filter_nil.
Qed.

(** *** The stable descending sort *)

Section SortedReverse.

Context {A : Type} (key : A -> Z).

Lemma insert_desc_Permutation (x : A) (l : list A) :
  Permutation (insert_desc key x l) (x :: l).
Proof.
  induction l as [|y l IH]; cbn; [done|].
  destruct (key y <=? key x); [done|].
  rewrite IH. apply perm_swap.
Qed.

Lemma sorted_reverse_Permutation (l : list A) : Permutation (sorted_reverse key l) l.
Proof.
  induction l as [|x l IH]; cbn; [done|].
  change (foldr (insert_desc key) [] l) with (sorted_reverse key l).
  by rewrite insert_desc_Permutation, IH.
Qed.

Lemma insert_desc_sorted (x : A) (l : list A) :
  StronglySorted (key_ge key) l -> StronglySorted (key_ge key) (insert_desc key x l).
Proof.
  induction 1 as [|y l Hl IH Hy]; cbn; [by repeat constructor|].
  destruct (Z.leb_spec (key y) (key x)) as [Hle|Hgt].
  - constructor; [by constructor|].
    constructor; [exact Hle|].
    eapply Forall_impl; [exact Hy|]. unfold key_ge. intros z Hz. lia.
  - constructor; [exact IH|].
    rewrite insert_desc_Permutation. constructor; [unfold key_ge; lia | exact Hy].
Qed.

Lemma sorted_reverse_sorted (l : list A) : StronglySorted (key_ge key) (sorted_reverse key l).
Proof.
  induction l as [|x l IH]; cbn; [constructor|]. by apply insert_desc_sorted.
Qed.

(** Items with equal keys keep their order: the sort is stable. *)
Lemma insert_desc_filter_eq (x : A) (l : list A) (k : Z) :
  StronglySorted (key_ge key) l ->
  filter (fun y => key y = k) (insert_desc key x l) =
  filter (fun y => key y = k) (x :: l).
Proof.
  induction 1 as [|y l Hl IH Hy]; cbn [insert_desc]; [done|].
  destruct (Z.leb_spec (key y) (key x)) as [Hle|Hgt]; [done|].
  rewrite (filter_cons _ y), IH, !filter_cons.
  destruct (decide (key y = k)), (decide (key x = k)); try done. lia.
Qed.

Lemma sorted_reverse_stable (l : list A) (k : Z) :
  filter (fun y => key y = k) (sorted_reverse key l) = filter (fun y => key y = k) l.
Proof.
  induction l as [|x l IH]; cbn; [done|].
  change (foldr (insert_desc key) [] l) with (sorted_reverse key l).
  rewrite insert_desc_filter_eq by apply sorted_reverse_sorted.
  by rewrite !filter_cons, IH.
Qed.

End SortedReverse.

Lemma gainer_fields_symbols (key : string) (coins : list (string * record)) (i : nat) :
  map gf_symbol (gainer_fields key coins i) = map fst coins.
Proof.
  revert i. induction coins as [|[s d] rest IH]; intros i; cbn; [done|]. by rewrite IH.
Qed.

Lemma gainer_fields_changes (key : string) (coins : list (string * record)) (i : nat) :
  map gf_change (gainer_fields key coins i) = map (change_of key) coins.
Proof.
  revert i. induction coins as [|[s d] rest IH]; intros i; cbn; [done|]. by rewrite IH.
Qed.

Lemma emits_quiet_top_gainers (E : env) (timeframe : string) :
  emits no_analysis_no_alert (top_gainers E timeframe).
Proof. unfold top_gainers, top_try. emits_steps. Qed.

(** The run of the [top] command on a non-empty snapshot, by what the
    channel does with the progress notice and with the embed. *)
Lemma top_gainers_run (E : env) (st : gmap string Z) (timeframe : string) (md : snapshot) :
  get_comprehensive_market_data E = Val md ->
  dict_truthy md = true ->
  top_gainers E timeframe (start st) =
  match send_err E [] (top_progress_msg timeframe) with
  | Some e =>
      (send E (top_error_msg e) ;;; ret (Handled e))
        (World [EvSendFailed (top_progress_msg timeframe)] st)
  | None =>
      match send_err E [EvSend (top_progress_msg timeframe); EvFetch]
              (top_reply timeframe md) with
      | None =>
          (Val Completed,
           World [EvSend (top_progress_msg timeframe); EvFetch;
                  EvSend (top_reply timeframe md)] st)
      | Some e =>
          (send E (top_error_msg e) ;;; ret (Handled e))
            (World [EvSend (top_progress_msg timeframe); EvFetch;
                    EvSendFailed (top_reply timeframe md)] st)
      end
  end.
Proof.
  intros Hmd Hne. unfold top_gainers, try_except, top_try.
  fold (top_progress_msg timeframe).
  destruct (send_err E [] (top_progress_msg timeframe)) as [e|] eqn:H1.
  - by rewrite (bind_send_refused E _ e) by exact H1.
  - rewrite bind_send_accepted by exact H1.
    rewrite (bind_call_val _ _ _ _ _ Hmd), Hne. cbn [negb]. cbv zeta.
    fold (top_reply timeframe md).
    destruct (send_err E [EvSend (top_progress_msg timeframe); EvFetch]
                (top_reply timeframe md)) as [e|] eqn:H2.
    + by rewrite (bind_send_refused E _ e) by exact H2.
    + by rewrite bind_send_accepted by exact H2.
Qed.

(** C8, as stated, fails when the channel refuses the progress notice: the
    command is in its handler before it has fetched anything, and replies
    with an error message instead of the list. *)
Lemma top_gainers_top_ten_counterexample :
  get_comprehensive_market_data env_top_refused = Val fifteen_coins /\
  dict_truthy fifteen_coins = true /\
  top_gainers env_top_refused "24h" (start ∅) =
    (Val (Handled forbidden),
     World [EvSendFailed (top_progress_msg "24h"); EvSend (top_error_msg forbidden)] ∅) /\
  sent (top_gainers env_top_refused "24h" (start ∅)).2 = [top_error_msg forbidden] /\
  ~ In (top_reply "24h" fifteen_coins) (sent (top_gainers env_top_refused "24h" (start ∅)).2).
Proof.
  split; [reflexivity|]. split; [reflexivity|].
  split; [vm_compute; reflexivity|]. split; [vm_compute; reflexivity|].
  intros Hin. vm_compute in Hin. destruct Hin as [Hin|[]]. discriminate Hin.
Qed.

(** C8 (amended). No run of the [top] command calls an analysis or the
    ranker, sends an alert or changes the job state. On a non-empty
    snapshot the list of the command holds the first ten coins of the
    snapshot sorted by the percent change of the timeframe, largest first
    (a coin without that field counting as 0), so that no coin left out has
    a larger change than a listed one. When the channel accepts the
    progress notice and the embed, the run replies with the notice and then
    the embed of that list; when it refuses one of the two, every message
    of the run is a text: the list is not sent. *)
Theorem top_gainers_top_ten (E : env) (st : gmap string Z) (timeframe : string) :
  (Forall (fun ev => is_analysis_call ev = false /\ is_rank ev = false)
     (trace (top_gainers E timeframe (start st)).2) /\
   Forall (fun m => is_alert m = false) (sent (top_gainers E timeframe (start st)).2) /\
   last_analysis_time (top_gainers E timeframe (start st)).2 = st) /\
  (forall md : snapshot,
     get_comprehensive_market_data E = Val md ->
     dict_truthy md = true ->
     let timeframe_key := "percent_change_" +:+ timeframe in
     let listed := top_sorted_coins timeframe md in
     let fields := gainer_fields timeframe_key listed 1 in
     (top_reply timeframe md = Embed (TopEmbed ("🏆 Top Gainers (" +:+ timeframe +:+ ")") fields) /\
      map gf_symbol fields = map fst listed /\
      map gf_change fields = map (change_of timeframe_key) listed /\
      length listed = Nat.min 10 (length md) /\
      (length md = 15%nat -> length listed = 10%nat) /\
      StronglySorted (fun x y => change_of timeframe_key y <= change_of timeframe_key x)
        listed /\
      exists left_out : list (string * record),
        Permutation (listed ++ left_out) md /\
        forall x y, In x listed -> In y left_out ->
          change_of timeframe_key y <= change_of timeframe_key x) /\
     (send_err E [] (top_progress_msg timeframe) = None ->
      send_err E [EvSend (top_progress_msg timeframe); EvFetch] (top_reply timeframe md)
        = None ->
      top_gainers E timeframe (start st) =
        (Val Completed,
         World [EvSend (top_progress_msg timeframe); EvFetch;
                EvSend (top_reply timeframe md)] st)) /\
     (send_err E [] (top_progress_msg timeframe) <> None \/
      send_err E [EvSend (top_progress_msg timeframe); EvFetch] (top_reply timeframe md)
        <> None ->
      Forall (fun m => exists s, m = Text s) (sent (top_gainers E timeframe (start st)).2))).
Proof.
  split.
  - destruct (emits_quiet_top_gainers E timeframe (start st)) as (evs & Ht & HP).
    assert (Hp : pure_state (top_gainers E timeframe))
      by (unfold top_gainers, top_try; cbv zeta; auto 20 with pure_state).
    specialize (Hp (start st)).
    destruct (top_gainers E timeframe (start st)).2 as [t s]. cbn in Ht, Hp. subst t s.
    destruct (no_analysis_no_alert_spec evs st HP) as [Hcalls Halerts]. done.
  - intros md Hmd Hne timeframe_key listed fields.
    split; [|split].
    + set (sorted := sorted_reverse (change_of timeframe_key) md).
      assert (Hsorted : StronglySorted (key_ge (change_of timeframe_key)) sorted)
        by apply sorted_reverse_sorted.
      assert (Hsplit : listed ++ drop 10 sorted = sorted) by apply take_drop.
      assert (Hlen : length listed = Nat.min 10 (length md)).
      { unfold listed, top_sorted_coins. rewrite length_take.
        by rewrite (Permutation_length (sorted_reverse_Permutation _ md)). }
      split; [reflexivity|].
      split; [apply gainer_fields_symbols|]. split; [apply gainer_fields_changes|].
      split; [exact Hlen|]. split; [lia|].
      rewrite <- Hsplit in Hsorted. split.
      * by apply StronglySorted_app_1_l in Hsorted.
      * exists (drop 10 sorted). split; [rewrite Hsplit; apply sorted_reverse_Permutation|].
        intros x y Hx Hy.
        apply (StronglySorted_app_1_elem_of _ _ _ x y Hsorted); by apply list_elem_of_In.
    + intros H1 H2. by rewrite (top_gainers_run E st timeframe md Hmd Hne), H1, H2.
    + intros Hor. rewrite (top_gainers_run E st timeframe md Hmd Hne).
      destruct (send_err E [] (top_progress_msg timeframe)) as [e1|] eqn:H1;
        [|destruct (send_err E [EvSend (top_progress_msg timeframe); EvFetch]
                      (top_reply timeframe md)) as [e2|] eqn:H2];
        rewrite ?send_then_ret;
        repeat match goal with |- context [send_err E ?h (top_error_msg ?e)] =>
                 destruct (send_err E h (top_error_msg e)) end;
        unfold sent; cbn [snd trace app list_omap omap].
      all: try (repeat constructor; unfold top_error_msg, top_progress_msg; eauto; fail).
      destruct Hor as [Hor|Hor]; congruence.
Qed.

(** *** Counting the alerts of a run, whatever fails *)

Lemma alert_list_app (l1 l2 : list event) :
  alert_list (l1 ++ l2) = alert_list l1 ++ alert_list l2.
Proof. apply omap_app. Qed.

Lemma alert_list_quiet (evs : list event) :
  Forall (fun ev => no_alert ev = true) evs -> alert_list evs = [].
Proof.
  induction 1 as [|ev evs Hev _ IH]; [done|].
  destruct ev as [| | | | | | | |[s|[| |]]| |]; cbn in *; done.
Qed.

(** An analysis embed built by the formatter and sent right away. *)
Lemma emits_analysis_send {A : Type} (E : env) (P : event -> bool) md j a t c (k : M A) :
  P (EvSend (Embed (AnalysisEmbed md j a t c))) = true ->
  P (EvSendFailed (Embed (AnalysisEmbed md j a t c))) = true ->
  emits P k ->
  emits P (embed <- create_analysis_embed E md j a t c ;; send E (Embed embed) ;;; k).
Proof.
  intros H1 H2 Hk. unfold create_analysis_embed.
  destruct (create_analysis_embed_err E md j a t c).
  - intros w. exists []. by rewrite app_nil_r.
  - intros w. rewrite bind_ret_w. revert w.
    apply emits_bind; [by apply emits_send|]. intros _. exact Hk.
Qed.

Ltac quiet_steps :=
  cbv zeta;
  repeat first
    [ apply emits_ret | apply emits_raise | apply emits_lift | apply emits_set_last
    | apply emits_dict_index
    | apply emits_call; reflexivity
    | apply emits_send; reflexivity
    | apply emits_emit; reflexivity
    | apply emits_analysis_send; [reflexivity | reflexivity |]
    | apply emits_if
    | apply emits_bind; [|intros ?]
    | apply emits_try_except; [|intros ?] ].

Section Dispatches.

Context {A : Type} (E : env) (Q : item -> string -> Prop).

Lemma dispatches_quiet (n : nat) (c : M A) : emits no_alert c -> dispatches n Q c.
Proof.
  intros Hc w. destruct (Hc w) as (evs & Ht & HP). exists evs.
  rewrite (alert_list_quiet _ HP). repeat split; [done|cbn; lia|constructor].
Qed.

Lemma dispatches_weaken (n m : nat) (c : M A) :
  (n <= m)%nat -> dispatches n Q c -> dispatches m Q c.
Proof.
  intros Hnm Hc w. destruct (Hc w) as (evs & Ht & Hn & HQ).
  exists evs. repeat split; [done|lia|done].
Qed.

Lemma dispatches_if (n : nat) (b : bool) (c1 c2 : M A) :
  dispatches n Q c1 -> dispatches n Q c2 -> dispatches n Q (if b then c1 else c2).
Proof. by destruct b. Qed.

Lemma dispatches_bind {B : Type} (n1 n2 : nat) (c : M B) (k : B -> M A) :
  dispatches n1 Q c -> (forall b, dispatches n2 Q (k b)) ->
  dispatches (n1 + n2) Q (bind c k).
Proof.
  intros Hc Hk w. unfold bind. destruct (Hc w) as (evs1 & Ht1 & Hn1 & HQ1).
  destruct (c w) as [[b|e] w1]; cbn in *.
  - destruct (Hk b w1) as (evs2 & Ht2 & Hn2 & HQ2).
    exists (evs1 ++ evs2). rewrite Ht2, Ht1, app_assoc, alert_list_app, length_app.
    repeat split; [lia|]. by apply Forall_app.
  - exists evs1. repeat split; [done|lia|done].
Qed.

Lemma dispatches_after_quiet {B : Type} (n : nat) (c : M B) (k : B -> M A) :
  emits no_alert c -> (forall b, dispatches n Q (k b)) -> dispatches n Q (bind c k).
Proof.
  intros Hc Hk. change n with (0 + n)%nat.
  apply dispatches_bind; [|exact Hk].
  intros w. destruct (Hc w) as (evs & Ht & HP). exists evs.
  rewrite (alert_list_quiet _ HP). repeat split; [done|cbn; lia|constructor].
Qed.

Lemma dispatches_try_except (n : nat) (c : M A) (h : exn -> M A) :
  dispatches n Q c -> (forall e, emits no_alert (h e)) ->
  dispatches n Q (try_except c h).
Proof.
  intros Hc Hh w. unfold try_except. destruct (Hc w) as (evs1 & Ht1 & Hn1 & HQ1).
  destruct (c w) as [[a|e] w1]; cbn in *; [by exists evs1|].
  destruct (Hh e w1) as (evs2 & Ht2 & HP2).
  exists (evs1 ++ evs2).
  rewrite Ht2, Ht1, app_assoc, alert_list_app, (alert_list_quiet _ HP2), app_nil_r.
  done.
Qed.

(** One alert built and sent, then [k]. *)
Lemma dispatches_alert_send (n : nat) (o : item) (tag : string) (k : M A) :
  Q o tag -> dispatches n Q k ->
  dispatches (S n) Q (embed <- create_alert_embed E o tag ;; send E (Embed embed) ;;; k).
Proof.
  intros HQ Hk w. unfold create_alert_embed.
  destruct (create_alert_embed_err E o tag).
  - exists []. rewrite app_nil_r. repeat split; [cbn; lia|constructor].
  - rewrite bind_ret_w. unfold bind, send.
    destruct (send_err E (trace w) (Embed (AlertEmbed o tag))).
    + exists [EvSendFailed (Embed (AlertEmbed o tag))].
      repeat split; [cbn; lia|constructor].
    + cbn. destruct (Hk (after w [EvSend (Embed (AlertEmbed o tag))]))
        as (evs & Ht & Hn & HQs).
      exists (EvSend (Embed (AlertEmbed o tag)) :: evs).
      unfold after in *. cbn in *. rewrite Ht, <- app_assoc.
      split; [done|]. split; [unfold alert_list in Hn; lia|]. by constructor.
Qed.

End Dispatches.

Lemma dispatches_mono {A : Type} (Q Q' : item -> string -> Prop) (n : nat) (c : M A) :
  (forall o t, Q o t -> Q' o t) -> dispatches n Q c -> dispatches n Q' c.
Proof.
  intros HQ Hc w. destruct (Hc w) as (evs & Ht & Hn & HQs).
  exists evs. repeat split; [done..|].
  eapply Forall_impl; [exact HQs|]. intros [o t]. apply HQ.
Qed.

Ltac dispatches_steps :=
  cbv zeta;
  repeat first
    [ apply dispatches_quiet; solve [quiet_steps]
    | apply dispatches_if
    | apply dispatches_after_quiet; [solve [quiet_steps] | intros ?]
    | match goal with
      | H : forall _, dispatches _ _ _ |- dispatches ?n _ (bind _ _) =>
          replace n with (n + 0)%nat by lia;
          apply dispatches_bind; [solve [apply H] | intros ?]
      end ].

Lemma dispatches_hourly_alerts (E : env) (ranked : list item) (count : nat) :
  dispatches (5 - count) high_potential (hourly_alerts E ranked count).
Proof.
  revert count. induction ranked as [|o rest IH]; intros count; cbn [hourly_alerts].
  - apply dispatches_quiet, emits_ret.
  - unfold not_btc. case_bool_decide as Ho; cbn [andb]; [|apply IH].
    destruct (Nat.ltb_spec count 5) as [Hc|Hc]; [|apply IH].
    apply (dispatches_weaken _ (S (5 - S count))); [lia|].
    apply dispatches_alert_send; [done|].
    apply dispatches_after_quiet; [quiet_steps|]. intros _. apply IH.
Qed.

(** C1, as stated, fails when the channel refuses an alert: the refused
    send ends the run in its handler. The report and the alert sent before
    it stay sent, the error report follows them, and neither the remaining
    alerts nor the overview are sent. *)
Lemma hourly_btc_report_alerts_summary_counterexample :
  get_comprehensive_market_data env_alert_refused = Val demo_md /\
  dict_contains "BTC" demo_md = true /\
  john_analysis env_alert_refused demo_md "1H" false = Val demo_john /\
  alpha_analysis env_alert_refused demo_md "1H" false = Val demo_alpha /\
  has_result "BTC" demo_john /\
  rank_opportunities env_alert_refused demo_john demo_alpha 75 = Val demo_ranked /\
  length (filter is_altcoin demo_ranked) = 6%nat /\
  (hourly_analysis env_alert_refused (start ∅)).1 = Val (Handled forbidden) /\
  sent (hourly_analysis env_alert_refused (start ∅)).2 =
    [Embed (AnalysisEmbed [("BTC", [("price", 100); ("percent_change_24h", 2)])]
              [("BTC", [("score", 90)])] [("BTC", [])] "1H Bitcoin Report" (Some "BTC"));
     Embed (AlertEmbed (opportunity "AVAX" 99) "🚀 HIGH POTENTIAL");
     analysis_error_msg forbidden] /\
  ~ hourly_dispatch_expected demo_md demo_john demo_alpha
      (sent (hourly_analysis env_alert_refused (start ∅)).2).
Proof.
  assert (Hsent : sent (hourly_analysis env_alert_refused (start ∅)).2 =
    [Embed (AnalysisEmbed [("BTC", [("price", 100); ("percent_change_24h", 2)])]
              [("BTC", [("score", 90)])] [("BTC", [])] "1H Bitcoin Report" (Some "BTC"));
     Embed (AlertEmbed (opportunity "AVAX" 99) "🚀 HIGH POTENTIAL");
     analysis_error_msg forbidden]) by (vm_compute; reflexivity).
  split; [reflexivity|]. split; [reflexivity|]. split; [reflexivity|].
  split; [reflexivity|]. split; [eexists; split; [reflexivity|discriminate]|].
  split; [reflexivity|]. split; [vm_compute; reflexivity|].
  split; [vm_compute; reflexivity|]. split; [exact Hsent|].
  intros (btc_data & alerts & _ & Hmsgs & _). rewrite Hsent in Hmsgs.
  unfold analysis_error_msg in Hmsgs.
  destruct alerts as [|a1 [|a2 rest]]; cbn [map app] in Hmsgs; discriminate Hmsgs.
Qed.

Lemma dispatches_hourly_analysis (E : env) :
  dispatches 5 high_potential (hourly_analysis E).
Proof.
  intros w. unfold hourly_analysis, lift.
  destruct (bot_get_channel E) as [channel|e]; revert w.
  - apply dispatches_try_except.
    + unfold hourly_try.
      assert (Hloop : forall ranked, dispatches 5 high_potential (hourly_alerts E ranked 0))
        by (intros ranked; apply (dispatches_hourly_alerts E ranked 0)).
      dispatches_steps.
    + intros e. unfold hourly_except. quiet_steps.
  - apply dispatches_quiet. unfold hourly_except. quiet_steps.
Qed.

(** C1 (amended). No hourly run sends more than five alerts, and none of
    its alerts is for BTC. When the channel is found, the fetch, both
    analyses and the ranker return, and no formatter call and no send
    raises, an hourly run on a snapshot that contains BTC with an analysis
    result completes, and sends the dedicated BTC report first, then the
    first five non-BTC ranked opportunities (at most five alerts, exactly
    five when six or more qualify), then the market overview. *)
Theorem hourly_btc_report_alerts_summary (E : env) (st : gmap string Z) :
  ((length (alerts_sent (hourly_analysis E (start st)).2) <= 5)%nat /\
   Forall (fun p => p.2 = "🚀 HIGH POTENTIAL" /\ item_symbol p.1 <> Some "BTC")
     (alerts_sent (hourly_analysis E (start st)).2)) /\
  (forall (md : snapshot) (jr ar : analysis) (ranked : list item),
     reliable E ->
     get_comprehensive_market_data E = Val md ->
     dict_contains "BTC" md = true ->
     john_analysis E md "1H" false = Val jr ->
     alpha_analysis E md "1H" false = Val ar ->
     has_result "BTC" jr \/ has_result "BTC" ar ->
     rank_opportunities E jr ar 75 = Val ranked ->
     exists (btc_data : record) (alerts : list item) (w' : world),
       hourly_analysis E (start st) = (Val Completed, w') /\
       dict_get "BTC" md = Some btc_data /\
       sent w' =
         Embed (AnalysisEmbed [("BTC", btc_data)]
                  [("BTC", dict_get_default "BTC" jr [])]
                  [("BTC", dict_get_default "BTC" ar [])]
                  "1H Bitcoin Report" (Some "BTC"))
         :: map (fun o => Embed (AlertEmbed o "🚀 HIGH POTENTIAL")) alerts
         ++ [Embed (AnalysisEmbed md jr ar "1H Market Overview" None)] /\
       alerts = take 5 (filter is_altcoin ranked) /\
       (length alerts <= 5)%nat /\
       Forall (fun o => item_symbol o <> Some "BTC") alerts /\
       ((6 <= length (filter is_altcoin ranked))%nat -> length alerts = 5%nat)).
Proof.
  split.
  - destruct (dispatches_hourly_analysis E (start st)) as (evs & Ht & Hn & HQ).
    unfold alerts_sent. rewrite Ht. cbn [start trace app]. done.
  - intros md jr ar ranked HE Hmd Hbtc Hj Ha Hres Hrank.
    apply has_result_truthy in Hres.
    destruct (dict_contains_get _ _ Hbtc) as [btc_data Hget].
    exists btc_data, (take 5 (filter is_altcoin ranked)).
    eexists. split; [|split; [exact Hget|]].
    + apply (hourly_reliable_run E st md jr ar ranked); auto.
      by apply (dict_contains_truthy "BTC").
    + split; [|split; [reflexivity|split; [|split]]].
      * unfold btc_report_events. rewrite Hget, Hres. cbn [app].
        rewrite !sent_cons. cbn [app]. rewrite sent_app, sent_alert_events.
        by rewrite sent_cons.
      * rewrite length_take. lia.
      * apply Forall_take. apply list.Forall_forall. intros o Ho.
        by apply list_elem_of_filter in Ho as [Ho _].
      * intros H6. rewrite length_take. lia.
Qed.

(** *** Aborting runs *)

Lemma emits_premium_alerts (E : env) (top : list item) :
  emits sends_alerts_only (premium_alerts E top).
Proof.
  induction top as [|o rest IH]; cbn [premium_alerts]; [apply emits_ret|].
  apply emits_alert_send; [done..|]. emits_steps.
Qed.

Lemma emits_alerts_volume_alerts_loop (E : env) (alerts : list item) :
  emits sends_alerts_only (volume_alerts_loop E alerts).
Proof.
  induction alerts as [|o rest IH]; cbn [volume_alerts_loop]; [apply emits_ret|].
  apply emits_bind; [apply emits_dict_index|]. intros v.
  apply emits_bind; [|intros _; exact IH].
  destruct (300 <=? v); [|apply emits_ret].
  intros w. destruct (emits_alert_send E sends_alerts_only o "📊 VOLUME SPIKE" (ret tt)
                        eq_refl eq_refl (emits_ret _ _) w) as (evs & Ht & HP).
  exists evs. split; [|exact HP]. rewrite <- Ht.
  unfold bind. destruct (create_alert_embed E o _ w) as [[e|e] w1]; [|done].
  by destruct (send E (Embed e) w1) as [[[]|e'] w2].
Qed.

Lemma emits_alerts_whale_alerts_loop (E : env) (alerts : list item) :
  emits sends_alerts_only (whale_alerts_loop E alerts).
Proof.
  induction alerts as [|o rest IH]; cbn [whale_alerts_loop]; [apply emits_ret|].
  by apply emits_alert_send.
Qed.

Lemma sent_of_emits (evs : list event) (st : gmap string Z) :
  Forall (fun ev => sends_alerts_only ev = true) evs ->
  Forall (fun m => is_alert m = true) (sent (World evs st)).
Proof.
  unfold sent. cbn [trace]. induction 1 as [|ev evs Hev _ IH]; [constructor|].
  destruct ev; cbn; try exact IH. by constructor.
Qed.

(** Whatever happens, the four-hour job and the volume monitor put nothing
    but alert embeds on the channel: no run of theirs sends a notice. *)
Lemma four_hour_sends_alerts_only (E : env) (st : gmap string Z) :
  Forall (fun m => is_alert m = true) (sent (four_hour_analysis E (start st)).2).
Proof.
  assert (Hem : emits sends_alerts_only (four_hour_analysis E)).
  { unfold four_hour_analysis, four_hour_try.
    pose proof (emits_premium_alerts E). emits_steps. }
  destruct (Hem (start st)) as (evs & Ht & HP).
  destruct (four_hour_analysis E (start st)).2 as [t s]. cbn in Ht. subst t.
  by apply sent_of_emits.
Qed.

Lemma volume_monitor_sends_alerts_only (E : env) (st : gmap string Z) :
  Forall (fun m => is_alert m = true) (sent (volume_spike_monitor E (start st)).2).
Proof.
  assert (Hem : emits sends_alerts_only (volume_spike_monitor E)).
  { unfold volume_spike_monitor, volume_try.
    pose proof (emits_alerts_volume_alerts_loop E).
    pose proof (emits_alerts_whale_alerts_loop E). emits_steps. }
  destruct (Hem (start st)) as (evs & Ht & HP).
  destruct (volume_spike_monitor E (start st)).2 as [t s]. cbn in Ht. subst t.
  by apply sent_of_emits.
Qed.

(** C2 (the code departs from it). The hourly job reports an abort to the
    channel, once; the four-hour job and the volume monitor abort without
    sending anything: on an empty fetch the four-hour job just returns, and
    the handlers of both only print. No run of these two jobs ever sends
    anything but alert embeds. *)
Theorem abort_notifications :
  sent (hourly_analysis env_no_data (start ∅)).2 = [data_unavailable_msg] /\
  sent (hourly_analysis env_brain_down (start ∅)).2 =
    [Text "❌ **Analysis Error** - john_analysis timed out"] /\
  four_hour_analysis env_no_data (start ∅) =
    (Val ReturnedEarly, World [EvPrint LogFourHourStart; EvFetch] ∅) /\
  four_hour_analysis env_brain_down (start ∅) =
    (Val (Handled brain_timeout),
     World [EvPrint LogFourHourStart; EvFetch; EvJohn "4H" true;
            EvPrint (LogFourHourError brain_timeout)] ∅) /\
  volume_spike_monitor env_detector_down (start ∅) =
    (Val (Handled detector_failure),
     World [EvDetectVolume; EvPrint (LogVolumeError detector_failure)] ∅) /\
  sent (four_hour_analysis env_no_data (start ∅)).2 = [] /\
  sent (four_hour_analysis env_brain_down (start ∅)).2 = [] /\
  sent (volume_spike_monitor env_detector_down (start ∅)).2 = [] /\
  (forall (E : env) (st : gmap string Z),
     Forall (fun m => is_alert m = true) (sent (four_hour_analysis E (start st)).2)) /\
  (forall (E : env) (st : gmap string Z),
     Forall (fun m => is_alert m = true) (sent (volume_spike_monitor E (start st)).2)).
Proof.
  repeat split;
    first [ apply four_hour_sends_alerts_only
          | apply volume_monitor_sends_alerts_only
          | vm_compute; reflexivity ].
Qed.

(** The handlers of the four-hour job and of the volume monitor only print,
    so no error of class [Exception] leaves these two job bodies. *)
Lemma four_hour_analysis_returns (E : env) (w : world) :
  exists r, (four_hour_analysis E w).1 = Val r.
Proof.
  unfold four_hour_analysis, try_except.
  destruct (four_hour_try E w) as [[r|e] w1]; cbn; eauto.
Qed.

Lemma volume_spike_monitor_returns (E : env) (w : world) :
  exists r, (volume_spike_monitor E w).1 = Val r.
Proof.
  unfold volume_spike_monitor, try_except.
  destruct (volume_try E w) as [[r|e] w1]; cbn; eauto.
Qed.

(** C4 (the code departs from it). An error raised while the hourly handler
    reports an error leaves the job body: when the channel refuses the
    messages, the failure of the error report escapes; when the channel
    lookup raises, the handler reads the unbound local [channel]. *)
Theorem hourly_error_escapes :
  hourly_analysis env_channel_refuses (start ∅) =
    (Exc forbidden,
     World [EvPrint LogHourlyStart; EvFetch; EvSendFailed data_unavailable_msg;
            EvPrint (LogHourlyError forbidden);
            EvSendFailed (Text ("❌ **Analysis Error** - " +:+ exn_str forbidden))] ∅) /\
  hourly_analysis env_lookup_raises (start ∅) =
    (Exc (UnboundLocalError "channel"),
     World [EvPrint (LogHourlyError lookup_failure)] ∅).
Proof. split; vm_compute; reflexivity. Qed.

(** *** The ranker *)

Module RankerFacts.
Import Ranker.

Global Instance ranked_before_trans : Transitive ranked_before.
Proof.
  intros a b c [Hab|[Hab Sab]] [Hbc|[Hbc Sbc]]; unfold ranked_before.
  - left. lia.
  - left. lia.
  - left. lia.
  - right. split; [lia|]. by etrans.
Qed.

Global Instance ranked_before_total : Total ranked_before.
Proof.
  intros a b. unfold ranked_before.
  destruct (Z.lt_trichotomy (opp_score a) (opp_score b)) as [?|[?|?]]; [auto..| |auto].
  destruct (total String.le (opp_symbol a) (opp_symbol b)); [left|right]; right; auto.
Qed.

Lemma StronglySorted_lookup {A : Type} (R : relation A) (l : list A) :
  StronglySorted R l ->
  forall i j a b, l !! i = Some a -> l !! j = Some b -> (i < j)%nat -> R a b.
Proof.
  induction 1 as [|x l Hl IH Hx]; intros i j a b Hi Hj Hij; [done|].
  destruct j as [|j]; [lia|]. cbn in Hj.
  destruct i as [|i]; cbn in Hi.
  - injection Hi as ->. rewrite list.Forall_forall in Hx.
    apply Hx. by eapply list_elem_of_lookup_2.
  - apply (IH i j); [done..|lia].
Qed.

Lemma candidate_symbol combine john alpha s o :
  candidate combine john alpha s = Some o -> opp_symbol o = s.
Proof.
  unfold candidate. cbv zeta.
  destruct (dict_get s john ≫= score_of), (dict_get s alpha ≫= score_of);
    intros [= <-]; done.
Qed.

Lemma rank_elem_of combine john alpha min_score o :
  o ∈ rank combine john alpha min_score <->
  opp_symbol o ∈ symbols john alpha /\
  candidate combine john alpha (opp_symbol o) = Some o /\
  min_score <= opp_score o.
Proof.
  unfold rank. rewrite merge_sort_Permutation, list_elem_of_filter, list_elem_of_omap.
  split.
  - intros [Hmin (s & Hs & Hc)].
    pose proof (candidate_symbol _ _ _ _ _ Hc) as <-. done.
  - intros (Hs & Hc & Hmin). eauto.
Qed.

Lemma rank_symbols_NoDup combine john alpha min_score :
  NoDup (map opp_symbol (rank combine john alpha min_score)).
Proof.
  unfold rank. rewrite merge_sort_Permutation.
  assert (Hnd : NoDup (symbols john alpha)) by apply NoDup_remove_dups.
  induction Hnd as [|s l Hs Hnd IH]; cbn; [constructor|].
  destruct (candidate combine john alpha s) as [o|] eqn:Hc; [|exact IH].
  rewrite filter_cons. destruct (decide _); [|exact IH].
  cbn. constructor; [|exact IH].
  rewrite (candidate_symbol _ _ _ _ _ Hc).
  intros Hin. apply Hs.
  apply list_elem_of_In, in_map_iff in Hin as (o' & Ho' & Hin).
  apply list_elem_of_In, list_elem_of_filter in Hin as [_ Hin].
  apply list_elem_of_omap in Hin as (s' & Hs' & Hc').
  apply candidate_symbol in Hc'. congruence.
Qed.

(** C6. For all result maps and every threshold, the ranker returns only
    opportunities whose combined score reaches the threshold, ordered by
    score descending with equal scores by symbol ascending; each returned
    opportunity is the combined entry of a symbol of the inputs, and no
    symbol is returned twice. *)
Theorem rank_filtered_sorted (combine : Z -> Z -> Z) (john alpha : analysis)
    (min_score : Z) :
  let out := rank combine john alpha min_score in
  Forall (fun o => min_score <= opp_score o) out /\
  StronglySorted ranked_before out /\
  (forall i j a b, out !! i = Some a -> out !! j = Some b -> (i < j)%nat ->
     opp_score b < opp_score a \/
     (opp_score b = opp_score a /\ String.le (opp_symbol a) (opp_symbol b) /\
      opp_symbol a <> opp_symbol b)) /\
  (forall o, o ∈ out <->
     opp_symbol o ∈ symbols john alpha /\
     candidate combine john alpha (opp_symbol o) = Some o /\
     min_score <= opp_score o) /\
  NoDup (map opp_symbol out).
Proof.
  cbv zeta.
  assert (Hsorted : StronglySorted ranked_before (rank combine john alpha min_score)).
  { unfold rank. apply StronglySorted_merge_sort; apply _. }
  pose proof (rank_symbols_NoDup combine john alpha min_score) as Hnd.
  split; [|split; [exact Hsorted|split; [|split; [|exact Hnd]]]].
  - apply list.Forall_forall. intros o Ho. by apply rank_elem_of in Ho as (_ & _ & ?).
  - intros i j a b Hi Hj Hij.
    assert (Hab : ranked_before a b).
    { apply (StronglySorted_lookup _ _ Hsorted i j a b Hi Hj Hij). }
    assert (Hne : opp_symbol a <> opp_symbol b).
    { intros Heq. change (map opp_symbol ?l) with (opp_symbol <$> l) in Hnd.
      apply (NoDup_lookup _ i j (opp_symbol a)) in Hnd; [lia|..].
      - by rewrite list_lookup_fmap, Hi.
      - by rewrite list_lookup_fmap, Hj, Heq. }
    destruct Hab as [?|[? ?]]; auto.
  - intros o. apply rank_elem_of.
Qed.

End RankerFacts.

(** *** The theorems at concrete inputs *)

Lemma hourly_btc_report_alerts_summary_witness :
  exists (btc_data : record) (alerts : list item) (w' : world),
    hourly_analysis demo_env (start ∅) = (Val Completed, w') /\
    dict_get "BTC" demo_md = Some btc_data /\
    sent w' =
      Embed (AnalysisEmbed [("BTC", btc_data)]
               [("BTC", dict_get_default "BTC" demo_john [])]
               [("BTC", dict_get_default "BTC" demo_alpha [])]
               "1H Bitcoin Report" (Some "BTC"))
      :: map (fun o => Embed (AlertEmbed o "🚀 HIGH POTENTIAL")) alerts
      ++ [Embed (AnalysisEmbed demo_md demo_john demo_alpha "1H Market Overview" None)] /\
    alerts = take 5 (filter is_altcoin demo_ranked) /\
    (length alerts <= 5)%nat /\
    Forall (fun o => item_symbol o <> Some "BTC") alerts /\
    ((6 <= length (filter is_altcoin demo_ranked))%nat -> length alerts = 5%nat).
Proof.
  apply (proj2 (hourly_btc_report_alerts_summary demo_env ∅)
           demo_md demo_john demo_alpha demo_ranked);
    [ split; reflexivity | reflexivity | reflexivity | reflexivity | reflexivity
    | left; eexists; split; [reflexivity | discriminate]
    | reflexivity ].
Defined.

Lemma last_success_time_invariant_witness :
  StronglySorted time_le
    (map (fun s : gmap string Z => s !! "hourly") (∅ :: map snd (history ∅ demo_runs))).
Proof.
  apply (proj2 (proj2 (proj2 (last_success_time_invariant demo_runs "hourly")))).
  repeat constructor; vm_compute; discriminate.
Defined.

Lemma hourly_empty_fetch_witness :
  hourly_analysis env_no_data (start ∅) =
    (Val ReturnedEarly,
     World [EvPrint LogHourlyStart; EvFetch; EvSend data_unavailable_msg] ∅) /\
  data_unavailable_outcome ∅ (hourly_analysis env_no_data (start ∅)).2.
Proof.
  apply (proj1 (proj2 (hourly_empty_fetch env_no_data ∅
                         ltac:(vm_compute; right; left; reflexivity) eq_refl)));
    reflexivity.
Defined.

Lemma four_hour_premium_dispatch_witness :
  exists (md : snapshot) (jr ar : analysis) (ranked : list item),
    get_comprehensive_market_data demo_env = Val md /\
    john_analysis demo_env md "4H" true = Val jr /\
    alpha_analysis demo_env md "4H" true = Val ar /\
    rank_opportunities demo_env jr ar 85 = Val ranked /\
    rank_calls (four_hour_analysis demo_env (start ∅)).2 = [85] /\
    sent (four_hour_analysis demo_env (start ∅)).2 =
      map (fun o => Embed (AlertEmbed o "⚡ PREMIUM SIGNAL")) (take 3 ranked) /\
    (length (sent (four_hour_analysis demo_env (start ∅)).2) <= 3)%nat /\
    sleeps (four_hour_analysis demo_env (start ∅)).2 =
      replicate (length (sent (four_hour_analysis demo_env (start ∅)).2)) 3 /\
    (forall (Eh : env) (sth : gmap string Z),
       Forall (fun dh => Forall (fun d4 => dh < d4)
                           (sleeps (four_hour_analysis demo_env (start ∅)).2))
         (sleeps (hourly_analysis Eh (start sth)).2)).
Proof.
  apply (four_hour_premium_dispatch demo_env ∅). vm_compute. reflexivity.
Defined.

Lemma top_gainers_top_ten_witness :
  top_gainers (with_market_data (Val fifteen_coins) demo_env) "24h" (start ∅) =
  (Val Completed,
   World [EvSend (top_progress_msg "24h"); EvFetch; EvSend (top_reply "24h" fifteen_coins)] ∅).
Proof.
  apply (proj1 (proj2 (proj2 (top_gainers_top_ten
                                (with_market_data (Val fifteen_coins) demo_env) ∅ "24h")
                         fifteen_coins eq_refl eq_refl)));
    reflexivity.
Defined.

Lemma volume_monitor_dispatch_witness :
  exists w' : world,
    volume_spike_monitor demo_env (start ∅) = (Val Completed, w') /\
    sent w' =
      map (fun a => Embed (AlertEmbed a "📊 VOLUME SPIKE"))
        (filter is_spike [Item (Some "DOGE") [("volume_increase", 300)];
                          Item (Some "SHIB") [("volume_increase", 299)]])
      ++ map (fun a => Embed (AlertEmbed a "🐋 WHALE MOVEMENT"))
           [Item (Some "BTC") [("amount", 1000)]] /\
    volume_dispatch_expected
      [Item (Some "DOGE") [("volume_increase", 300)];
       Item (Some "SHIB") [("volume_increase", 299)]]
      [Item (Some "BTC") [("amount", 1000)]] w'.
Proof.
  apply (proj2 (proj2 (volume_monitor_dispatch demo_env ∅))).
  - split; reflexivity.
  - reflexivity.
  - reflexivity.
  - repeat constructor; eexists; reflexivity.
Defined.

Lemma manual_coin_not_found_witness :
  manual_analysis demo_env str_upper (Some "doge") (start ∅) =
    (Val Completed,
     World [EvSend analyzing_msg; EvFetch; EvSend (coin_not_found_msg str_upper "doge")] ∅) /\
  coin_not_found_outcome str_upper "doge" ∅
    (manual_analysis demo_env str_upper (Some "doge") (start ∅)).2.
Proof.
  apply (proj1 (proj2 (manual_coin_not_found demo_env str_upper ∅ "doge" demo_md
                         eq_refl eq_refl ltac:(discriminate) eq_refl)));
    reflexivity.
Defined.

Lemma rank_filtered_sorted_witness :
  Forall (fun o => 75 <= Ranker.opp_score o) (Ranker.rank Z.max demo_john demo_alpha 75).
Proof. apply (RankerFacts.rank_filtered_sorted Z.max demo_john demo_alpha 75). Defined.

(** The sorted top ten of the fifteen coins, and the ranking of the demo
    analyses. *)
Example top_ten_of_fifteen :
  map fst (top_sorted_coins "24h" fifteen_coins) =
  ["XRP"; "ZEC"; "BCH"; "ADA"; "TRX"; "ETH"; "XMR"; "UNI"; "BTC"; "XLM"].
Proof. reflexivity. Qed.

Example rank_demo :
  map (fun o => (Ranker.opp_symbol o, Ranker.opp_score o))
    (Ranker.rank Z.max [("BTC", [("score", 90)]); ("ETH", [("score", 80)]);
                        ("ADA", [("score", 80)]); ("LOW", [("score", 10)])]
       [("ETH", [("score", 95)]); ("SOL", [("score", 80)])] 75) =
  [("ETH", 95); ("BTC", 90); ("ADA", 80); ("SOL", 80)].
Proof. vm_compute. reflexivity. Qed.

Example history_demo :
  map (fun h => (h.1.2, h.2 !! "hourly", h.2 !! "four_hour")) (history ∅ demo_runs) =
  [(Val Completed, Some 1000, None);
   (Val Completed, Some 1000, Some 1300);
   (Val ReturnedEarly, Some 1000, Some 1300);
   (Val Completed, Some 1000, Some 1300)].
Proof. vm_compute. reflexivity. Qed.

(** * Further properties of the job bodies and commands *)

(** ** Runs that stop early *)

Lemma bind_call_exc {A B : Type} (ev : event) (r : res A) (e : exn) (k : A -> M B)
    (w : world) :
  r = Exc e -> bind (call ev r) k w = (Exc e, after w [ev]).
Proof. intros ->. reflexivity. Qed.

(** When the channel lookup finds no channel, a job does nothing at all:
    no fetch, no detector call, no message, no state change. Only the hourly
    job prints a line. *)
Theorem jobs_without_channel (E : env) (st : gmap string Z) :
  bot_get_channel E = Val false ->
  hourly_analysis E (start st) = (Val ReturnedEarly, World [EvPrint LogNoChannel] st) /\
  four_hour_analysis E (start st) = (Val ReturnedEarly, World [] st) /\
  volume_spike_monitor E (start st) = (Val ReturnedEarly, World [] st).
Proof.
  intros Hc. repeat split.
  - unfold hourly_analysis, lift. by rewrite Hc.
  - unfold four_hour_analysis, try_except, four_hour_try.
    by rewrite (bind_lift_val _ _ _ _ Hc).
  - unfold volume_spike_monitor, try_except, volume_try.
    by rewrite (bind_lift_val _ _ _ _ Hc).
Qed.

(** On an empty snapshot the four-hour job returns right after the fetch:
    it calls no brain, sends nothing and records nothing. *)
Theorem four_hour_empty_fetch (E : env) (st : gmap string Z) :
  bot_get_channel E = Val true ->
  get_comprehensive_market_data E = Val [] ->
  four_hour_analysis E (start st) =
  (Val ReturnedEarly, World [EvPrint LogFourHourStart; EvFetch] st).
Proof.
  intros Hc Hmd. unfold four_hour_analysis, try_except, four_hour_try.
  rewrite (bind_lift_val _ _ _ _ Hc). cbn [negb]. unfold print.
  by rewrite bind_emit_w, (bind_call_val _ _ _ _ _ Hmd).
Qed.

(** ** The hourly job without a Bitcoin report, and with a failing brain *)

(** When BTC is not in the snapshot, or neither brain has a non-empty record
    for it, the hourly job sends no Bitcoin report: its messages are the
    altcoin alerts and the overview, and it sleeps once per alert. *)
Theorem hourly_without_btc_report (E : env) (st : gmap string Z)
    (md : snapshot) (jr ar : analysis) (ranked : list item) :
  reliable E ->
  get_comprehensive_market_data E = Val md ->
  dict_truthy md = true ->
  john_analysis E md "1H" false = Val jr ->
  alpha_analysis E md "1H" false = Val ar ->
  rank_opportunities E jr ar 75 = Val ranked ->
  dict_contains "BTC" md = false \/
    (dict_get_default "BTC" jr [] = [] /\ dict_get_default "BTC" ar [] = []) ->
  exists w' : world,
    hourly_analysis E (start st) = (Val Completed, w') /\
    sent w' =
      map (fun o => Embed (AlertEmbed o "🚀 HIGH POTENTIAL"))
        (take 5 (filter is_altcoin ranked))
      ++ [Embed (AnalysisEmbed md jr ar "1H Market Overview" None)] /\
    sleeps w' = replicate (length (take 5 (filter is_altcoin ranked))) 2 /\
    last_analysis_time w' = <["hourly" := now E]> st.
Proof.
  intros HE Hmd Hne Hj Ha Hrank Hno.
  eexists. split; [by apply (hourly_reliable_run E st md jr ar ranked)|].
  assert (Hb : btc_report_events md jr ar = []).
  { unfold btc_report_events, dict_contains in *.
    destruct Hno as [Hno|[-> ->]]; destruct (dict_get "BTC" md); done. }
  rewrite Hb. cbn [app]. split; [|split; [|done]].
  - rewrite !sent_cons. cbn [app]. rewrite sent_app, sent_alert_events.
    by rewrite sent_cons.
  - change (?a :: ?b :: ?c :: ?d :: ?e :: ?l) with ([a; b; c; d; e] ++ l).
    rewrite sleeps_app, sleeps_app, sleeps_alert_events. cbn.
    by rewrite app_nil_r.
Qed.

(** When the first brain raises, the hourly job calls neither the second
    brain nor the ranker, reports the error to the channel once and records
    nothing. *)
Theorem hourly_brain_failure (E : env) (st : gmap string Z) (md : snapshot) (e : exn) :
  bot_get_channel E = Val true ->
  (forall h m, send_err E h m = None) ->
  get_comprehensive_market_data E = Val md ->
  dict_truthy md = true ->
  john_analysis E md "1H" false = Exc e ->
  hourly_analysis E (start st) =
  (Val (Handled e),
   World [EvPrint LogHourlyStart; EvFetch; EvJohn "1H" false;
          EvPrint (LogHourlyError e);
          EvSend (Text ("❌ **Analysis Error** - " +:+ exn_str e))] st).
Proof.
  intros Hc Hsend Hmd Hne Hj. unfold hourly_analysis, lift. rewrite Hc.
  unfold try_except, hourly_try. cbn [negb]. unfold print.
  rewrite bind_emit_w, (bind_call_val _ _ _ _ _ Hmd), Hne. cbn [negb].
  rewrite (bind_call_exc _ _ _ _ _ Hj).
  unfold hourly_except, print. rewrite bind_emit_w.
  unfold bind, send. rewrite Hsend. reflexivity.
Qed.


(** ** Bounds on the alerts of a run, whatever fails *)

(** However an hourly run ends, it has sent at most five alert embeds, all
    tagged high potential and none for BTC. *)
Theorem hourly_alert_bound (E : env) (st : gmap string Z) :
  (length (alerts_sent (hourly_analysis E (start st)).2) <= 5)%nat /\
  Forall (fun p => p.2 = "🚀 HIGH POTENTIAL" /\ item_symbol p.1 <> Some "BTC")
    (alerts_sent (hourly_analysis E (start st)).2).
Proof.
  destruct (dispatches_hourly_analysis E (start st)) as (evs & Ht & Hn & HQ).
  unfold alerts_sent.
  rewrite Ht. cbn [start trace app]. done.
Qed.

Lemma dispatches_premium_alerts (E : env) (top : list item) :
  dispatches (length top) premium_signal (premium_alerts E top).
Proof.
  induction top as [|o rest IH]; cbn [premium_alerts length].
  - apply dispatches_quiet, emits_ret.
  - apply dispatches_alert_send; [done|].
    apply dispatches_after_quiet; [quiet_steps|]. by intros _.
Qed.

(** However a four-hour run ends, it has sent at most three alert embeds,
    all tagged premium. *)
Theorem four_hour_alert_bound (E : env) (st : gmap string Z) :
  (length (alerts_sent (four_hour_analysis E (start st)).2) <= 3)%nat /\
  Forall (fun p => p.2 = "⚡ PREMIUM SIGNAL") (alerts_sent (four_hour_analysis E (start st)).2).
Proof.
  assert (Hd : dispatches 3 premium_signal (four_hour_analysis E)).
  { unfold four_hour_analysis. apply dispatches_try_except; [|intros e; quiet_steps].
    unfold four_hour_try.
    assert (Hloop : forall ranked,
              dispatches 3 premium_signal (premium_alerts E (take 3 ranked))).
    { intros ranked. eapply dispatches_weaken; [|apply dispatches_premium_alerts].
      rewrite length_take. lia. }
    dispatches_steps. }
  destruct (Hd (start st)) as (evs & Ht & Hn & HQ). unfold alerts_sent.
  rewrite Ht. cbn [start trace app]. done.
Qed.

Lemma dispatches_opportunity_alerts (E : env) (top : list item) (i : nat) :
  dispatches (length top) (numbered_opportunity i (i + length top))
    (opportunity_alerts E top i).
Proof.
  revert i. induction top as [|o rest IH]; intros i; cbn [opportunity_alerts length].
  - apply dispatches_quiet, emits_ret.
  - apply dispatches_alert_send; [exists i; split; [lia|done]|].
    apply dispatches_after_quiet; [quiet_steps|]. intros _.
    eapply dispatches_mono; [|apply IH].
    intros o' t (n & Hn & ->). exists n. split; [lia|done].
Qed.

(** However a run of the [analisis] command ends, it has sent at most three
    alert embeds, numbered from 1 to 3. *)
Theorem manual_alert_bound (E : env) (upper : string -> string) (coin : option string)
    (st : gmap string Z) :
  (length (alerts_sent (manual_analysis E upper coin (start st)).2) <= 3)%nat /\
  Forall (fun p => exists n, (1 <= n <= 3)%nat /\ p.2 = "🎯 OPPORTUNITY #" +:+ pretty n)
    (alerts_sent (manual_analysis E upper coin (start st)).2).
Proof.
  assert (Hd : dispatches 3 (numbered_opportunity 1 4) (manual_analysis E upper coin)).
  { unfold manual_analysis. apply dispatches_try_except; [|intros e; quiet_steps].
    unfold manual_try.
    assert (Hloop : forall ranked,
              dispatches 3 (numbered_opportunity 1 4)
                (opportunity_alerts E (take 3 ranked) 1)).
    { intros ranked.
      eapply dispatches_weaken;
        [|eapply dispatches_mono; [|apply dispatches_opportunity_alerts]].
      - rewrite length_take. lia.
      - intros o t (n & Hn & ->). exists n. split; [|done].
        rewrite length_take in Hn. lia. }
    assert (Hmarket : forall md, dispatches 3 (numbered_opportunity 1 4) (manual_market E md))
      by (intros md; unfold manual_market; dispatches_steps).
    assert (Hcoin : forall c md, dispatches 3 (numbered_opportunity 1 4) (manual_coin E upper c md))
      by (intros c md; apply dispatches_quiet; unfold manual_coin; quiet_steps).
    apply dispatches_after_quiet; [quiet_steps|]. intros _.
    apply dispatches_after_quiet; [quiet_steps|]. intros md.
    apply dispatches_if; [apply dispatches_quiet; quiet_steps|].
    destruct coin as [c|]; [destruct (str_truthy c)|]; auto. }
  destruct (Hd (start st)) as (evs & Ht & Hn & HQ). unfold alerts_sent.
  rewrite Ht. cbn [start trace app]. split; [done|].
  eapply Forall_impl; [exact HQ|]. intros [o t] (n & Hn' & ->). exists n. split; [lia|done].
Qed.

(** ** The volume monitor when an alert is malformed or a detector fails *)



(** When the volume detector raises, the whale detector is not called, so
    the whale alerts of that tick are lost; when the whale detector raises,
    the volume spikes were already dispatched. *)
Theorem volume_monitor_detector_failure (E : env) (st : gmap string Z) (e : exn) :
  bot_get_channel E = Val true ->
  (detect_volume_spikes E = Exc e ->
   volume_spike_monitor E (start st) =
   (Val (Handled e), World [EvDetectVolume; EvPrint (LogVolumeError e)] st)) /\
  (forall volume_alerts : list item,
     reliable E ->
     detect_volume_spikes E = Val volume_alerts ->
     Forall (fun a => is_Some (dict_get "volume_increase" (item_fields a))) volume_alerts ->
     detect_whale_movements E = Exc e ->
     volume_spike_monitor E (start st) =
     (Val (Handled e),
      World (EvDetectVolume
             :: alert_events "📊 VOLUME SPIKE" None (filter is_spike volume_alerts)
             ++ [EvDetectWhale; EvPrint (LogVolumeError e)]) st)).
Proof.
  intros Hc. split.
  - intros Hva. unfold volume_spike_monitor, try_except, volume_try.
    rewrite (bind_lift_val _ _ _ _ Hc). cbn [negb].
    by rewrite (bind_call_exc _ _ _ _ _ Hva).
  - intros va HE Hva Hall Hwa. unfold volume_spike_monitor, try_except, volume_try.
    rewrite (bind_lift_val _ _ _ _ Hc). cbn [negb].
    rewrite (bind_call_val _ _ _ _ _ Hva).
    unfold bind at 1. rewrite (volume_alerts_loop_reliable E HE _ _ Hall).
    rewrite (bind_call_exc _ _ _ _ _ Hwa).
    unfold print. rewrite bind_emit_w. norm_world. rewrite <- ?app_assoc. reflexivity.
Qed.

(** ** The [analisis] command *)

Section SendsSucceed.

Variable E : env.
Hypothesis Hsend : forall h m, send_err E h m = None.

Lemma send_ok (m : message) (w : world) : send E m w = (Val tt, after w [EvSend m]).
Proof. unfold send. by rewrite Hsend. Qed.

Lemma bind_send_ok {B : Type} (m : message) (k : unit -> M B) (w : world) :
  bind (send E m) k w = k tt (after w [EvSend m]).
Proof. unfold bind. by rewrite send_ok. Qed.

End SendsSucceed.

(** For a tracked coin the command calls the single-coin analysis on the
    upper-cased symbol and replies with one analysis embed; neither brain
    nor the ranker is called. *)
Theorem manual_coin_found (E : env) (upper : string -> string) (st : gmap string Z)
    (coin : string) (md : snapshot) (coin_data : record) (result : analysis) :
  (forall h m, send_err E h m = None) ->
  (forall m j a t c, create_analysis_embed_err E m j a t c = None) ->
  get_comprehensive_market_data E = Val md ->
  coin <> "" ->
  dict_get (upper coin) md = Some coin_data ->
  deep_coin_analysis E (upper coin) coin_data = Val result ->
  manual_analysis E upper (Some coin) (start st) =
  (Val Completed,
   World [EvSend analyzing_msg; EvFetch; EvDeepCoin (upper coin);
          EvSend (Embed (AnalysisEmbed [(upper coin, coin_data)] result []
                           "Manual" (Some (upper coin))))] st).
Proof.
  intros Hsend Hembed Hmd Hcoin Hget Hdeep.
  assert (Hne : dict_truthy md = true) by (destruct md; [done|done]).
  unfold manual_analysis, try_except, manual_try.
  rewrite (bind_send_ok E Hsend), (bind_call_val _ _ _ _ _ Hmd), Hne. cbn [negb].
  rewrite (str_truthy_ne _ Hcoin). unfold manual_coin, dict_contains, dict_index.
  cbv zeta. rewrite Hget, bind_ret_w, (bind_call_val _ _ _ _ _ Hdeep).
  unfold create_analysis_embed. rewrite Hembed, bind_ret_w, (bind_send_ok E Hsend).
  norm_world. reflexivity.
Qed.

(** The command does not distinguish a coin argument from its upper-cased
    form: when upper-casing the upper-cased argument changes nothing, and
    the upper-cased argument is empty exactly when the argument is, both
    runs are the same, event for event. *)
Theorem manual_case_insensitive (E : env) (upper : string -> string) (coin : string)
    (w : world) :
  upper (upper coin) = upper coin ->
  str_truthy (upper coin) = str_truthy coin ->
  manual_analysis E upper (Some coin) w = manual_analysis E upper (Some (upper coin)) w.
Proof.
  intros Hidemp Htruthy. unfold manual_analysis, try_except, manual_try, bind.
  destruct (send E _ w) as [[u|e] w1]; [|done].
  destruct (call EvFetch _ w1) as [[md|e] w2]; [|done].
  destruct (negb (dict_truthy md)); [done|].
  rewrite Htruthy. unfold manual_coin. by rewrite Hidemp.
Qed.






(** ** How the commands fail *)

Section Returns.

Context {A : Type} (P : A -> Prop).

Lemma returns_ret (a : A) : P a -> returns P (ret a).
Proof. intros Ha w a' w' [= <- _]. exact Ha. Qed.

Lemma returns_bind {B : Type} (c : M B) (k : B -> M A) :
  (forall b, returns P (k b)) -> returns P (bind c k).
Proof.
  intros Hk w a w' H. apply bind_inv in H as (b & w1 & _ & H). by apply (Hk b w1 a w').
Qed.

Lemma returns_if (b : bool) (c1 c2 : M A) :
  returns P c1 -> returns P c2 -> returns P (if b then c1 else c2).
Proof. by destruct b. Qed.

End Returns.

Ltac returns_steps :=
  cbv zeta;
  repeat first
    [ apply returns_ret; solve [auto]
    | apply returns_if
    | apply returns_bind; intros ? ].

Lemma manual_try_not_handled (E : env) (upper : string -> string) (coin : option string) :
  returns not_handled (manual_try E upper coin).
Proof.
  assert (H1 : not_handled Completed) by done.
  assert (H2 : not_handled ReturnedEarly) by done.
  unfold manual_try. returns_steps.
  destruct coin as [c|]; [destruct (str_truthy c)|];
    unfold manual_coin, manual_market; returns_steps.
Qed.

Lemma top_try_not_handled (E : env) (timeframe : string) :
  returns not_handled (top_try E timeframe).
Proof.
  assert (H1 : not_handled Completed) by done.
  assert (H2 : not_handled ReturnedEarly) by done.
  unfold top_try. returns_steps.
Qed.

Lemma sent_after_send (w : world) (m : message) :
  last (sent (after w [EvSend m])) = Some m.
Proof. unfold sent, after. cbn [trace]. rewrite omap_app. cbn. by rewrite last_snoc. Qed.

(** While the replies are delivered, every error of class [Exception]
    raised inside the [try] block of a command is caught by its handler:
    the run ends there, the failure message carrying the text of the error
    is its last reply, and no such error leaves the command. *)
Theorem commands_report_failures (E : env) (upper : string -> string)
    (coin : option string) (timeframe : string) (w : world) :
  (forall h m, send_err E h m = None) ->
  (forall e w1, manual_try E upper coin w = (Exc e, w1) ->
     manual_analysis E upper coin w =
       (Val (Handled e), after w1 [EvSend (analysis_failed_msg e)])) /\
  (forall e w1, top_try E timeframe w = (Exc e, w1) ->
     top_gainers E timeframe w = (Val (Handled e), after w1 [EvSend (top_error_msg e)])) /\
  (exists r w', manual_analysis E upper coin w = (Val r, w') /\
     forall e, r = Handled e ->
       last (sent w') = Some (Text ("❌ **Analysis failed** - " +:+ exn_str e))) /\
  (exists r w', top_gainers E timeframe w = (Val r, w') /\
     forall e, r = Handled e ->
       last (sent w') = Some (Text ("❌ **Error** - " +:+ exn_str e))).
Proof.
  intros Hsend. split; [|split; [|split]].
  - intros e w1 Hraise. unfold manual_analysis, try_except. rewrite Hraise.
    by rewrite (bind_send_ok E Hsend).
  - intros e w1 Hraise. unfold top_gainers, try_except. rewrite Hraise.
    by rewrite (bind_send_ok E Hsend).
  - unfold manual_analysis, try_except.
    pose proof (manual_try_not_handled E upper coin w) as Hnh.
    destruct (manual_try E upper coin w) as [[r|e] w1].
    + exists r, w1. split; [done|]. intros e ->. exfalso. exact (Hnh _ _ eq_refl e eq_refl).
    + rewrite (bind_send_ok E Hsend). eexists _, _. split; [reflexivity|].
      intros e' [= <-]. apply sent_after_send.
  - unfold top_gainers, try_except.
    pose proof (top_try_not_handled E timeframe w) as Hnh.
    destruct (top_try E timeframe w) as [[r|e] w1].
    + exists r, w1. split; [done|]. intros e ->. exfalso. exact (Hnh _ _ eq_refl e eq_refl).
    + rewrite (bind_send_ok E Hsend). eexists _, _. split; [reflexivity|].
      intros e' [= <-]. apply sent_after_send.
Qed.

(** The handlers of the four-hour job and of the volume monitor only
    print. An error of class [Exception] raised in a run of these jobs ends
    the run in the handler: the line printed for the error is the last
    event, and the job state is as it was before the run. No such error
    leaves the job. *)
Theorem quiet_jobs_contain_errors (E : env) (w : world) :
  (exists r w', four_hour_analysis E w = (Val r, w') /\
     forall e, r = Handled e ->
       (exists w1, four_hour_try E w = (Exc e, w1) /\
                   w' = after w1 [EvPrint (LogFourHourError e)]) /\
       last_analysis_time w' = last_analysis_time w) /\
  (exists r w', volume_spike_monitor E w = (Val r, w') /\
     forall e, r = Handled e ->
       (exists w1, volume_try E w = (Exc e, w1) /\
                   w' = after w1 [EvPrint (LogVolumeError e)]) /\
       last_analysis_time w' = last_analysis_time w).
Proof.
  assert (H1 : not_handled Completed) by done.
  assert (H2 : not_handled ReturnedEarly) by done.
  split.
  - assert (Hnh : returns not_handled (four_hour_try E))
      by (unfold four_hour_try; returns_steps).
    assert (Hu : updates "four_hour" (now E) (four_hour_try E))
      by (unfold four_hour_try; updates_steps).
    unfold four_hour_analysis, try_except.
    specialize (Hnh w). specialize (Hu w).
    destruct (four_hour_try E w) as [[r|e] w1].
    + exists r, w1. split; [done|]. intros e ->. exfalso. exact (Hnh _ _ eq_refl e eq_refl).
    + eexists _, _. split; [reflexivity|]. intros e' [= <-]. split; [eauto|exact Hu].
  - assert (Hnh : returns not_handled (volume_try E))
      by (unfold volume_try; returns_steps).
    assert (Hp : pure_state (volume_try E))
      by (unfold volume_try; auto 20 with pure_state).
    unfold volume_spike_monitor, try_except.
    specialize (Hnh w). specialize (Hp w).
    destruct (volume_try E w) as [[r|e] w1].
    + exists r, w1. split; [done|]. intros e ->. exfalso. exact (Hnh _ _ eq_refl e eq_refl).
    + eexists _, _. split; [reflexivity|]. intros e' [= <-]. split; [eauto|exact Hp].
Qed.

(** When the channel rejects every message, a command fetches nothing: the
    progress notice fails, the failure report fails too, and that error
    leaves the command. *)
Theorem commands_raise_when_channel_down (E : env) (upper : string -> string) (e : exn)
    (coin : option string) (timeframe : string) (st : gmap string Z) :
  (forall h m, send_err E h m = Some e) ->
  manual_analysis E upper coin (start st) =
    (Exc e,
     World [EvSendFailed analyzing_msg;
            EvSendFailed (Text ("❌ **Analysis failed** - " +:+ exn_str e))] st) /\
  top_gainers E timeframe (start st) =
    (Exc e,
     World [EvSendFailed (Text ("📈 **Fetching top gainers for " +:+ timeframe +:+ "...**"));
            EvSendFailed (Text ("❌ **Error** - " +:+ exn_str e))] st).
Proof.
  intros Hsend.
  assert (Hs : forall m w, send E m w = (Exc e, after w [EvSendFailed m])).
  { intros m w. unfold send. by rewrite Hsend. }
  split.
  - unfold manual_analysis, try_except, manual_try.
    unfold bind at 1. rewrite Hs. unfold bind. by rewrite Hs.
  - unfold top_gainers, try_except, top_try.
    unfold bind at 1. rewrite Hs. unfold bind. by rewrite Hs.
Qed.

(** ** The job state and the runs *)

Lemma pure_state_opportunity_alerts (E : env) (top : list item) (i : nat) :
  pure_state (opportunity_alerts E top i).
Proof.
  revert i. induction top as [|o rest IH]; intros i; cbn [opportunity_alerts];
    auto 10 with pure_state.
Qed.

(** No run of a command changes [last_analysis_time], however it ends. *)
Theorem commands_keep_job_state (E : env) (upper : string -> string)
    (coin : option string) (timeframe : string) (w : world) :
  last_analysis_time (manual_analysis E upper coin w).2 = last_analysis_time w /\
  last_analysis_time (top_gainers E timeframe w).2 = last_analysis_time w.
Proof.
  pose proof (pure_state_opportunity_alerts E) as Hloop.
  split.
  - assert (Hp : pure_state (manual_analysis E upper coin)); [|apply Hp].
    unfold manual_analysis, manual_try.
    apply pure_state_try_except; [|auto 10 with pure_state].
    apply pure_state_bind; [auto with pure_state|]. intros _.
    apply pure_state_bind; [auto with pure_state|]. intros md.
    apply pure_state_if; [auto 10 with pure_state|].
    destruct coin as [c|]; [destruct (str_truthy c)|];
      unfold manual_coin, manual_market; cbv zeta; auto 20 with pure_state.
  - assert (Hp : pure_state (top_gainers E timeframe)); [|apply Hp].
    unfold top_gainers, top_try. cbv zeta. auto 20 with pure_state.
Qed.

Section Oblivious.

Variable E : env.

Lemma oblivious_ret {A : Type} (a : A) : oblivious (ret a).
Proof. by intros w1 w2 Ht. Qed.

Lemma oblivious_raise {A : Type} (e : exn) : oblivious (@raise A e).
Proof. by intros w1 w2 Ht. Qed.

Lemma oblivious_lift {A : Type} (r : res A) : oblivious (lift r).
Proof. by intros w1 w2 Ht. Qed.

Lemma oblivious_emit (ev : event) : oblivious (emit ev).
Proof. intros w1 w2 Ht. cbn. by rewrite Ht. Qed.

Lemma oblivious_set_last (key : string) (t : Z) : oblivious (set_last key t).
Proof. by intros w1 w2 Ht. Qed.

Lemma oblivious_bind {A B : Type} (c : M A) (k : A -> M B) :
  oblivious c -> (forall a, oblivious (k a)) -> oblivious (bind c k).
Proof.
  intros Hc Hk w1 w2 Ht. unfold bind. destruct (Hc w1 w2 Ht) as [Hr Ht'].
  destruct (c w1) as [[a1|e1] w1'], (c w2) as [[a2|e2] w2']; cbn in *;
    simplify_eq; [by apply Hk|done].
Qed.

Lemma oblivious_try_except {A : Type} (c : M A) (h : exn -> M A) :
  oblivious c -> (forall e, oblivious (h e)) -> oblivious (try_except c h).
Proof.
  intros Hc Hh w1 w2 Ht. unfold try_except. destruct (Hc w1 w2 Ht) as [Hr Ht'].
  destruct (c w1) as [[a1|e1] w1'], (c w2) as [[a2|e2] w2']; cbn in *;
    simplify_eq; [done|by apply Hh].
Qed.

Lemma oblivious_if {A : Type} (b : bool) (c1 c2 : M A) :
  oblivious c1 -> oblivious c2 -> oblivious (if b then c1 else c2).
Proof. by destruct b. Qed.

Lemma oblivious_call {A : Type} (ev : event) (r : res A) : oblivious (call ev r).
Proof. unfold call. apply oblivious_bind; [apply oblivious_emit|]. intros _. apply oblivious_lift. Qed.

Lemma oblivious_send (m : message) : oblivious (send E m).
Proof.
  intros w1 w2 Ht. unfold send. rewrite Ht.
  destruct (send_err E (trace w2) m); cbn; by rewrite Ht.
Qed.

Lemma oblivious_dict_index {V : Type} (k : string) (d : pydict V) :
  oblivious (dict_index k d).
Proof. unfold dict_index. destruct (dict_get k d); [apply oblivious_ret|apply oblivious_raise]. Qed.

Lemma oblivious_create_alert_embed (o : item) (tag : string) :
  oblivious (create_alert_embed E o tag).
Proof.
  unfold create_alert_embed.
  destruct (create_alert_embed_err E o tag); [apply oblivious_raise|apply oblivious_ret].
Qed.

Lemma oblivious_create_analysis_embed md j a t c :
  oblivious (create_analysis_embed E md j a t c).
Proof.
  unfold create_analysis_embed.
  destruct (create_analysis_embed_err E md j a t c);
    [apply oblivious_raise|apply oblivious_ret].
Qed.

End Oblivious.

Ltac oblivious_steps :=
  cbv zeta; unfold print, sleep;
  repeat first
    [ apply oblivious_ret | apply oblivious_raise | apply oblivious_lift
    | apply oblivious_emit | apply oblivious_set_last | apply oblivious_call
    | apply oblivious_send | apply oblivious_dict_index
    | apply oblivious_create_alert_embed | apply oblivious_create_analysis_embed
    | apply oblivious_if
    | apply oblivious_bind; [|intros ?]
    | apply oblivious_try_except; [|intros ?]
    | solve [auto] ].

Lemma oblivious_hourly_alerts (E : env) (ranked : list item) (count : nat) :
  oblivious (hourly_alerts E ranked count).
Proof.
  revert count. induction ranked as [|o rest IH]; intros count; cbn [hourly_alerts];
    oblivious_steps.
Qed.

Lemma oblivious_premium_alerts (E : env) (top : list item) :
  oblivious (premium_alerts E top).
Proof. induction top as [|o rest IH]; cbn [premium_alerts]; oblivious_steps. Qed.

Lemma oblivious_volume_alerts_loop (E : env) (alerts : list item) :
  oblivious (volume_alerts_loop E alerts).
Proof. induction alerts as [|o rest IH]; cbn [volume_alerts_loop]; oblivious_steps. Qed.

Lemma oblivious_whale_alerts_loop (E : env) (alerts : list item) :
  oblivious (whale_alerts_loop E alerts).
Proof. induction alerts as [|o rest IH]; cbn [whale_alerts_loop]; oblivious_steps. Qed.

Lemma oblivious_job_body (j : job) (E : env) : oblivious (job_body j E).
Proof.
  pose proof (oblivious_hourly_alerts E). pose proof (oblivious_premium_alerts E).
  pose proof (oblivious_volume_alerts_loop E). pose proof (oblivious_whale_alerts_loop E).
  destruct j; cbn [job_body].
  - intros w1 w2 Ht. unfold hourly_analysis, lift.
    destruct (bot_get_channel E) as [channel|e]; revert w1 w2 Ht;
      [change (oblivious (try_except (hourly_try E channel) (hourly_except E (Some channel))))
      |change (oblivious (hourly_except E None e))];
      unfold hourly_try, hourly_except; oblivious_steps.
  - unfold four_hour_analysis, four_hour_try. oblivious_steps.
  - unfold volume_spike_monitor, volume_try. oblivious_steps.
Qed.

(** No job reads [last_analysis_time]: from any two job states a tick ends
    the same way and produces the same events, so what other jobs recorded
    has no influence on a run. *)
Theorem jobs_ignore_job_state (j : job) (E : env) (st1 st2 : gmap string Z) :
  (job_body j E (start st1)).1 = (job_body j E (start st2)).1 /\
  trace (job_body j E (start st1)).2 = trace (job_body j E (start st2)).2.
Proof. by apply oblivious_job_body. Qed.

Lemma omap_recorded_cons (key : string) (r : job * env) (rest : list (job * env)) :
  omap (recorded key) (r :: rest) =
  match recorded key r with
  | Some t => t :: omap (recorded key) rest
  | None => omap (recorded key) rest
  end.
Proof. reflexivity. Qed.

Lemma run_completes_from (j : job) (E : env) (st : gmap string Z) :
  run_completes (j, E) =
  match (job_body j E (start st)).1 with Val Completed => true | _ => false end.
Proof.
  unfold run_completes. cbn [fst snd].
  destruct (oblivious_job_body j E (start st) (start gmap_empty) eq_refl) as [Hout _].
  by rewrite Hout.
Qed.

Lemma recorded_spec (key : string) (j : job) (E : env) (st : gmap string Z) :
  last_analysis_time (job_body j E (start st)).2 !! key =
  match recorded key (j, E) with Some t => Some t | None => st !! key end.
Proof.
  pose proof (job_body_state j E (start st)) as Hst.
  unfold recorded. rewrite (run_completes_from j E st). cbn [fst snd].
  destruct (job_body j E (start st)).1 as [[| |e]|e]; cbn [andb] in *;
    try (by rewrite Hst).
  destruct (job_key j) as [key'|]; [|by rewrite Hst].
  rewrite Hst. cbn [start last_analysis_time].
  case_bool_decide as Hk.
  - injection Hk as ->. by rewrite lookup_insert_eq.
  - rewrite lookup_insert_ne by congruence. done.
Qed.

Lemma final_state_latest (key : string) (runs : list (job * env)) :
  forall st : gmap string Z,
    final_state st runs !! key =
    match latest key runs with Some t => Some t | None => st !! key end.
Proof.
  unfold latest. induction runs as [|[j E] rest IH]; intros st; [done|].
  cbn [final_state fst snd]. rewrite IH, omap_recorded_cons, recorded_spec.
  destruct (recorded key (j, E)) as [t|]; [|done].
  rewrite last_cons. by destruct (last (omap (recorded key) rest)).
Qed.

(** After any schedule started with the empty dictionary, the entry of a
    key is the clock reading of the latest tick that completed and owns the
    key, and is absent when there is none; so only the keys "hourly" and
    "four_hour" ever appear. *)
Theorem last_analysis_time_is_latest_completion (runs : list (job * env)) (key : string) :
  final_state ∅ runs !! key = latest key runs /\
  (key <> "hourly" -> key <> "four_hour" -> final_state ∅ runs !! key = None).
Proof.
  assert (Hfin : final_state ∅ runs !! key = latest key runs).
  { rewrite final_state_latest. by destruct (latest key runs). }
  split; [exact Hfin|]. intros H1 H2. rewrite Hfin. unfold latest.
  assert (Hnil : omap (recorded key) runs = []); [|by rewrite Hnil].
  clear Hfin. induction runs as [|[j E] rest IH]; [done|].
  rewrite omap_recorded_cons, IH. unfold recorded. cbn [fst snd].
  rewrite (bool_decide_eq_false_2 (job_key j = Some key)), andb_false_r; [done|].
  destruct j; cbn; congruence.
Qed.

(** ** The [top] command: ties and unknown timeframes *)

Lemma sorted_reverse_of_sorted {A : Type} (key : A -> Z) (l : list A) :
  StronglySorted (key_ge key) l -> sorted_reverse key l = l.
Proof.
  induction 1 as [|x l Hl IH Hx]; [done|].
  cbn. change (foldr (insert_desc key) [] l) with (sorted_reverse key l). rewrite IH.
  destruct Hx as [|y l' Hy _]; [done|].
  cbn. unfold key_ge in Hy. by rewrite (proj2 (Z.leb_le _ _) Hy).
Qed.

Lemma filter_take_prefix {A : Type} (P : A -> Prop) `{!forall x, Decision (P x)}
    (n : nat) (l : list A) :
  filter P (take n l) `prefix_of` filter P l.
Proof.
  rewrite <- (take_drop n l) at 2. rewrite filter_app. by apply prefix_app_r.
Qed.

(** Coins with the same change are listed in the order of the snapshot:
    among the listed coins, those with a given change are the first ones of
    the snapshot with that change. *)
Theorem top_ties_keep_snapshot_order (timeframe : string) (md : snapshot) (change : Z) :
  let timeframe_key := "percent_change_" +:+ timeframe in
  filter (fun x => change_of timeframe_key x = change) (top_sorted_coins timeframe md)
  `prefix_of` filter (fun x => change_of timeframe_key x = change) md.
Proof.
  cbv zeta. unfold top_sorted_coins.
  pose proof (filter_take_prefix
                (fun x => change_of ("percent_change_" +:+ timeframe) x = change) 10
                (sorted_reverse (change_of ("percent_change_" +:+ timeframe)) md)) as Hp.
  rewrite (sorted_reverse_stable (change_of ("percent_change_" +:+ timeframe)) md change)
    in Hp.
  exact Hp.
Qed.

Lemma gainer_fields_change_zero (key : string) (coins : list (string * record)) (i : nat) :
  Forall (fun x => change_of key x = 0) coins ->
  Forall (fun f => gf_change f = 0) (gainer_fields key coins i).
Proof.
  intros H. revert i. induction H as [|[s d] l Hx _ IH]; intros i; cbn; constructor; auto.
Qed.

(** For a timeframe no record has a change for (a mistyped one, say), every
    change counts as 0 and the command lists the first ten coins of the
    snapshot as they come. *)
Theorem top_unknown_timeframe (timeframe : string) (md : snapshot) :
  Forall (fun x => dict_get ("percent_change_" +:+ timeframe) x.2 = None) md ->
  top_sorted_coins timeframe md = take 10 md /\
  Forall (fun f => gf_change f = 0)
    (gainer_fields ("percent_change_" +:+ timeframe) (top_sorted_coins timeframe md) 1).
Proof.
  intros Hno.
  assert (Hzero : Forall (fun x => change_of ("percent_change_" +:+ timeframe) x = 0) md).
  { eapply Forall_impl; [exact Hno|]. intros [s d] Hx. cbn [snd] in Hx.
    unfold change_of, dict_get_default. cbn [snd]. by rewrite Hx. }
  assert (Htop : top_sorted_coins timeframe md = take 10 md).
  { unfold top_sorted_coins. f_equal. apply sorted_reverse_of_sorted.
    clear Hno. induction Hzero as [|x l Hx Hl IH]; [apply SSorted_nil|].
    apply SSorted_cons; [exact IH|].
    eapply Forall_impl; [exact Hl|]. intros y Hy. unfold key_ge. cbn beta in Hy. lia. }
  split; [exact Htop|]. rewrite Htop.
  apply gainer_fields_change_zero. by apply Forall_take.
Qed.

(** ** The [alerts] command *)

Lemma str_in_spec (x : string) (l : list string) :
  str_in x l = bool_decide (x ∈ l).
Proof.
  unfold str_in. induction l as [|y l IH]; cbn [existsb]; [done|].
  rewrite IH. destruct (String.eqb_spec x y) as [->|Hne]; cbn [orb].
  - symmetry. apply bool_decide_eq_true_2. by left.
  - apply bool_decide_ext. rewrite elem_of_cons. split; [by right|by intros [?|?]].
Qed.

(** The command replies once. The reply is the confirmation, echoing the
    type, exactly when the type is one of volume, whale, technical, all
    (compared as is, so case matters); otherwise it is the usage line that
    lists the four. Nothing else happens: no collaborator is called and the
    job state is untouched. A failing send leaves the command. *)
Theorem toggle_alerts_reply (E : env) (alert_type : string) (st : gmap string Z) :
  let reply :=
    if bool_decide (alert_type ∈ valid_types)
    then Text ("✅ **Alert settings updated** - " +:+ alert_type +:+ " alerts configured")
    else Text "❌ **Invalid alert type** - Use: volume, whale, technical, all" in
  match send_err E [] reply with
  | None => toggle_alerts E alert_type (start st) = (Val tt, World [EvSend reply] st)
  | Some e => toggle_alerts E alert_type (start st) = (Exc e, World [EvSendFailed reply] st)
  end.
Proof.
  cbv zeta. unfold toggle_alerts. rewrite str_in_spec.
  change ("❌ **Invalid alert type** - Use: " +:+ str_join ", " valid_types)
    with "❌ **Invalid alert type** - Use: volume, whale, technical, all".
  destruct (bool_decide (alert_type ∈ valid_types)); cbn [negb];
    unfold send, start; cbn [trace];
    match goal with |- context [send_err E [] ?m] => destruct (send_err E [] m) end;
    reflexivity.
Qed.

(** ** The [on_ready] event *)

Lemma start_task_spec (j : job) (s : bot_state) (evs : list ready_event) :
  exists s',
    start_task j (s, evs) =
      (Val tt, (s', evs ++ if running s j then []
                           else [RdStart j; RdPrint (LineTaskStarted j)])) /\
    start_time s' = start_time s /\
    forall j', running s' j' = running s j' || bool_decide (j' = j).
Proof.
  unfold start_task, loop_start. cbn [fst snd].
  destruct (running s j) eqn:Hr; cbn [negb].
  - exists s. rewrite app_nil_r. repeat split. intros j'.
    case_bool_decide as Hj; [subst; by rewrite Hr|by rewrite orb_false_r].
  - eexists. repeat split. intros j'. cbn.
    case_decide as Hj; [by rewrite bool_decide_eq_true_2, orb_true_r|].
    by rewrite bool_decide_eq_false_2, orb_false_r.
Qed.

(** Whatever the state of the bot, [on_ready] starts exactly the loops that
    are not running, so it never asks a running loop to start again;
    afterwards the three loops are running and [start_time] holds the new
    clock reading, also when the channel lookup or the startup message then
    fails (the only errors that can leave it). *)
Theorem on_ready_starts_stopped_loops (channel : res bool) (startup_send : option exn)
    (t : Z) (s : bot_state) :
  exists (r : res unit) (s' : bot_state) (evs : list ready_event),
    on_ready channel startup_send t s = (r, (s', evs)) /\
    (forall j, running s' j = true) /\
    start_time s' = Some t /\
    (forall j, In (RdStart j) evs <-> running s j = false) /\
    (forall e, r = Exc e ->
       channel = Exc e \/ (channel = Val true /\ startup_send = Some e)) /\
    (In RdSendStartup evs <-> channel = Val true /\ startup_send = None).
Proof.
  unfold on_ready. cbv zeta.
  destruct (start_task_spec Hourly (BotState (Some t) (running s))
              [RdPrint LineConnected; RdPrint LineVersion; RdPrint LineStartedAt])
    as (s1 & -> & Ht1 & Hr1).
  destruct (start_task_spec FourHour s1
              ([RdPrint LineConnected; RdPrint LineVersion; RdPrint LineStartedAt]
               ++ (if running (BotState (Some t) (running s)) Hourly then []
                   else [RdStart Hourly; RdPrint (LineTaskStarted Hourly)])))
    as (s2 & -> & Ht2 & Hr2).
  match goal with |- context [start_task VolumeMonitor (s2, ?l)] =>
    destruct (start_task_spec VolumeMonitor s2 l) as (s3 & -> & Ht3 & Hr3) end.
  cbn [running start_time fst snd] in *.
  assert (Hall : forall j, running s3 j = true).
  { intros j. rewrite Hr3, Hr2, Hr1. destruct j; cbn; by rewrite ?orb_true_r. }
  assert (Hh : running s1 FourHour = running s FourHour)
    by (rewrite Hr1; cbn; by rewrite orb_false_r).
  assert (Hv : running s2 VolumeMonitor = running s VolumeMonitor)
    by (rewrite Hr2, Hr1; cbn; by rewrite !orb_false_r).
  rewrite Hh, Hv.
  assert (Hstart : forall extra, (forall j, ~ In (RdStart j) extra) ->
            forall j,
              In (RdStart j)
                ((((([RdPrint LineConnected; RdPrint LineVersion; RdPrint LineStartedAt]
                  ++ (if running s Hourly then []
                      else [RdStart Hourly; RdPrint (LineTaskStarted Hourly)]))
                  ++ (if running s FourHour then []
                      else [RdStart FourHour; RdPrint (LineTaskStarted FourHour)]))
                  ++ (if running s VolumeMonitor then []
                      else [RdStart VolumeMonitor; RdPrint (LineTaskStarted VolumeMonitor)]))
                  ++ extra))
              <-> running s j = false).
  { intros extra Hextra j. rewrite !in_app_iff. split.
    - intros [[[[H|H]|H]|H]|H].
      + cbn in H. intuition discriminate.
      + destruct (running s Hourly) eqn:Hr; cbn in H; [done|].
        destruct H as [[= <-]|[[=]|[]]]. done.
      + destruct (running s FourHour) eqn:Hr; cbn in H; [done|].
        destruct H as [[= <-]|[[=]|[]]]. done.
      + destruct (running s VolumeMonitor) eqn:Hr; cbn in H; [done|].
        destruct H as [[= <-]|[[=]|[]]]. done.
      + by destruct (Hextra j).
    - intros Hj. destruct j; rewrite Hj; cbn; auto 10. }
  destruct channel as [[|]|e]; [destruct startup_send as [e|]|..];
    eexists _, _, _; (split; [reflexivity|]);
    (split; [exact Hall|]); (split; [by rewrite Ht3, Ht2, Ht1|]).
  - split; [apply Hstart; intros j [[=]|[]]|].
    split; [intros e' [= <-]; auto|].
    rewrite !in_app_iff. split; [|intros [_ [=]]].
    intros [[[[H|H]|H]|H]|H]; exfalso;
      repeat match goal with
             | H : In _ (if ?b then _ else _) |- _ => destruct b
             | H : In _ _ |- _ => cbn in H
             end; intuition discriminate.
  - split; [apply Hstart; intros j [[=]|[]]|].
    split; [intros e' [=]|]. split; [done|]. intros _. rewrite !in_app_iff. right. by left.
  - split; [rewrite <- (app_nil_r (_ ++ (if running s VolumeMonitor then _ else _)));
            apply Hstart; intros j []|].
    split; [intros e' [=]|]. split; [|intros [[=] _]].
    rewrite !in_app_iff. intros [[[H|H]|H]|H]; exfalso;
      repeat match goal with
             | H : In _ (if ?b then _ else _) |- _ => destruct b
             | H : In _ _ |- _ => cbn in H
             end; intuition discriminate.
  - split; [rewrite <- (app_nil_r (_ ++ (if running s VolumeMonitor then _ else _)));
            apply Hstart; intros j []|].
    split; [intros e' [= <-]; auto|]. split; [|intros [[=] _]].
    rewrite !in_app_iff. intros [[[H|H]|H]|H]; exfalso;
      repeat match goal with
             | H : In _ (if ?b then _ else _) |- _ => destruct b
             | H : In _ _ |- _ => cbn in H
             end; intuition discriminate.
Qed.

(** ** The further properties at concrete inputs *)

Lemma jobs_without_channel_witness :
  hourly_analysis env_no_channel (start ∅) = (Val ReturnedEarly, World [EvPrint LogNoChannel] ∅) /\
  four_hour_analysis env_no_channel (start ∅) = (Val ReturnedEarly, World [] ∅) /\
  volume_spike_monitor env_no_channel (start ∅) = (Val ReturnedEarly, World [] ∅).
Proof. apply (jobs_without_channel env_no_channel ∅). reflexivity. Defined.

Lemma four_hour_empty_fetch_witness :
  four_hour_analysis env_no_data (start ∅) =
  (Val ReturnedEarly, World [EvPrint LogFourHourStart; EvFetch] ∅).
Proof. apply (four_hour_empty_fetch env_no_data ∅); reflexivity. Defined.

Lemma hourly_without_btc_report_witness :
  exists w' : world,
    hourly_analysis env_no_btc (start ∅) = (Val Completed, w') /\
    sent w' =
      map (fun o => Embed (AlertEmbed o "🚀 HIGH POTENTIAL"))
        (take 5 (filter is_altcoin demo_ranked))
      ++ [Embed (AnalysisEmbed altcoins_md demo_john demo_alpha "1H Market Overview" None)] /\
    sleeps w' = replicate (length (take 5 (filter is_altcoin demo_ranked))) 2 /\
    last_analysis_time w' = <["hourly" := now env_no_btc]> ∅.
Proof.
  apply (hourly_without_btc_report env_no_btc ∅ altcoins_md demo_john demo_alpha demo_ranked);
    [ split; reflexivity | reflexivity | reflexivity | reflexivity | reflexivity
    | reflexivity | left; reflexivity ].
Defined.

Lemma hourly_brain_failure_witness :
  hourly_analysis env_brain_down (start ∅) =
  (Val (Handled brain_timeout),
   World [EvPrint LogHourlyStart; EvFetch; EvJohn "1H" false;
          EvPrint (LogHourlyError brain_timeout);
          EvSend (Text ("❌ **Analysis Error** - " +:+ exn_str brain_timeout))] ∅).
Proof.
  apply (hourly_brain_failure env_brain_down ∅ demo_md brain_timeout); reflexivity.
Defined.



Lemma volume_monitor_detector_failure_witness :
  volume_spike_monitor env_detector_down (start ∅) =
  (Val (Handled detector_failure),
   World [EvDetectVolume; EvPrint (LogVolumeError detector_failure)] ∅).
Proof.
  apply (proj1 (volume_monitor_detector_failure env_detector_down ∅ detector_failure
                  eq_refl)).
  reflexivity.
Defined.

Lemma manual_coin_found_witness :
  manual_analysis demo_env str_upper (Some "btc") (start ∅) =
  (Val Completed,
   World [EvSend analyzing_msg; EvFetch; EvDeepCoin (str_upper "btc");
          EvSend (Embed (AnalysisEmbed
                           [(str_upper "btc", [("price", 100); ("percent_change_24h", 2)])]
                           [] [] "Manual" (Some (str_upper "btc"))))] ∅).
Proof.
  apply (manual_coin_found demo_env str_upper ∅ "btc" demo_md
           [("price", 100); ("percent_change_24h", 2)] []);
    [reflexivity | reflexivity | reflexivity | discriminate | reflexivity | reflexivity].
Defined.

Lemma manual_case_insensitive_witness :
  manual_analysis demo_env str_upper (Some "eTh") (start ∅) =
  manual_analysis demo_env str_upper (Some (str_upper "eTh")) (start ∅).
Proof.
  apply (manual_case_insensitive demo_env str_upper "eTh" (start ∅)); reflexivity.
Defined.



Lemma commands_report_failures_witness :
  (exists r w', manual_analysis env_brain_down str_upper None (start ∅) = (Val r, w') /\
     forall e, r = Handled e ->
       last (sent w') = Some (Text ("❌ **Analysis failed** - " +:+ exn_str e))) /\
  (exists r w', top_gainers env_brain_down "24h" (start ∅) = (Val r, w') /\
     forall e, r = Handled e ->
       last (sent w') = Some (Text ("❌ **Error** - " +:+ exn_str e))).
Proof.
  apply (proj2 (proj2 (commands_report_failures env_brain_down str_upper None "24h"
                         (start ∅) ltac:(reflexivity)))).
Defined.

Lemma quiet_jobs_contain_errors_witness :
  exists r w', four_hour_analysis env_brain_down (start ∅) = (Val r, w') /\
    forall e, r = Handled e ->
      (exists w1, four_hour_try env_brain_down (start ∅) = (Exc e, w1) /\
                  w' = after w1 [EvPrint (LogFourHourError e)]) /\
      last_analysis_time w' = last_analysis_time (start ∅).
Proof. apply (proj1 (quiet_jobs_contain_errors env_brain_down (start ∅))). Defined.

Lemma commands_raise_when_channel_down_witness :
  manual_analysis (env_channel_down forbidden) str_upper None (start ∅) =
    (Exc forbidden,
     World [EvSendFailed analyzing_msg;
            EvSendFailed (Text ("❌ **Analysis failed** - " +:+ exn_str forbidden))] ∅) /\
  top_gainers (env_channel_down forbidden) "1h" (start ∅) =
    (Exc forbidden,
     World [EvSendFailed (Text ("📈 **Fetching top gainers for " +:+ "1h" +:+ "...**"));
            EvSendFailed (Text ("❌ **Error** - " +:+ exn_str forbidden))] ∅).
Proof.
  apply (commands_raise_when_channel_down (env_channel_down forbidden) str_upper forbidden
           None "1h" ∅).
  reflexivity.
Defined.

Lemma last_analysis_time_is_latest_completion_witness :
  final_state ∅ demo_runs !! "volume_monitor" = None.
Proof.
  apply (proj2 (last_analysis_time_is_latest_completion demo_runs "volume_monitor"));
    discriminate.
Defined.

Lemma top_unknown_timeframe_witness :
  top_sorted_coins "7d" fifteen_coins = take 10 fifteen_coins /\
  Forall (fun f => gf_change f = 0)
    (gainer_fields ("percent_change_" +:+ "7d") (top_sorted_coins "7d" fifteen_coins) 1).
Proof.
  apply (top_unknown_timeframe "7d" fifteen_coins). repeat constructor.
Defined.

Lemma on_ready_starts_stopped_loops_witness :
  exists (r : res unit) (s' : bot_state) (evs : list ready_event),
    on_ready (Val true) None 1000 fresh_bot = (r, (s', evs)) /\
    (forall j, running s' j = true) /\
    start_time s' = Some 1000 /\
    (forall j, In (RdStart j) evs <-> running fresh_bot j = false) /\
    (forall e, r = Exc e ->
       Val true = Exc e \/ (Val true = Val true /\ @None exn = Some e)) /\
    (In RdSendStartup evs <-> Val true = Val true /\ @None exn = None).
Proof. apply (on_ready_starts_stopped_loops (Val true) None 1000 fresh_bot). Defined.

(** The latest completions of the example schedule, and the alerts of the
    example market overview. *)
Example latest_demo :
  (latest "hourly" demo_runs, latest "four_hour" demo_runs) = (Some 1000, Some 1300).
Proof. vm_compute. reflexivity. Qed.

Example manual_market_demo :
  sleeps (manual_analysis demo_env str_upper (Some "") (start ∅)).2 = [2; 2] /\
  map snd (alerts_sent (manual_analysis demo_env str_upper (Some "") (start ∅)).2) =
    ["🎯 OPPORTUNITY #1"; "🎯 OPPORTUNITY #2"; "🎯 OPPORTUNITY #3"].
Proof. split; vm_compute; reflexivity. Qed.
